(** * AILLE: decision fusion engine and hash-chained audit logger

    A shallow embedding of [aille.hpp] (the single-header engine and its
    audit logger), of [aille_audit.cpp] (the stand-alone audit layer with
    its report) and of [extensions/aille_metrics.hpp] (the metrics
    collector), followed by the properties of the fusion pipeline, of the
    ledger and of the collector.

    Conventions of the embedding:
    - a C++ [float] is an IEEE-754 binary32 number, represented with the
      Standard Library's [spec_float] at precision 24 and maximal exponent
      128, and a [double] a binary64 number (precision 53, maximal
      exponent 1024); every arithmetic operation rounds to nearest, ties to
      even;
    - [int], [size_t] and [uint64_t] values are integers of [Z]; casts to an
      unsigned type reduce modulo 2^64, increments of a [uint64_t] wrap
      around, and signed overflow of an [int], being undefined behaviour,
      makes the computation undefined ([None]);
    - a [std::vector] or [std::deque] is a list, oldest element first;
    - [std::sort] is undefined on values that hold a NaN beside a number,
      and an ascending arrangement otherwise;
    - a [std::ofstream] is its open flag, its error bit, its buffer and the
      contents of the file, the device answering each flush;
    - the clock read by [makeDecision] is an argument ([now]);
    - [std::tanh], [std::hash<std::string>], the stream formatting of a
      [float] and [strftime] are parameters of the development. *)

From Stdlib Require Import String Ascii.
From Stdlib Require Import ZArith NArith List Bool Lia.
From Stdlib Require Import Floats.SpecFloat.
From Stdlib Require Import Sorting.Permutation Sorting.Sorted.
From Stdlib Require DecimalString HexadecimalString.
Import ListNotations.

Local Open Scope Z_scope.

(* ================================================================== *)
(** ** Machine integers *)
(* ================================================================== *)

Module MachineInt.

Definition INT_MAX : Z := 2147483647.
Definition SIZE_MOD : Z := 2 ^ 64.

(** [static_cast<size_t>(i)] for an [int] [i]. *)
Definition to_size_t (i : Z) : Z := i mod SIZE_MOD.

(** Reduction of a value into [uint64_t]. *)
Definition to_uint64 (i : Z) : Z := i mod SIZE_MOD.

(** [c++] on an [int]: undefined when [c] is [INT_MAX]. *)
Definition int_incr (c : Z) : option Z :=
  if c <? INT_MAX then Some (c + 1) else None.

(** [v.size()] of a container. *)
Definition size {A : Type} (l : list A) : Z := Z.of_nat (length l).

(** Decimal output of an integer ([operator<<] and [std::to_string]). *)
Definition show_int (z : Z) : string :=
  DecimalString.NilZero.string_of_int (Z.to_int z).

End MachineInt.
Import MachineInt.

(* ================================================================== *)
(** ** Single-precision arithmetic *)
(* ================================================================== *)

Module F32.

Definition float : Type := spec_float.

Definition prec : Z := 24.
Definition emax : Z := 128.

Definition fadd : float -> float -> float := SFadd prec emax.
Definition fmul : float -> float -> float := SFmul prec emax.
Definition fdiv : float -> float -> float := SFdiv prec emax.

(** [x >= y], false as soon as one side is a NaN. *)
Definition fge (x y : float) : bool := SFleb y x.
(** [x < y] and [x == y]. *)
Definition flt (x y : float) : bool := SFltb x y.
Definition feq (x y : float) : bool := SFeqb x y.

(** Conversion of an integer to [float] (round to nearest even). *)
Definition of_Z (z : Z) : float := binary_normalize prec emax z 0 false.

(** The literal [n/d] written in decimal in the source ([0.8f] is
    [decimal 8 10]): both operands are exact, so the IEEE division rounds
    the exact quotient once, which is how a literal is read. *)
Definition decimal (n d : Z) : float := fdiv (of_Z n) (of_Z d).

Definition f0 : float := Eval vm_compute in of_Z 0.
Definition f1 : float := Eval vm_compute in of_Z 1.
Definition fm1 : float := Eval vm_compute in of_Z (-1).
Definition f100 : float := Eval vm_compute in of_Z 100.
Definition f0_8 : float := Eval vm_compute in decimal 8 10.
Definition f0_1 : float := Eval vm_compute in decimal 1 10.
Definition f0_2 : float := Eval vm_compute in decimal 2 10.

Definition is_nan (x : float) : bool :=
  match x with S754_nan => true | _ => false end.

(** Members of the binary32 format. *)
Definition valid (x : float) : bool := valid_binary prec emax x.

(** Ascending arrangement of NaN-free values, as an insertion sort. *)
Fixpoint insert_sorted (x : float) (l : list float) : list float :=
  match l with
  | [] => [x]
  | y :: t => if flt x y then x :: y :: t else y :: insert_sorted x t
  end.

Definition sort (l : list float) : list float := fold_right insert_sorted [] l.

(** [std::sort] on a vector of [float] with the default [operator<].
    A NaN compares false with every value, so with a NaN beside a number
    the standard does not determine the result: as soon as two of the
    numbers differ [operator<] is no strict weak order on the values and
    the call is undefined behaviour; otherwise all the values are
    equivalent and their order is left open.  [std_sort] is [None] on such
    a vector.  On NaN-free values the result is an ascending arrangement;
    the program reads it only through the test [>= 0] of its element of
    index [n/2], whose outcome is the same for every ascending arrangement
    ([median_sign_any_sort] below), so [sort] stands for it.  A vector of
    NaN only has one arrangement, itself. *)
Definition std_sort (l : list float) : option (list float) :=
  if forallb is_nan l then Some l
  else if existsb is_nan l then None
  else Some (sort l).

End F32.
Import F32.

(* ================================================================== *)
(** ** Undefined behaviour as an error monad *)
(* ================================================================== *)

Definition bind {A B : Type} (m : option A) (k : A -> option B) : option B :=
  match m with
  | Some a => k a
  | None => None
  end.

Notation "x <- m ;; k" := (bind m (fun x => k))
  (at level 61, m at next level, right associativity).

(* ================================================================== *)
(** ** Data structures of [aille.hpp] *)
(* ================================================================== *)

Inductive DecisionStatus : Type :=
| DECISION_VALID
| REJECTED_LOW_CONFIDENCE
| REJECTED_NO_CONSENSUS
| FALLBACK_ACTIVATED
| ERROR_NO_MODELS.

Module ModelSignal.

Record t : Type := mk {
  value : float;
  confidence : float;
  timestamp_ns : Z;
  model_id : Z
}.

Definition set_confidence (s : t) (c : float) : t :=
  mk (value s) c (timestamp_ns s) (model_id s).

End ModelSignal.

Module Decision.

Record t : Type := mk {
  final_value : float;
  status : DecisionStatus;
  confidence : float;
  models_agreed : Z;
  fallback_used : bool;
  timestamp_ns : Z;
  contributing_models : list Z;
  reasoning : string
}.

(** The default constructor. *)
Definition init : t := mk f0 ERROR_NO_MODELS f0 0 false 0 [] EmptyString.

Definition set_final_value (d : t) (v : float) : t :=
  mk v (status d) (confidence d) (models_agreed d) (fallback_used d)
     (timestamp_ns d) (contributing_models d) (reasoning d).
Definition set_status (d : t) (s : DecisionStatus) : t :=
  mk (final_value d) s (confidence d) (models_agreed d) (fallback_used d)
     (timestamp_ns d) (contributing_models d) (reasoning d).
Definition set_confidence (d : t) (c : float) : t :=
  mk (final_value d) (status d) c (models_agreed d) (fallback_used d)
     (timestamp_ns d) (contributing_models d) (reasoning d).
Definition set_models_agreed (d : t) (n : Z) : t :=
  mk (final_value d) (status d) (confidence d) n (fallback_used d)
     (timestamp_ns d) (contributing_models d) (reasoning d).
Definition set_fallback_used (d : t) (b : bool) : t :=
  mk (final_value d) (status d) (confidence d) (models_agreed d) b
     (timestamp_ns d) (contributing_models d) (reasoning d).
Definition set_timestamp_ns (d : t) (ts : Z) : t :=
  mk (final_value d) (status d) (confidence d) (models_agreed d)
     (fallback_used d) ts (contributing_models d) (reasoning d).
Definition set_contributing_models (d : t) (ms : list Z) : t :=
  mk (final_value d) (status d) (confidence d) (models_agreed d)
     (fallback_used d) (timestamp_ns d) ms (reasoning d).
Definition set_reasoning (d : t) (r : string) : t :=
  mk (final_value d) (status d) (confidence d) (models_agreed d)
     (fallback_used d) (timestamp_ns d) (contributing_models d) r.

End Decision.

Module AILLEConfig.

Record t : Type := mk {
  min_confidence_threshold : float;
  grace_confidence_threshold : float;
  min_models_required : Z;
  sign_agreement_threshold : float;
  fallback_window_size : Z;
  fallback_position_scale : float;
  max_model_count : Z
}.

(** The default constructor. *)
Definition init : t :=
  mk (decimal 35 100) (decimal 25 100) 2 (decimal 66 100) 50 (decimal 1 10) 10.

End AILLEConfig.

(* ================================================================== *)
(** ** The engine of [aille.hpp] *)
(* ================================================================== *)

Module AILLEEngine.

Record t : Type := mk {
  config : AILLEConfig.t;
  fallback_buffer : list float
}.

(** [AILLEEngine()] and [AILLEEngine(cfg)]. *)
Definition init : t := mk AILLEConfig.init [].
Definition init_with (cfg : AILLEConfig.t) : t := mk cfg [].

Definition calculateFallbackValue (e : t) : float :=
  match fallback_buffer e with
  | [] => f0
  | _ =>
      let sum := fold_left (fun sum val => fadd sum val) (fallback_buffer e) f0 in
      fdiv sum (of_Z (size (fallback_buffer e)))
  end.

(** The loop [while (size > window) pop_front()]. *)
Fixpoint pop_while_over (window : Z) (buf : list float) : list float :=
  match buf with
  | [] => buf
  | _ :: rest => if size buf >? window then pop_while_over window rest else buf
  end.

Definition updateFallbackBuffer (e : t) (value : float) : t :=
  let pushed := fallback_buffer e ++ [value] in
  mk (config e)
     (pop_while_over (to_size_t (AILLEConfig.fallback_window_size (config e))) pushed).

Definition applySafetyLayer (e : t) (signals : list ModelSignal.t)
  : list ModelSignal.t :=
  fold_left
    (fun valid sig =>
       if fge (ModelSignal.confidence sig)
              (AILLEConfig.min_confidence_threshold (config e))
       then valid ++ [sig]
       else if fge (ModelSignal.confidence sig)
                   (AILLEConfig.grace_confidence_threshold (config e))
       then
         let grace_sig :=
           ModelSignal.set_confidence sig (fmul (ModelSignal.confidence sig) f0_8) in
         valid ++ [grace_sig]
       else valid)
    signals [].

(** What [checkConsensus] leaves behind: its return value and its two
    reference arguments; [consensus_value] is [None] when the call did not
    assign it. *)
Record Consensus : Type := mkConsensus {
  ok : bool;
  consensus_value : option float;
  models_agreed : Z
}.

(** [(v >= 0) ? 1.0f : -1.0f]. *)
Definition sign_of (v : float) : float := if fge v f0 then f1 else fm1.

Definition checkConsensus (e : t) (valid_signals : list ModelSignal.t)
  : option Consensus :=
  let min_models := AILLEConfig.min_models_required (config e) in
  if size valid_signals <? to_size_t min_models then
    Some (mkConsensus false None 0)
  else
    let values :=
      fold_left (fun vs sig => vs ++ [ModelSignal.value sig]) valid_signals [] in
    sorted <- std_sort values ;;
    median <- nth_error sorted (Z.to_nat (size sorted / 2)) ;;
    let median_sign := sign_of median in
    agreement_count <-
      fold_left
        (fun acc val =>
           c <- acc ;;
           if feq (sign_of val) median_sign then int_incr c else Some c)
        values (Some 0) ;;
    let agreement_ratio := fdiv (of_Z agreement_count) (of_Z (size values)) in
    if fge agreement_ratio (AILLEConfig.sign_agreement_threshold (config e))
       && (agreement_count >=? min_models)
    then
      sc <-
        fold_left
          (fun acc sig =>
             sc <- acc ;;
             if feq (sign_of (ModelSignal.value sig)) median_sign
             then
               count <- int_incr (snd sc) ;;
               Some (fadd (fst sc) (ModelSignal.value sig), count)
             else Some sc)
          valid_signals (Some (f0, 0)) ;;
      Some (mkConsensus true (Some (fdiv (fst sc) (of_Z (snd sc)))) agreement_count)
    else
      Some (mkConsensus false None agreement_count).

Definition getFallbackValue (e : t) : float :=
  let fb := calculateFallbackValue e in
  fmul (sign_of fb) (AILLEConfig.fallback_position_scale (config e)).

Definition reset (e : t) : t := mk (config e) [].
Definition getConfig (e : t) : AILLEConfig.t := config e.
Definition setConfig (e : t) (cfg : AILLEConfig.t) : t := mk cfg (fallback_buffer e).

Section WithLibm.

(** [std::tanh] on [float]. *)
Variable tanhf : float -> float.

Definition smoothPosition (signal scale : float) : float :=
  tanhf (fmul signal scale).

(** [makeDecision] returns the decision and the engine it leaves;
    [now] is what the clock answers at call entry. *)
Definition makeDecision (e : t) (now : Z) (model_signals : list ModelSignal.t)
  : option (Decision.t * t) :=
  let decision := Decision.set_timestamp_ns Decision.init now in
  match model_signals with
  | [] =>
      let decision := Decision.set_status decision ERROR_NO_MODELS in
      let decision := Decision.set_reasoning decision "No model inputs" in
      Some (decision, e)
  | _ =>
      let valid := applySafetyLayer e model_signals in
      match valid with
      | [] =>
          let decision := Decision.set_status decision REJECTED_LOW_CONFIDENCE in
          let decision := Decision.set_final_value decision (getFallbackValue e) in
          let decision := Decision.set_confidence decision f0_1 in
          let decision := Decision.set_fallback_used decision true in
          let decision :=
            Decision.set_reasoning decision "All models failed confidence - fallback" in
          Some (decision, e)
      | _ =>
          c <- checkConsensus e valid ;;
          if negb (ok c) then
            let decision := Decision.set_status decision REJECTED_NO_CONSENSUS in
            let decision := Decision.set_final_value decision (getFallbackValue e) in
            let decision := Decision.set_confidence decision f0_2 in
            let decision := Decision.set_fallback_used decision true in
            let decision := Decision.set_models_agreed decision (models_agreed c) in
            let decision :=
              Decision.set_reasoning decision "No consensus - fallback" in
            Some (decision, e)
          else
            cv <- consensus_value c ;;
            let decision := Decision.set_status decision DECISION_VALID in
            let decision :=
              Decision.set_final_value decision (smoothPosition cv f100) in
            let '(total_conf, decision) :=
              fold_left
                (fun acc sig =>
                   (fadd (fst acc) (ModelSignal.confidence sig),
                    Decision.set_contributing_models (snd acc)
                      (Decision.contributing_models (snd acc)
                         ++ [ModelSignal.model_id sig])))
                valid (f0, decision) in
            let decision :=
              Decision.set_confidence decision (fdiv total_conf (of_Z (size valid))) in
            let decision := Decision.set_models_agreed decision (models_agreed c) in
            let decision := Decision.set_fallback_used decision false in
            let decision :=
              Decision.set_reasoning decision
                ("Consensus: " ++ show_int (models_agreed c) ++ " models")%string in
            Some (decision, updateFallbackBuffer e (Decision.final_value decision))
      end
  end.

End WithLibm.

End AILLEEngine.

(* ================================================================== *)
(** ** Output file streams *)
(* ================================================================== *)

Module OStream.

(** A [std::ofstream] as the loggers use it: whether a file is attached,
    whether an error bit is set, the characters inserted but not yet handed
    to the device (the put area of the file buffer) and the contents of the
    file.  No exception mask is ever set by the program, so a failed
    operation only sets the bit; insertions and [flush] start with a sentry
    that does nothing on a stream in error, and only a successful [open]
    clears the bit.  The device is reached by [flush] and [close] only: the
    buffer is taken to hold the header and the line of a record.  The
    device takes or refuses a write as a whole. *)
Record t : Type := mk {
  is_open : bool;
  failed : bool;
  pending : string;
  written : string
}.

Definition init : t := mk false false EmptyString EmptyString.

(** The answer of the file system to an [open] in append mode: a refusal,
    or success with the position that [tellp] then reports. *)
Inductive open_answer : Type :=
| Refused
| OpenedAt (pos : Z).

(** [open]: on a stream that is already open it fails, leaving the file
    attached. *)
Definition open (f : t) (fs : open_answer) : t :=
  if is_open f then mk true true (pending f) (written f)
  else
    match fs with
    | Refused => mk false true (pending f) (written f)
    | OpenedAt _ => mk true false EmptyString (written f)
    end.

(** [tellp] right after [open]. *)
Definition tellp (f : t) (fs : open_answer) : Z :=
  if failed f then -1
  else match fs with Refused => -1 | OpenedAt pos => pos end.

(** One chain of insertions [<<]: into the buffer. *)
Definition insert (f : t) (s : string) : t :=
  if failed f then f
  else if is_open f then mk true false (pending f ++ s)%string (written f)
  else mk false true (pending f) (written f).

(** [flush]; [disk_ok] tells whether the device accepts the write.  A
    refused write sets the error bit and leaves the characters in the
    buffer. *)
Definition flush (f : t) (disk_ok : bool) : t :=
  if failed f then f
  else if is_open f then
    match pending f with
    | EmptyString => f
    | _ =>
        if disk_ok then mk true false EmptyString (written f ++ pending f)%string
        else mk true true (pending f) (written f)
    end
  else f.

(** A chain of insertions followed by [flush]. *)
Definition put (f : t) (disk_ok : bool) (s : string) : t :=
  flush (insert f s) disk_ok.

(** [close]: the buffer is handed to the device, whatever the error bits,
    and the file is detached; what the device refuses is lost. *)
Definition close (f : t) (disk_ok : bool) : t :=
  if is_open f then
    match pending f with
    | EmptyString => mk false (failed f) EmptyString (written f)
    | _ =>
        if disk_ok then mk false (failed f) EmptyString (written f ++ pending f)%string
        else mk false true EmptyString (written f)
    end
  else mk false true (pending f) (written f).

End OStream.

(* ================================================================== *)
(** ** Text formatting shared by the two audit loggers *)
(* ================================================================== *)

Definition genesis_hash : string := "0000000000000000".

Definition dquote : string := String (ascii_of_nat 34) EmptyString.
Definition newline : string := String (ascii_of_nat 10) EmptyString.

Fixpoint fill (n : nat) (c : ascii) : string :=
  match n with
  | O => EmptyString
  | S k => String c (fill k c)
  end.

(** [std::hex << std::setfill('0') << std::setw(16) << h]. *)
Definition hex16 (h : N) : string :=
  let digits := HexadecimalString.NilZero.string_of_uint (N.to_hex_uint h) in
  (fill (16 - String.length digits) "0"%char ++ digits)%string.

Definition show_bool (b : bool) : string := if b then "true" else "false".

(* ================================================================== *)
(** ** The audit logger of [aille.hpp] *)
(* ================================================================== *)

Module AuditHpp.

Module AuditRecord.

Record t : Type := mk {
  timestamp_ns : Z;
  decision_id : Z;
  status : DecisionStatus;
  final_value : float;
  confidence : float;
  models_agreed : Z;
  fallback_used : bool;
  reasoning : string;
  symbol : string;
  strategy_id : string;
  hash : string;
  prev_hash : string
}.

Definition init : t :=
  mk 0 0 DECISION_VALID f0 f0 0 false EmptyString EmptyString EmptyString
     EmptyString EmptyString.

Definition set_hash (r : t) (h : string) : t :=
  mk (timestamp_ns r) (decision_id r) (status r) (final_value r) (confidence r)
     (models_agreed r) (fallback_used r) (reasoning r) (symbol r) (strategy_id r)
     h (prev_hash r).

Definition set_final_value (r : t) (v : float) : t :=
  mk (timestamp_ns r) (decision_id r) (status r) v (confidence r)
     (models_agreed r) (fallback_used r) (reasoning r) (symbol r) (strategy_id r)
     (hash r) (prev_hash r).

End AuditRecord.

Record AuditLogger : Type := mkLogger {
  log_file : OStream.t;
  audit_trail : list AuditRecord.t;
  next_decision_id : Z;
  last_hash : string
}.

(** [AuditLogger()]. *)
Definition init : AuditLogger := mkLogger OStream.init [] 1 genesis_hash.

Definition statusToString (s : DecisionStatus) : string :=
  match s with
  | DECISION_VALID => "VALID"
  | REJECTED_LOW_CONFIDENCE => "REJECTED_CONF"
  | REJECTED_NO_CONSENSUS => "REJECTED_CONSENSUS"
  | FALLBACK_ACTIVATED => "FALLBACK"
  | ERROR_NO_MODELS => "ERROR"
  end.

Definition header : string :=
  ("timestamp,id,status,value,conf,models,fallback,"
   ++ "reasoning,symbol,strategy,hash,prev_hash" ++ newline)%string.

(** [open]: the header is inserted, not flushed. *)
Definition open (lg : AuditLogger) (fs : OStream.open_answer)
  : bool * AuditLogger :=
  let f := OStream.open (log_file lg) fs in
  if negb (OStream.is_open f) then
    (false, mkLogger f (audit_trail lg) (next_decision_id lg) (last_hash lg))
  else
    let f := if OStream.tellp f fs =? 0 then OStream.insert f header else f in
    (true, mkLogger f (audit_trail lg) (next_decision_id lg) (last_hash lg)).

(** [AuditLogger(filename)]: the result of [open] is dropped. *)
Definition init_with (fs : OStream.open_answer) : AuditLogger :=
  snd (open init fs).

(** [close], which the destructor runs; [disk_ok] tells whether the device
    accepts what is still in the buffer. *)
Definition close (lg : AuditLogger) (disk_ok : bool) : AuditLogger :=
  if OStream.is_open (log_file lg) then
    mkLogger (OStream.close (log_file lg) disk_ok) (audit_trail lg)
             (next_decision_id lg) (last_hash lg)
  else lg.

(** The loop of [verifyIntegrity], [expected] being its local variable. *)
Fixpoint verify_from (expected : string) (trail : list AuditRecord.t) : bool :=
  match trail with
  | [] => true
  | rec :: rest =>
      if negb (String.eqb (AuditRecord.prev_hash rec) expected) then false
      else verify_from (AuditRecord.hash rec) rest
  end.

Definition verifyIntegrity (lg : AuditLogger) : bool :=
  match audit_trail lg with
  | [] => true
  | _ => verify_from genesis_hash (audit_trail lg)
  end.

Section WithLibrary.

(** [operator<<] on a [float], [std::hash<std::string>], and [gmtime]
    followed by [strftime] with the format of the source, on a number of
    seconds. *)
Variable show_float : float -> string.
Variable hasher : string -> N.
Variable strftime_utc : Z -> string.

Definition computeHash (record : AuditRecord.t) : string :=
  let ss :=
    (show_int (AuditRecord.timestamp_ns record)
     ++ show_int (AuditRecord.decision_id record)
     ++ show_float (AuditRecord.final_value record)
     ++ show_float (AuditRecord.confidence record)
     ++ AuditRecord.reasoning record
     ++ AuditRecord.prev_hash record)%string in
  hex16 (hasher ss).

Definition csv_line (rec : AuditRecord.t) : string :=
  (strftime_utc (AuditRecord.timestamp_ns rec / 1000000000) ++ ","
   ++ show_int (AuditRecord.decision_id rec) ++ ","
   ++ statusToString (AuditRecord.status rec) ++ ","
   ++ show_float (AuditRecord.final_value rec) ++ ","
   ++ show_float (AuditRecord.confidence rec) ++ ","
   ++ show_int (AuditRecord.models_agreed rec) ++ ","
   ++ show_bool (AuditRecord.fallback_used rec) ++ "," ++ dquote
   ++ AuditRecord.reasoning rec ++ dquote ++ ","
   ++ AuditRecord.symbol rec ++ ","
   ++ AuditRecord.strategy_id rec ++ ","
   ++ AuditRecord.hash rec ++ ","
   ++ AuditRecord.prev_hash rec ++ newline)%string.

(** [logDecision] is a [void] method: all it hands back is the logger
    it leaves.  [disk_ok] tells whether the device accepts the write. *)
Definition logDecision (lg : AuditLogger) (disk_ok : bool) (d : Decision.t)
           (symbol strategy : string) : AuditLogger :=
  let rec :=
    AuditRecord.mk
      (Decision.timestamp_ns d) (next_decision_id lg) (Decision.status d)
      (Decision.final_value d) (Decision.confidence d) (Decision.models_agreed d)
      (Decision.fallback_used d) (Decision.reasoning d) symbol strategy
      (AuditRecord.hash AuditRecord.init) (last_hash lg) in
  let next := to_uint64 (next_decision_id lg + 1) in
  let rec := AuditRecord.set_hash rec (computeHash rec) in
  let last := AuditRecord.hash rec in
  let trail := audit_trail lg ++ [rec] in
  let f :=
    if OStream.is_open (log_file lg)
    then OStream.put (log_file lg) disk_ok (csv_line rec)
    else log_file lg in
  mkLogger f trail next last.

End WithLibrary.

End AuditHpp.

(* ================================================================== *)
(** ** The audit logger of [aille_audit.cpp] *)
(* ================================================================== *)

Module AuditCpp.

Module AuditRecord.

Record t : Type := mk {
  timestamp_ns : Z;
  decision_id : Z;
  status : DecisionStatus;
  final_value : float;
  confidence : float;
  models_agreed : Z;
  fallback_used : bool;
  reasoning : string;
  contributing_models : list Z;
  symbol : string;
  strategy_id : string;
  user_id : string;
  hash : string;
  prev_hash : string
}.

Definition init : t :=
  mk 0 0 DECISION_VALID f0 f0 0 false EmptyString [] EmptyString EmptyString
     EmptyString EmptyString EmptyString.

Definition set_hash (r : t) (h : string) : t :=
  mk (timestamp_ns r) (decision_id r) (status r) (final_value r) (confidence r)
     (models_agreed r) (fallback_used r) (reasoning r) (contributing_models r)
     (symbol r) (strategy_id r) (user_id r) h (prev_hash r).

Definition set_final_value (r : t) (v : float) : t :=
  mk (timestamp_ns r) (decision_id r) (status r) v (confidence r)
     (models_agreed r) (fallback_used r) (reasoning r) (contributing_models r)
     (symbol r) (strategy_id r) (user_id r) (hash r) (prev_hash r).

End AuditRecord.

Record AuditLogger : Type := mkLogger {
  log_file : OStream.t;
  audit_trail : list AuditRecord.t;
  next_decision_id : Z;
  last_hash : string
}.

Definition init : AuditLogger := mkLogger OStream.init [] 1 genesis_hash.

Definition statusToString (s : DecisionStatus) : string :=
  match s with
  | DECISION_VALID => "VALID"
  | REJECTED_LOW_CONFIDENCE => "REJECTED_CONFIDENCE"
  | REJECTED_NO_CONSENSUS => "REJECTED_CONSENSUS"
  | FALLBACK_ACTIVATED => "FALLBACK"
  | ERROR_NO_MODELS => "ERROR_NO_MODELS"
  end.

Definition header : string :=
  ("timestamp,decision_id,status,final_value,confidence,"
   ++ "models_agreed,fallback_used,reasoning,contributing_models,"
   ++ "symbol,strategy_id,user_id,hash,prev_hash" ++ newline)%string.

(** [open]: the header is inserted, not flushed. *)
Definition open (lg : AuditLogger) (fs : OStream.open_answer)
  : bool * AuditLogger :=
  let f := OStream.open (log_file lg) fs in
  if negb (OStream.is_open f) then
    (false, mkLogger f (audit_trail lg) (next_decision_id lg) (last_hash lg))
  else
    let f := if OStream.tellp f fs =? 0 then OStream.insert f header else f in
    (true, mkLogger f (audit_trail lg) (next_decision_id lg) (last_hash lg)).

(** [AuditLogger(log_filename)]: the result of [open] is dropped. *)
Definition init_with (fs : OStream.open_answer) : AuditLogger :=
  snd (open init fs).

(** [close], which the destructor runs; [disk_ok] tells whether the device
    accepts what is still in the buffer. *)
Definition close (lg : AuditLogger) (disk_ok : bool) : AuditLogger :=
  if OStream.is_open (log_file lg) then
    mkLogger (OStream.close (log_file lg) disk_ok) (audit_trail lg)
             (next_decision_id lg) (last_hash lg)
  else lg.

Fixpoint verify_from (expected_hash : string) (trail : list AuditRecord.t) : bool :=
  match trail with
  | [] => true
  | record :: rest =>
      if negb (String.eqb (AuditRecord.prev_hash record) expected_hash) then false
      else verify_from (AuditRecord.hash record) rest
  end.

Definition verifyIntegrity (lg : AuditLogger) : bool :=
  match audit_trail lg with
  | [] => true
  | _ => verify_from genesis_hash (audit_trail lg)
  end.


(** The loop writing the contributing models, separated by commas. *)
Definition show_models (ms : list Z) : string :=
  snd (fold_left
         (fun acc m =>
            let sep := if 0 <? fst acc then ","%string else EmptyString in
            (fst acc + 1, (snd acc ++ sep ++ show_int m)%string))
         ms (0, EmptyString)).

Section WithLibrary.

Variable show_float : float -> string.
Variable hasher : string -> N.
Variable strftime_utc : Z -> string.

Definition getTimestamp (ns : Z) : string := strftime_utc (ns / 1000000000).

Definition computeHash (record : AuditRecord.t) : string :=
  let ss :=
    (show_int (AuditRecord.timestamp_ns record)
     ++ show_int (AuditRecord.decision_id record)
     ++ show_float (AuditRecord.final_value record)
     ++ show_float (AuditRecord.confidence record)
     ++ show_int (AuditRecord.models_agreed record)
     ++ AuditRecord.reasoning record
     ++ AuditRecord.prev_hash record)%string in
  hex16 (hasher ss).

Definition csv_line (record : AuditRecord.t) : string :=
  (getTimestamp (AuditRecord.timestamp_ns record) ++ ","
   ++ show_int (AuditRecord.decision_id record) ++ ","
   ++ statusToString (AuditRecord.status record) ++ ","
   ++ show_float (AuditRecord.final_value record) ++ ","
   ++ show_float (AuditRecord.confidence record) ++ ","
   ++ show_int (AuditRecord.models_agreed record) ++ ","
   ++ show_bool (AuditRecord.fallback_used record) ++ ","
   ++ dquote ++ AuditRecord.reasoning record ++ dquote ++ ","
   ++ dquote ++ "[" ++ show_models (AuditRecord.contributing_models record)
   ++ "]" ++ dquote ++ ","
   ++ AuditRecord.symbol record ++ ","
   ++ AuditRecord.strategy_id record ++ ","
   ++ AuditRecord.user_id record ++ ","
   ++ AuditRecord.hash record ++ ","
   ++ AuditRecord.prev_hash record ++ newline)%string.

Definition logDecision (lg : AuditLogger) (disk_ok : bool) (decision : Decision.t)
           (symbol strategy_id user_id : string) : AuditLogger :=
  let record :=
    AuditRecord.mk
      (Decision.timestamp_ns decision) (next_decision_id lg)
      (Decision.status decision) (Decision.final_value decision)
      (Decision.confidence decision) (Decision.models_agreed decision)
      (Decision.fallback_used decision) (Decision.reasoning decision)
      (Decision.contributing_models decision) symbol strategy_id user_id
      (AuditRecord.hash AuditRecord.init) (last_hash lg) in
  let next := to_uint64 (next_decision_id lg + 1) in
  let record := AuditRecord.set_hash record (computeHash record) in
  let last := AuditRecord.hash record in
  let trail := audit_trail lg ++ [record] in
  let f :=
    if OStream.is_open (log_file lg)
    then OStream.put (log_file lg) disk_ok (csv_line record)
    else log_file lg in
  mkLogger f trail next last.

End WithLibrary.

End AuditCpp.

(* ================================================================== *)
(** ** The regulatory report of [aille_audit.cpp] *)
(* ================================================================== *)

Module Report.

(** The five [int] counters of [generateReport]. *)
Record Counters : Type := mkCounters {
  total_decisions : Z;
  valid_decisions : Z;
  fallback_activations : Z;
  rejected_confidence : Z;
  rejected_consensus : Z
}.

Definition status_eqb (a b : DecisionStatus) : bool :=
  match a, b with
  | DECISION_VALID, DECISION_VALID
  | REJECTED_LOW_CONFIDENCE, REJECTED_LOW_CONFIDENCE
  | REJECTED_NO_CONSENSUS, REJECTED_NO_CONSENSUS
  | FALLBACK_ACTIVATED, FALLBACK_ACTIVATED
  | ERROR_NO_MODELS, ERROR_NO_MODELS => true
  | _, _ => false
  end.

(** [record.timestamp_ns >= start_ns && record.timestamp_ns <= end_ns]. *)
Definition in_period (start_ns end_ns : Z) (record : AuditCpp.AuditRecord.t) : bool :=
  (AuditCpp.AuditRecord.timestamp_ns record >=? start_ns)
  && (AuditCpp.AuditRecord.timestamp_ns record <=? end_ns).

(** [if (cond) counter++]. *)
Definition incr_if (cond : bool) (counter : Z) : option Z :=
  if cond then int_incr counter else Some counter.

(** The counting loop over the trail. *)
Definition count_records (start_ns end_ns : Z) (trail : list AuditCpp.AuditRecord.t)
  : option Counters :=
  fold_left
    (fun acc record =>
       c <- acc ;;
       if in_period start_ns end_ns record then
         total <- int_incr (total_decisions c) ;;
         valid <- incr_if (status_eqb (AuditCpp.AuditRecord.status record)
                                      DECISION_VALID)
                          (valid_decisions c) ;;
         fallback <- incr_if (AuditCpp.AuditRecord.fallback_used record)
                             (fallback_activations c) ;;
         conf <- incr_if (status_eqb (AuditCpp.AuditRecord.status record)
                                     REJECTED_LOW_CONFIDENCE)
                         (rejected_confidence c) ;;
         cons <- incr_if (status_eqb (AuditCpp.AuditRecord.status record)
                                     REJECTED_NO_CONSENSUS)
                         (rejected_consensus c) ;;
         Some (mkCounters total valid fallback conf cons)
       else Some c)
    trail (Some (mkCounters 0 0 0 0 0)).

Section WithLibrary.

Variable show_float : float -> string.
Variable strftime_utc : Z -> string.

(** [total > 0 ? (100.0f * part / total) : 0.0f]. *)
Definition percentage (part total : Z) : float :=
  if total >? 0 then fdiv (fmul f100 (of_Z part)) (of_Z total) else f0.

Definition detail_line (record : AuditCpp.AuditRecord.t) : string :=
  (AuditCpp.getTimestamp strftime_utc (AuditCpp.AuditRecord.timestamp_ns record)
   ++ " | " ++ "ID:" ++ show_int (AuditCpp.AuditRecord.decision_id record) ++ " | "
   ++ AuditCpp.statusToString (AuditCpp.AuditRecord.status record) ++ " | "
   ++ "Value:" ++ show_float (AuditCpp.AuditRecord.final_value record) ++ " | "
   ++ "Conf:" ++ show_float (AuditCpp.AuditRecord.confidence record) ++ " | "
   ++ AuditCpp.AuditRecord.reasoning record ++ newline)%string.

(** The second loop, writing one line per record of the period. *)
Definition detail_lines (start_ns end_ns : Z) (trail : list AuditCpp.AuditRecord.t)
  : string :=
  fold_left
    (fun out record =>
       if in_period start_ns end_ns record
       then (out ++ detail_line record)%string else out)
    trail EmptyString.

Definition report_text (lg : AuditCpp.AuditLogger) (start_ns end_ns : Z) (c : Counters)
  : string :=
  ("AILLE Framework - Regulatory Compliance Report" ++ newline
   ++ "==============================================" ++ newline ++ newline
   ++ "Report Period: " ++ AuditCpp.getTimestamp strftime_utc start_ns
   ++ " to " ++ AuditCpp.getTimestamp strftime_utc end_ns ++ newline ++ newline
   ++ "Total Decisions: " ++ show_int (total_decisions c) ++ newline
   ++ "Valid Decisions: " ++ show_int (valid_decisions c) ++ " ("
   ++ show_float (percentage (valid_decisions c) (total_decisions c))
   ++ "%)" ++ newline
   ++ "Fallback Activations: " ++ show_int (fallback_activations c) ++ " ("
   ++ show_float (percentage (fallback_activations c) (total_decisions c))
   ++ "%)" ++ newline
   ++ "Rejected (Confidence): " ++ show_int (rejected_confidence c) ++ newline
   ++ "Rejected (Consensus): " ++ show_int (rejected_consensus c) ++ newline ++ newline
   ++ "Audit Trail Integrity: "
   ++ (if AuditCpp.verifyIntegrity lg then "VERIFIED" else "COMPROMISED")
   ++ newline ++ newline
   ++ "Detailed Log:" ++ newline
   ++ "-------------" ++ newline
   ++ detail_lines start_ns end_ns (AuditCpp.audit_trail lg))%string.

(** [generateReport]: [can_open] tells whether the report file could be
    opened; the result is the text inserted into it, [Some None] when the
    method returns at once because the file is not open, and [None] when a
    counter overflows.  The logger is left as it was (the method is
    [const]). *)
Definition generateReport (lg : AuditCpp.AuditLogger) (can_open : bool)
           (start_ns end_ns : Z) : option (option string) :=
  if negb can_open then Some None
  else
    c <- count_records start_ns end_ns (AuditCpp.audit_trail lg) ;;
    Some (Some (report_text lg start_ns end_ns c)).

End WithLibrary.

End Report.

(* ================================================================== *)
(** ** Double-precision arithmetic *)
(* ================================================================== *)

Module D64.

(** A C++ [double] is an IEEE-754 binary64 number. *)
Definition double : Type := spec_float.

Definition prec : Z := 53.
Definition emax : Z := 1024.

Definition dadd : double -> double -> double := SFadd prec emax.
Definition dsub : double -> double -> double := SFsub prec emax.
Definition dmul : double -> double -> double := SFmul prec emax.
Definition ddiv : double -> double -> double := SFdiv prec emax.
Definition dsqrt : double -> double := SFsqrt prec emax.

Definition of_Z (z : Z) : double := binary_normalize prec emax z 0 false.

(** Promotion of a [float] (exact) and [static_cast<float>] of a [double]
    (rounding to nearest even). *)
Definition of_float (x : float) : double :=
  match x with
  | S754_finite s m e => binary_round prec emax s m e
  | _ => x
  end.

Definition to_float (x : double) : float :=
  match x with
  | S754_finite s m e => binary_round F32.prec F32.emax s m e
  | _ => x
  end.

Definition d0 : double := Eval vm_compute in of_Z 0.

End D64.

(* ================================================================== *)
(** ** The metrics collector of [extensions/aille_metrics.hpp] *)
(* ================================================================== *)

Module MetricsSnapshot.

Record t : Type := mk {
  total_decisions : Z;
  valid_decisions : Z;
  fallback_activations : Z;
  rejected_confidence : Z;
  rejected_consensus : Z;
  invalid_inputs : Z;
  average_confidence : float;
  fallback_rate : float;
  consensus_failure_rate : float;
  min_confidence : float;
  max_confidence : float;
  stddev_confidence : float;
  models_agreed_histogram : list (Z * Z);
  last_decision_timestamp_ns : Z;
  overflow_detected : bool
}.

(** [MetricsSnapshot()]. *)
Definition init : t := mk 0 0 0 0 0 0 f0 f0 f0 f0 f0 f0 [] 0 false.

End MetricsSnapshot.

Module MetricsCollector.

Import MetricsSnapshot.

Definition UINT64_MAX : Z := 2 ^ 64 - 1.
Definition MAX_SAMPLES : Z := 10000.

(** The collector; every method runs under the mutex, so the methods are
    modelled as atomic steps on this state. *)
Record t : Type := mkCollector {
  snapshot : MetricsSnapshot.t;
  confidence_samples : list float;
  sample_write_index : Z;
  samples_buffer_full : bool;
  overflow_flag : bool
}.

(** [MetricsCollector()]. *)
Definition init : t := mkCollector MetricsSnapshot.init [] 0 false false.

Definition isinf (x : float) : bool :=
  match x with S754_infinity _ => true | _ => false end.

Definition isValidDecision (d : Decision.t) : bool :=
  if is_nan (Decision.confidence d) || isinf (Decision.confidence d) then false
  else if flt (Decision.confidence d) f0 || flt f1 (Decision.confidence d) then false
  else if Decision.timestamp_ns d =? 0 then false
  else if Decision.models_agreed d <? 0 then false
  else true.

(** [v[i] = x] on a vector: undefined out of range. *)
Fixpoint store (v : list float) (i : nat) (x : float) : option (list float) :=
  match v, i with
  | [], _ => None
  | _ :: rest, O => Some (x :: rest)
  | y :: rest, S k => rest' <- store rest k x ;; Some (y :: rest')
  end.

(** [addConfidenceSample]: the new samples, write index and full flag. *)
Definition addConfidenceSample (c : t) (confidence : float)
  : option (list float * Z * bool) :=
  if size (confidence_samples c) <? MAX_SAMPLES then
    Some (confidence_samples c ++ [confidence], sample_write_index c,
          samples_buffer_full c)
  else
    samples <- store (confidence_samples c) (Z.to_nat (sample_write_index c))
                     confidence ;;
    Some (samples, (sample_write_index c + 1) mod MAX_SAMPLES, true).

(** [histogram[k]++] on the unordered map: the entry is created at 0 when
    absent. *)
Fixpoint hist_incr (h : list (Z * Z)) (k : Z) : list (Z * Z) :=
  match h with
  | [] => [(k, to_uint64 (0 + 1))]
  | (k', n) :: rest =>
      if k' =? k then (k', to_uint64 (n + 1)) :: rest
      else (k', n) :: hist_incr rest k
  end.

Fixpoint hist_get (h : list (Z * Z)) (k : Z) : option Z :=
  match h with
  | [] => None
  | (k', n) :: rest => if k' =? k then Some n else hist_get rest k
  end.

(** [std::minmax_element]: the first smallest and the last largest
    element. *)
Definition min_element (first : float) (rest : list float) : float :=
  fold_left (fun m x => if flt x m then x else m) rest first.
Definition max_element (first : float) (rest : list float) : float :=
  fold_left (fun m x => if flt x m then m else x) rest first.

(** [recomputeStatistics], on the counters [s] and the samples. *)
Definition recomputeStatistics (s : MetricsSnapshot.t) (samples : list float)
  : MetricsSnapshot.t :=
  if total_decisions s =? 0 then s
  else
    let rate := fdiv (F32.of_Z (fallback_activations s)) (F32.of_Z (total_decisions s)) in
    let cfr := fdiv (F32.of_Z (rejected_consensus s)) (F32.of_Z (total_decisions s)) in
    match samples with
    | [] =>
        mk (total_decisions s) (valid_decisions s) (fallback_activations s)
           (rejected_confidence s) (rejected_consensus s) (invalid_inputs s)
           f0 rate cfr f0 f0 f0
           (models_agreed_histogram s) (last_decision_timestamp_ns s)
           (overflow_detected s)
    | first :: rest =>
        let sum := fold_left (fun acc x => D64.dadd acc (D64.of_float x)) samples D64.d0 in
        let average := D64.to_float (D64.ddiv sum (D64.of_Z (size samples))) in
        let mean := D64.of_float average in
        let sq_sum :=
          fold_left
            (fun acc val =>
               let diff := D64.dsub (D64.of_float val) mean in
               D64.dadd acc (D64.dmul diff diff))
            samples D64.d0 in
        let stddev :=
          D64.to_float (D64.dsqrt (D64.ddiv sq_sum (D64.of_Z (size samples)))) in
        mk (total_decisions s) (valid_decisions s) (fallback_activations s)
           (rejected_confidence s) (rejected_consensus s) (invalid_inputs s)
           average rate cfr (min_element first rest) (max_element first rest) stddev
           (models_agreed_histogram s) (last_decision_timestamp_ns s)
           (overflow_detected s)
    end.

(** The [switch] on the status: the counters valid, fallback, rejected
    (confidence) and rejected (consensus) after it. *)
Definition track_status (st : DecisionStatus) (s : MetricsSnapshot.t)
  : Z * Z * Z * Z :=
  match st with
  | DECISION_VALID =>
      (to_uint64 (valid_decisions s + 1), fallback_activations s,
       rejected_confidence s, rejected_consensus s)
  | REJECTED_LOW_CONFIDENCE =>
      (valid_decisions s, to_uint64 (fallback_activations s + 1),
       to_uint64 (rejected_confidence s + 1), rejected_consensus s)
  | REJECTED_NO_CONSENSUS =>
      (valid_decisions s, to_uint64 (fallback_activations s + 1),
       rejected_confidence s, to_uint64 (rejected_consensus s + 1))
  | FALLBACK_ACTIVATED =>
      (valid_decisions s, to_uint64 (fallback_activations s + 1),
       rejected_confidence s, rejected_consensus s)
  | ERROR_NO_MODELS =>
      (valid_decisions s, fallback_activations s,
       rejected_confidence s, rejected_consensus s)
  end.

Definition observeDecision (c : t) (d : Decision.t) : option t :=
  let s := snapshot c in
  if negb (isValidDecision d) then
    Some (mkCollector
            (mk (total_decisions s) (valid_decisions s) (fallback_activations s)
                (rejected_confidence s) (rejected_consensus s)
                (to_uint64 (invalid_inputs s + 1))
                (average_confidence s) (fallback_rate s) (consensus_failure_rate s)
                (min_confidence s) (max_confidence s) (stddev_confidence s)
                (models_agreed_histogram s) (last_decision_timestamp_ns s)
                (overflow_detected s))
            (confidence_samples c) (sample_write_index c) (samples_buffer_full c)
            (overflow_flag c))
  else if total_decisions s =? UINT64_MAX then
    Some (mkCollector
            (mk (total_decisions s) (valid_decisions s) (fallback_activations s)
                (rejected_confidence s) (rejected_consensus s) (invalid_inputs s)
                (average_confidence s) (fallback_rate s) (consensus_failure_rate s)
                (min_confidence s) (max_confidence s) (stddev_confidence s)
                (models_agreed_histogram s) (last_decision_timestamp_ns s)
                true)
            (confidence_samples c) (sample_write_index c) (samples_buffer_full c)
            true)
  else
    added <- addConfidenceSample c (Decision.confidence d) ;;
    let '(samples, index, full) := added in
    let '(nvalid, nfallback, nconf, ncons) := track_status (Decision.status d) s in
    let histogram :=
      if (Decision.models_agreed d >=? 0) && (Decision.models_agreed d <? 1000)
      then hist_incr (models_agreed_histogram s) (Decision.models_agreed d)
      else models_agreed_histogram s in
    let counted :=
      mk (to_uint64 (total_decisions s + 1)) nvalid nfallback nconf ncons
         (invalid_inputs s)
         (average_confidence s) (fallback_rate s) (consensus_failure_rate s)
         (min_confidence s) (max_confidence s) (stddev_confidence s)
         histogram (Decision.timestamp_ns d) (overflow_detected s) in
    Some (mkCollector (recomputeStatistics counted samples) samples index full
                      (overflow_flag c)).

Definition getSnapshot (c : t) : MetricsSnapshot.t := snapshot c.

(** [isHealthy(max_fallback_rate)]; the default argument is [0.10f]. *)
Definition isHealthy (c : t) (max_fallback_rate : float) : bool :=
  fge max_fallback_rate (fallback_rate (snapshot c))
  && negb (overflow_detected (snapshot c)).

Definition reset (c : t) : t := mkCollector MetricsSnapshot.init [] 0 false false.

Definition getSampleCount (c : t) : Z :=
  if samples_buffer_full c then MAX_SAMPLES else size (confidence_samples c).

(** Runs of the collector: observations and resets. *)
Inductive Op : Type :=
| Observe (d : Decision.t)
| Reset.

Definition step (c : t) (op : Op) : option t :=
  match op with
  | Observe d => observeDecision c d
  | Reset => Some (reset c)
  end.

Fixpoint run (c : t) (ops : list Op) : option t :=
  match ops with
  | [] => Some c
  | op :: rest => c' <- step c op ;; run c' rest
  end.

(** What every reachable collector satisfies. *)
Definition invariant (c : t) : Prop :=
  let s := snapshot c in
  0 <= total_decisions s <= UINT64_MAX
  /\ 0 <= valid_decisions s
  /\ 0 <= rejected_confidence s
  /\ 0 <= rejected_consensus s
  /\ rejected_confidence s + rejected_consensus s <= fallback_activations s
  /\ valid_decisions s + fallback_activations s <= total_decisions s
  /\ size (confidence_samples c) = Z.min (total_decisions s) MAX_SAMPLES
  /\ 0 <= sample_write_index c < MAX_SAMPLES
  /\ (samples_buffer_full c = true -> size (confidence_samples c) = MAX_SAMPLES)
  /\ (overflow_detected s = true -> total_decisions s = UINT64_MAX)
  /\ overflow_flag c = overflow_detected s.

(** The decisions that [observeDecision] counts, and counts over them. *)
Definition accepted (ds : list Decision.t) : list Decision.t :=
  List.filter isValidDecision ds.

Definition count (P : Decision.t -> bool) (ds : list Decision.t) : Z :=
  size (List.filter P (accepted ds)).

Definition has_status (st : DecisionStatus) (d : Decision.t) : bool :=
  Report.status_eqb (Decision.status d) st.

Definition is_fallback (d : Decision.t) : bool :=
  match Decision.status d with
  | REJECTED_LOW_CONFIDENCE | REJECTED_NO_CONSENSUS | FALLBACK_ACTIVATED => true
  | DECISION_VALID | ERROR_NO_MODELS => false
  end.

Definition in_bucket (k : Z) (d : Decision.t) : bool :=
  (Decision.models_agreed d =? k) && (k <? 1000).

(** The slot the next overwrite goes to after [n] accepted decisions. *)
Definition write_index_after (n : Z) : Z := Z.max 0 (n - MAX_SAMPLES) mod MAX_SAMPLES.

(** The buffer read round from the write index: oldest sample first. *)
Definition unrolled (c : t) : list float :=
  skipn (Z.to_nat (sample_write_index c)) (confidence_samples c)
  ++ firstn (Z.to_nat (sample_write_index c)) (confidence_samples c).

(** The last [n] elements of a list. *)
Definition lastn {A : Type} (n : Z) (l : list A) : list A :=
  skipn (length l - Z.to_nat n) l.

(** A confidence that [isValidDecision] lets through: a number of [0, 1]. *)
Definition in_unit (x : float) : Prop :=
  is_nan x = false /\ fge x f0 = true /\ fge f1 x = true.

(** The extremes of the snapshot are those of the samples. *)
Definition extremes_ok (c : t) : Prop :=
  Forall in_unit (confidence_samples c)
  /\ match confidence_samples c with
     | [] => min_confidence (snapshot c) = f0 /\ max_confidence (snapshot c) = f0
     | first :: rest =>
         min_confidence (snapshot c) = min_element first rest
         /\ max_confidence (snapshot c) = max_element first rest
     end.

(** A collector that has followed the decisions [ds]. *)
Definition tracked (ds : list Decision.t) (c : t) : Prop :=
  let s := snapshot c in
  total_decisions s = size (accepted ds)
  /\ valid_decisions s = count (has_status DECISION_VALID) ds
  /\ fallback_activations s = count is_fallback ds
  /\ rejected_confidence s = count (has_status REJECTED_LOW_CONFIDENCE) ds
  /\ rejected_consensus s = count (has_status REJECTED_NO_CONSENSUS) ds
  /\ invalid_inputs s = size ds - size (accepted ds)
  /\ last_decision_timestamp_ns s = last (map Decision.timestamp_ns (accepted ds)) 0
  /\ overflow_detected s = false
  /\ (forall k, hist_get (models_agreed_histogram s) k
                = if count (in_bucket k) ds =? 0 then None
                  else Some (count (in_bucket k) ds))
  /\ sample_write_index c = write_index_after (size (accepted ds))
  /\ samples_buffer_full c = (MAX_SAMPLES <? size (accepted ds))
  /\ unrolled c = lastn MAX_SAMPLES (map Decision.confidence (accepted ds)).

End MetricsCollector.

(* ================================================================== *)
(** ** The components as the specification words them *)
(* ================================================================== *)

Module Spec.

(** Arithmetic mean of a sequence, in single precision, summed from the
    left. *)
Definition mean (l : list float) : float :=
  fdiv (fold_left fadd l f0) (of_Z (size l)).

(** FallbackStore: [currentMean] is the mean of the stored values, or 0 if
    the store is empty. *)
Definition currentMean (store : list float) : float :=
  match store with
  | [] => f0
  | _ => mean store
  end.

(** [sign(x)] with [sign(0) = +1]. *)
Definition sign (x : float) : float := if fge x f0 then f1 else fm1.

Definition directionalFallback (store : list float) (scale : float) : float :=
  fmul (sign (currentMean store)) scale.

(** FallbackStore: [push] appends and evicts the oldest value when the
    window is full. *)
Definition push (window : Z) (store : list float) (v : float) : list float :=
  if size store <? window then store ++ [v] else tl store ++ [v].

(** SafetyFilter, one signal: passed unchanged, admitted with a penalised
    confidence, or dropped. *)
Definition admission (cfg : AILLEConfig.t) (sig : ModelSignal.t) : option ModelSignal.t :=
  if fge (ModelSignal.confidence sig) (AILLEConfig.min_confidence_threshold cfg)
  then Some sig
  else if fge (ModelSignal.confidence sig) (AILLEConfig.grace_confidence_threshold cfg)
  then Some (ModelSignal.mk (ModelSignal.value sig)
                            (fmul (ModelSignal.confidence sig) f0_8)
                            (ModelSignal.timestamp_ns sig)
                            (ModelSignal.model_id sig))
  else None.

Fixpoint filter (cfg : AILLEConfig.t) (signals : list ModelSignal.t)
  : list ModelSignal.t :=
  match signals with
  | [] => []
  | sig :: rest =>
      match admission cfg sig with
      | Some s => s :: filter cfg rest
      | None => filter cfg rest
      end
  end.

(** ConsensusEvaluator: the median is the element of index [n/2] of the
    sorted values. *)
Definition median (values : list float) : float :=
  nth (length values / 2) (sort values) f0.

(** A signal agrees when its value has the sign of the median. *)
Definition agrees (m : float) (sig : ModelSignal.t) : bool :=
  feq (sign (ModelSignal.value sig)) (sign m).

Definition agreeing (valid : list ModelSignal.t) : list ModelSignal.t :=
  List.filter (agrees (median (map ModelSignal.value valid))) valid.

Definition agreement_count (valid : list ModelSignal.t) : Z :=
  size (agreeing valid).

Definition succeeds (cfg : AILLEConfig.t) (valid : list ModelSignal.t) : bool :=
  fge (fdiv (of_Z (agreement_count valid)) (of_Z (size valid)))
      (AILLEConfig.sign_agreement_threshold cfg)
  && (AILLEConfig.min_models_required cfg <=? agreement_count valid).

Definition evaluate (cfg : AILLEConfig.t) (valid : list ModelSignal.t)
  : AILLEEngine.Consensus :=
  if size valid <? AILLEConfig.min_models_required cfg then
    AILLEEngine.mkConsensus false None 0
  else if succeeds cfg valid then
    AILLEEngine.mkConsensus
      true (Some (mean (map ModelSignal.value (agreeing valid))))
      (agreement_count valid)
  else
    AILLEEngine.mkConsensus false None (agreement_count valid).

(** Ascending order on single-precision values. *)
Definition ascending (l : list float) : Prop :=
  Sorted (fun a b => fge b a = true) l.

(** How many values fail the test [v >= 0]. *)
Definition negatives (l : list float) : nat :=
  length (List.filter (fun v => negb (fge v f0)) l).

End Spec.

(* ================================================================== *)
(** ** Runs of the engine and of the loggers *)
(* ================================================================== *)

(** The public operations that touch the fallback buffer. *)
Inductive EngineOp : Type :=
| OpDecide (now : Z) (model_signals : list ModelSignal.t)
| OpReset.

Definition engine_step (tanhf : float -> float) (e : AILLEEngine.t) (op : EngineOp)
  : option AILLEEngine.t :=
  match op with
  | OpDecide now signals =>
      r <- AILLEEngine.makeDecision tanhf e now signals ;; Some (snd r)
  | OpReset => Some (AILLEEngine.reset e)
  end.

Fixpoint engine_run (tanhf : float -> float) (e : AILLEEngine.t) (ops : list EngineOp)
  : option AILLEEngine.t :=
  match ops with
  | [] => Some e
  | op :: rest => e' <- engine_step tanhf e op ;; engine_run tanhf e' rest
  end.

(** One call of [logDecision] of [aille.hpp]: its arguments and whether the
    device takes the write. *)
Record HppCall : Type := mkHppCall {
  hc_decision : Decision.t;
  hc_symbol : string;
  hc_strategy : string;
  hc_disk_ok : bool
}.

Record CppCall : Type := mkCppCall {
  cc_decision : Decision.t;
  cc_symbol : string;
  cc_strategy_id : string;
  cc_user_id : string;
  cc_disk_ok : bool
}.

Section Runs.

Variable show_float : float -> string.
Variable hasher : string -> N.
Variable strftime_utc : Z -> string.

Definition hpp_log_all (lg : AuditHpp.AuditLogger) (calls : list HppCall)
  : AuditHpp.AuditLogger :=
  fold_left
    (fun lg c =>
       AuditHpp.logDecision show_float hasher strftime_utc lg (hc_disk_ok c)
                            (hc_decision c) (hc_symbol c) (hc_strategy c))
    calls lg.

Definition cpp_log_all (lg : AuditCpp.AuditLogger) (calls : list CppCall)
  : AuditCpp.AuditLogger :=
  fold_left
    (fun lg c =>
       AuditCpp.logDecision show_float hasher strftime_utc lg (cc_disk_ok c)
                            (cc_decision c) (cc_symbol c) (cc_strategy_id c)
                            (cc_user_id c))
    calls lg.

End Runs.

(** In-place mutation of the [final_value] of the stored record of index
    [i]; nothing else is touched, no hash is recomputed. *)
Fixpoint hpp_tamper (trail : list AuditHpp.AuditRecord.t) (i : nat) (v : float)
  : list AuditHpp.AuditRecord.t :=
  match trail, i with
  | [], _ => []
  | r :: rest, O => AuditHpp.AuditRecord.set_final_value r v :: rest
  | r :: rest, S k => r :: hpp_tamper rest k v
  end.

Fixpoint cpp_tamper (trail : list AuditCpp.AuditRecord.t) (i : nat) (v : float)
  : list AuditCpp.AuditRecord.t :=
  match trail, i with
  | [], _ => []
  | r :: rest, O => AuditCpp.AuditRecord.set_final_value r v :: rest
  | r :: rest, S k => r :: cpp_tamper rest k v
  end.

Definition hpp_with_trail (lg : AuditHpp.AuditLogger)
           (trail : list AuditHpp.AuditRecord.t) : AuditHpp.AuditLogger :=
  AuditHpp.mkLogger (AuditHpp.log_file lg) trail (AuditHpp.next_decision_id lg)
                    (AuditHpp.last_hash lg).

Definition cpp_with_trail (lg : AuditCpp.AuditLogger)
           (trail : list AuditCpp.AuditRecord.t) : AuditCpp.AuditLogger :=
  AuditCpp.mkLogger (AuditCpp.log_file lg) trail (AuditCpp.next_decision_id lg)
                    (AuditCpp.last_hash lg).



(* ================================================================== *)
(** ** Concrete inputs *)
(* ================================================================== *)

Module Examples.

(** [ModelSignal(v, c, id)] with decimal literals [vn/vd] and [cn/cd]; the
    time stamp the constructor reads is immaterial and set to 0. *)
Definition signal (vn vd cn cd id : Z) : ModelSignal.t :=
  ModelSignal.mk (decimal vn vd) (decimal cn cd) 0 id.

(** [[(0.05,0.9,0), (0.04,0.8,1), (0.03,0.85,2)]]. *)
Definition agreeing_batch : list ModelSignal.t :=
  [signal 5 100 9 10 0; signal 4 100 8 10 1; signal 3 100 85 100 2].

(** [[(0.05,0.9,0), (-0.04,0.8,1)]]. *)
Definition split_batch : list ModelSignal.t :=
  [signal 5 100 9 10 0; signal (-4) 100 8 10 1].

(** [[(NaN,0.9,0), (-0.04,0.8,1), (0.05,0.9,2)]]: a NaN beside numbers. *)
Definition nan_batch : list ModelSignal.t :=
  [ModelSignal.mk S754_nan (decimal 9 10) 0 0; signal (-4) 100 8 10 1;
   signal 5 100 9 10 2].

(** [[(0.05,0.1,0), (0.04,0.2,1)]]: every confidence is below the grace
    threshold of the default configuration. *)
Definition weak_batch : list ModelSignal.t :=
  [signal 5 100 1 10 0; signal 4 100 2 10 1].

(** The default configuration with a window of three values. *)
Definition window3 : AILLEConfig.t :=
  AILLEConfig.mk (decimal 35 100) (decimal 25 100) 2 (decimal 66 100) 3
                 (decimal 1 10) 10.

(** Pushing 0.1, 0.2, 0.3, 0.4 with a window of three. *)
Definition pushed4 : AILLEEngine.t :=
  fold_left AILLEEngine.updateFallbackBuffer
            [decimal 1 10; decimal 2 10; decimal 3 10; decimal 4 10]
            (AILLEEngine.init_with window3).

(** What the evaluator reports on [agreeing_batch] under the default
    configuration. *)
Definition agreeing_consensus : AILLEEngine.Consensus :=
  AILLEEngine.mkConsensus
    true (Some (Spec.mean [decimal 5 100; decimal 4 100; decimal 3 100])) 3.

(** Stand-ins for the library functions, for closed instances. *)
Definition tanh_id (x : float) : float := x.

(** The decision on [agreeing_batch] at time 7 under the default
    configuration, with [tanh_id] for the hyperbolic tangent, and the engine
    it leaves. *)
Definition agreeing_decision : Decision.t :=
  Decision.mk (fmul (Spec.mean [decimal 5 100; decimal 4 100; decimal 3 100]) f100)
              DECISION_VALID
              (Spec.mean [decimal 9 10; decimal 8 10; decimal 85 100])
              3 false 7 [0; 1; 2] "Consensus: 3 models".
Definition agreeing_engine : AILLEEngine.t :=
  AILLEEngine.updateFallbackBuffer AILLEEngine.init
                                   (Decision.final_value agreeing_decision).
Definition show_float0 (x : float) : string := "0".
Definition hasher0 (s : string) : N := N.of_nat (String.length s).
Definition strftime_utc0 (t : Z) : string := "1970-01-01 00:00:00".

(** A valid decision of final value 0.5, and three calls logging it. *)
Definition decision1 : Decision.t :=
  Decision.mk (decimal 5 10) DECISION_VALID (decimal 9 10) 2 false 1000 [0; 1]
              "Consensus: 2 models".

Definition hpp_calls : list HppCall :=
  [mkHppCall decision1 "AAPL" "momentum" true;
   mkHppCall Decision.init "AAPL" "momentum" true;
   mkHppCall decision1 "MSFT" "reversal" true].

Definition cpp_calls : list CppCall :=
  [mkCppCall decision1 "AAPL" "momentum" "trader_001" true;
   mkCppCall Decision.init "AAPL" "momentum" "trader_001" true;
   mkCppCall decision1 "MSFT" "reversal" "trader_002" true].

(** Records that differ only in fields the digest leaves out. *)
Definition hpp_record_a : AuditHpp.AuditRecord.t :=
  AuditHpp.AuditRecord.mk 1000 1 DECISION_VALID (decimal 5 10) (decimal 9 10)
    2 false "Consensus: 2 models" "AAPL" "momentum" "aa" genesis_hash.
Definition hpp_record_b : AuditHpp.AuditRecord.t :=
  AuditHpp.AuditRecord.mk 1000 1 REJECTED_NO_CONSENSUS (decimal 5 10) (decimal 9 10)
    7 true "Consensus: 2 models" "MSFT" "reversal" "bb" genesis_hash.
Definition cpp_record_a : AuditCpp.AuditRecord.t :=
  AuditCpp.AuditRecord.mk 1000 1 DECISION_VALID (decimal 5 10) (decimal 9 10)
    2 false "Consensus: 2 models" [0; 1] "AAPL" "momentum" "trader_001" "aa"
    genesis_hash.
Definition cpp_record_b : AuditCpp.AuditRecord.t :=
  AuditCpp.AuditRecord.mk 1000 1 FALLBACK_ACTIVATED (decimal 5 10) (decimal 9 10)
    2 true "Consensus: 2 models" [5] "MSFT" "reversal" "trader_002" "bb"
    genesis_hash.

Definition hpp_opened : AuditHpp.AuditLogger := AuditHpp.init_with (OStream.OpenedAt 0).
Definition cpp_opened : AuditCpp.AuditLogger := AuditCpp.init_with (OStream.OpenedAt 0).

Definition hpp_log1 (lg : AuditHpp.AuditLogger) (disk_ok : bool) : AuditHpp.AuditLogger :=
  AuditHpp.logDecision show_float0 hasher0 strftime_utc0 lg disk_ok decision1
                       "AAPL" "momentum".

(** A logger on a new file after a first decision went to the file: the
    header and one line are on the device, the buffer is empty. *)
Definition hpp_flushed : AuditHpp.AuditLogger := hpp_log1 hpp_opened true.
(** [[(0.05,2,0), (0.04,2,1), (0.03,2,2)]]: confidences above 1. *)
Definition overconfident_batch : list ModelSignal.t :=
  [signal 5 100 2 1 0; signal 4 100 2 1 1; signal 3 100 2 1 2].

(** Five decisions of a fresh engine under the default configuration, with
    [tanh_id] for the hyperbolic tangent: on [agreeing_batch] at time 7, on
    [split_batch] at time 8, on [weak_batch] at time 9, on the empty batch
    at time 10 and on [overconfident_batch] at time 11. *)
Definition no_consensus_decision : Decision.t :=
  Decision.mk (AILLEEngine.getFallbackValue AILLEEngine.init) REJECTED_NO_CONSENSUS
              f0_2 1 true 8 [] "No consensus - fallback".
Definition low_confidence_decision : Decision.t :=
  Decision.mk (AILLEEngine.getFallbackValue AILLEEngine.init)
              REJECTED_LOW_CONFIDENCE f0_1 0 true 9 []
              "All models failed confidence - fallback".
Definition no_models_decision : Decision.t :=
  Decision.mk f0 ERROR_NO_MODELS f0 0 false 10 [] "No model inputs".
Definition overconfident_decision : Decision.t :=
  Decision.mk (fmul (Spec.mean [decimal 5 100; decimal 4 100; decimal 3 100]) f100)
              DECISION_VALID
              (Spec.mean [decimal 2 1; decimal 2 1; decimal 2 1])
              3 false 11 [0; 1; 2] "Consensus: 3 models".

(** The decisions of an engine run under observation. *)
Definition engine_decisions : list Decision.t :=
  [agreeing_decision; no_consensus_decision; low_confidence_decision;
   no_models_decision; overconfident_decision].

(** The calls logging them. *)
Definition engine_calls : list CppCall :=
  map (fun d => mkCppCall d "AAPL" "momentum" "trader_001" true) engine_decisions.


(** Three observations for the metrics collector: a valid decision, a
    rejection for lack of consensus, and a default-constructed decision,
    whose timestamp 0 makes it an invalid input. *)
Definition rejected_decision : Decision.t :=
  Decision.mk (decimal 1 10) REJECTED_NO_CONSENSUS f0_2 1 true 1001 []
              "No consensus - fallback".
Definition observed : list Decision.t :=
  [decision1; rejected_decision; Decision.init].

(** An engine under the default configuration whose fallback buffer has a
    negative mean. *)
Definition negative_engine : AILLEEngine.t :=
  AILLEEngine.mk AILLEConfig.init [decimal (-5) 10; decimal 1 10].

(** A collector whose total_decisions has reached UINT64_MAX. *)
Definition saturated : MetricsCollector.t :=
  MetricsCollector.mkCollector
    (MetricsSnapshot.mk MetricsCollector.UINT64_MAX 5 2 1 1 0
                        (decimal 9 10) f0 f0 (decimal 9 10) (decimal 9 10) f0
                        [(2, 5)] 1000 false)
    [decimal 9 10] 0 false false.

End Examples.

(* ================================================================== *)
(** * Properties *)
(* ================================================================== *)

(** ** Integers and containers *)

Lemma size_nonneg {A : Type} (l : list A) : 0 <= size l.
Proof. unfold size. lia. Qed.

Lemma size_app {A : Type} (l1 l2 : list A) : size (l1 ++ l2) = size l1 + size l2.
Proof. unfold size. rewrite length_app. lia. Qed.

Lemma size_cons {A : Type} (x : A) (l : list A) : size (x :: l) = size l + 1.
Proof. unfold size. cbn [length]. lia. Qed.

Lemma size_map {A B : Type} (f : A -> B) (l : list A) : size (map f l) = size l.
Proof. unfold size. now rewrite length_map. Qed.

Lemma size_nil {A : Type} : size (@nil A) = 0.
Proof. reflexivity. Qed.

Create Rewrite HintDb sizes.
#[local] Hint Rewrite @size_app @size_cons @size_nil @size_map : sizes.

(** Case analysis on the first [<?] test of the goal. *)
Ltac case_ltb E :=
  match goal with
  | |- context [?a <? ?b] =>
      destruct (a <? b) eqn:E; [apply Z.ltb_lt in E | apply Z.ltb_ge in E]
  end.

Lemma to_size_t_small (i : Z) : 0 <= i <= INT_MAX -> to_size_t i = i.
Proof.
  intros H. unfold to_size_t. apply Z.mod_small.
  unfold INT_MAX, SIZE_MOD in *. lia.
Qed.

Lemma to_size_t_le (i : Z) : 0 <= i -> to_size_t i <= i.
Proof.
  intros H. unfold to_size_t, SIZE_MOD. apply Z.mod_le; [assumption|].
  now apply Z.pow_pos_nonneg.
Qed.

Lemma to_size_t_nonneg (i : Z) : 0 <= to_size_t i.
Proof.
  unfold to_size_t, SIZE_MOD. apply Z.mod_pos_bound. now apply Z.pow_pos_nonneg.
Qed.

Lemma bind_Some {A B : Type} (m : option A) (k : A -> option B) (b : B) :
  bind m k = Some b <-> exists a, m = Some a /\ k a = Some b.
Proof.
  destruct m as [a|]; cbn.
  - split; [intros H; now exists a | intros [a' [Ha H]]; now inversion Ha].
  - split; [discriminate | intros [a' [Ha _]]; discriminate].
Qed.

(** ** The safety layer *)

Lemma applySafetyLayer_loop (e : AILLEEngine.t) (signals acc : list ModelSignal.t) :
  fold_left
    (fun valid sig =>
       if fge (ModelSignal.confidence sig)
              (AILLEConfig.min_confidence_threshold (AILLEEngine.config e))
       then valid ++ [sig]
       else if fge (ModelSignal.confidence sig)
                   (AILLEConfig.grace_confidence_threshold (AILLEEngine.config e))
       then
         let grace_sig :=
           ModelSignal.set_confidence sig (fmul (ModelSignal.confidence sig) f0_8) in
         valid ++ [grace_sig]
       else valid)
    signals acc
  = acc ++ Spec.filter (AILLEEngine.config e) signals.
Proof.
  revert acc. induction signals as [|sig rest IH]; intros acc.
  - cbn. now rewrite app_nil_r.
  - cbn [fold_left Spec.filter]. rewrite IH. unfold Spec.admission.
    destruct (fge _ _).
    + now rewrite <- app_assoc.
    + destruct (fge _ _); [|reflexivity].
      cbv zeta. unfold ModelSignal.set_confidence. now rewrite <- app_assoc.
Qed.

Lemma applySafetyLayer_filter (e : AILLEEngine.t) (signals : list ModelSignal.t) :
  AILLEEngine.applySafetyLayer e signals = Spec.filter (AILLEEngine.config e) signals.
Proof. unfold AILLEEngine.applySafetyLayer. now rewrite applySafetyLayer_loop. Qed.

Lemma filter_app (cfg : AILLEConfig.t) (l1 l2 : list ModelSignal.t) :
  Spec.filter cfg (l1 ++ l2) = Spec.filter cfg l1 ++ Spec.filter cfg l2.
Proof.
  induction l1 as [|sig rest IH]; cbn; [reflexivity|].
  destruct (Spec.admission cfg sig); cbn; now rewrite IH.
Qed.

Lemma applySafetyLayer_app (e : AILLEEngine.t) (l1 l2 : list ModelSignal.t) :
  AILLEEngine.applySafetyLayer e (l1 ++ l2)
  = AILLEEngine.applySafetyLayer e l1 ++ AILLEEngine.applySafetyLayer e l2.
Proof. rewrite !applySafetyLayer_filter. apply filter_app. Qed.

Lemma applySafetyLayer_size (e : AILLEEngine.t) (signals : list ModelSignal.t) :
  size (AILLEEngine.applySafetyLayer e signals) <= size signals.
Proof.
  rewrite applySafetyLayer_filter.
  induction signals as [|sig rest IH]; cbn [Spec.filter]; [lia|].
  destruct (Spec.admission _ sig); rewrite ?size_cons; lia.
Qed.

Lemma filter_all_dropped (cfg : AILLEConfig.t) (signals : list ModelSignal.t) :
  (forall sig, In sig signals -> Spec.admission cfg sig = None) ->
  Spec.filter cfg signals = [].
Proof.
  induction signals as [|sig rest IH]; intros H; cbn; [reflexivity|].
  rewrite (H sig (or_introl eq_refl)). apply IH. intros s Hs. apply H. now right.
Qed.

(** C5. The safety filter treats each signal on its own and keeps the
    input order: the output is the concatenation, in input order, of what
    each signal yields; a signal whose confidence reaches the minimum
    threshold yields itself unchanged; otherwise one whose confidence
    reaches the grace threshold yields itself with its confidence
    multiplied by 0.8 and its other fields unchanged; any other signal
    yields nothing.  The result depends on the configuration only, and an
    input whose signals are all dropped yields the empty sequence. *)
Theorem C5_safety_filter :
  forall (e : AILLEEngine.t) (signals : list ModelSignal.t),
    let cfg := AILLEEngine.config e in
    let min_c := AILLEConfig.min_confidence_threshold cfg in
    let grace_c := AILLEConfig.grace_confidence_threshold cfg in
    AILLEEngine.applySafetyLayer e signals = Spec.filter cfg signals
    /\ AILLEEngine.applySafetyLayer e [] = []
    /\ (forall l1 l2,
           AILLEEngine.applySafetyLayer e (l1 ++ l2)
           = AILLEEngine.applySafetyLayer e l1 ++ AILLEEngine.applySafetyLayer e l2)
    /\ (forall sig,
           AILLEEngine.applySafetyLayer e [sig]
           = if fge (ModelSignal.confidence sig) min_c then [sig]
             else if fge (ModelSignal.confidence sig) grace_c
             then [ModelSignal.mk (ModelSignal.value sig)
                                  (fmul (ModelSignal.confidence sig) f0_8)
                                  (ModelSignal.timestamp_ns sig)
                                  (ModelSignal.model_id sig)]
             else [])
    /\ ((forall sig, In sig signals ->
                     fge (ModelSignal.confidence sig) min_c = false
                     /\ fge (ModelSignal.confidence sig) grace_c = false) ->
        AILLEEngine.applySafetyLayer e signals = [])
    /\ (forall e', AILLEEngine.config e' = cfg ->
                   AILLEEngine.applySafetyLayer e' signals
                   = AILLEEngine.applySafetyLayer e signals).
Proof.
  intros e signals cfg min_c grace_c.
  split; [apply applySafetyLayer_filter|].
  split; [reflexivity|].
  split; [intros l1 l2; apply applySafetyLayer_app|].
  split.
  { intros sig. rewrite applySafetyLayer_filter. cbn [Spec.filter].
    unfold Spec.admission. fold cfg. fold min_c. fold grace_c.
    destruct (fge _ min_c); [reflexivity|].
    destruct (fge _ grace_c); reflexivity. }
  split.
  { intros Hall. rewrite applySafetyLayer_filter. apply filter_all_dropped.
    intros sig Hin. destruct (Hall sig Hin) as [Hmin Hgrace].
    unfold Spec.admission. fold cfg. fold min_c. fold grace_c.
    now rewrite Hmin, Hgrace. }
  intros e' He'. rewrite !applySafetyLayer_filter. now rewrite He'.
Qed.

(** ** The decision composer *)

Section Composer.

Variable tanhf : float -> float.

(** The loop of the success branch: it sums the confidences and records
    the model ids, leaving every other field as it was. *)
Lemma makeDecision_loop (valid : list ModelSignal.t) (total : float) (d : Decision.t) :
  fold_left
    (fun acc sig =>
       (fadd (fst acc) (ModelSignal.confidence sig),
        Decision.set_contributing_models (snd acc)
          (Decision.contributing_models (snd acc) ++ [ModelSignal.model_id sig])))
    valid (total, d)
  = (fold_left fadd (map ModelSignal.confidence valid) total,
     Decision.set_contributing_models d
       (Decision.contributing_models d ++ map ModelSignal.model_id valid)).
Proof.
  revert total d. induction valid as [|sig rest IH]; intros total d.
  - cbn. rewrite app_nil_r. now destruct d.
  - cbn [fold_left map fst snd]. rewrite IH. f_equal.
    unfold Decision.set_contributing_models. cbn. now rewrite <- app_assoc.
Qed.

(** C9. On the empty batch [makeDecision] returns the decision of status
    ErrorNoModels with final value 0, confidence 0 and no fallback, stamped
    with the entry time; the engine is left as it was, and the decision is
    the same whatever the fallback buffer (or the configuration) holds. *)
Theorem C9_empty_batch :
  forall (e : AILLEEngine.t) (now : Z),
    AILLEEngine.makeDecision tanhf e now []
    = Some (Decision.mk f0 ERROR_NO_MODELS f0 0 false now [] "No model inputs", e)
    /\ (forall e' : AILLEEngine.t,
           option_map fst (AILLEEngine.makeDecision tanhf e' now [])
           = option_map fst (AILLEEngine.makeDecision tanhf e now [])).
Proof. intros e now. split; [reflexivity|intros e'; reflexivity]. Qed.

Lemma calculateFallbackValue_currentMean (e : AILLEEngine.t) :
  AILLEEngine.calculateFallbackValue e = Spec.currentMean (AILLEEngine.fallback_buffer e).
Proof.
  unfold AILLEEngine.calculateFallbackValue, Spec.currentMean, Spec.mean.
  destruct (AILLEEngine.fallback_buffer e); reflexivity.
Qed.

Lemma getFallbackValue_directional (e : AILLEEngine.t) :
  AILLEEngine.getFallbackValue e
  = Spec.directionalFallback (AILLEEngine.fallback_buffer e)
      (AILLEConfig.fallback_position_scale (AILLEEngine.config e)).
Proof.
  unfold AILLEEngine.getFallbackValue, Spec.directionalFallback.
  now rewrite calculateFallbackValue_currentMean.
Qed.

(** The three branches of [makeDecision] on a non-empty batch. *)
Lemma makeDecision_low_confidence (e : AILLEEngine.t) (now : Z)
      (signals : list ModelSignal.t) :
  signals <> [] ->
  AILLEEngine.applySafetyLayer e signals = [] ->
  AILLEEngine.makeDecision tanhf e now signals
  = Some (Decision.mk (AILLEEngine.getFallbackValue e) REJECTED_LOW_CONFIDENCE f0_1 0
                      true now [] "All models failed confidence - fallback", e).
Proof.
  intros Hne Hvalid. unfold AILLEEngine.makeDecision.
  destruct signals as [|s rest]; [contradiction|]. now rewrite Hvalid.
Qed.

Lemma makeDecision_no_consensus (e : AILLEEngine.t) (now : Z)
      (signals : list ModelSignal.t) (c : AILLEEngine.Consensus) :
  signals <> [] ->
  AILLEEngine.applySafetyLayer e signals <> [] ->
  AILLEEngine.checkConsensus e (AILLEEngine.applySafetyLayer e signals) = Some c ->
  AILLEEngine.ok c = false ->
  AILLEEngine.makeDecision tanhf e now signals
  = Some (Decision.mk (AILLEEngine.getFallbackValue e) REJECTED_NO_CONSENSUS f0_2
                      (AILLEEngine.models_agreed c) true now []
                      "No consensus - fallback", e).
Proof.
  intros Hne Hvalid Hc Hok. unfold AILLEEngine.makeDecision.
  destruct signals as [|s rest]; [contradiction|].
  destruct (AILLEEngine.applySafetyLayer e (s :: rest)) as [|v vs] eqn:Hv;
    [contradiction|].
  rewrite Hc. cbn [bind]. now rewrite Hok.
Qed.

Lemma makeDecision_valid (e : AILLEEngine.t) (now : Z)
      (signals : list ModelSignal.t) (c : AILLEEngine.Consensus) (cv : float) :
  signals <> [] ->
  AILLEEngine.applySafetyLayer e signals <> [] ->
  AILLEEngine.checkConsensus e (AILLEEngine.applySafetyLayer e signals) = Some c ->
  AILLEEngine.ok c = true ->
  AILLEEngine.consensus_value c = Some cv ->
  let valid := AILLEEngine.applySafetyLayer e signals in
  let final := tanhf (fmul cv f100) in
  AILLEEngine.makeDecision tanhf e now signals
  = Some (Decision.mk final DECISION_VALID
                      (Spec.mean (map ModelSignal.confidence valid))
                      (AILLEEngine.models_agreed c) false now
                      (map ModelSignal.model_id valid)
                      ("Consensus: " ++ show_int (AILLEEngine.models_agreed c)
                                     ++ " models")%string,
          AILLEEngine.updateFallbackBuffer e final).
Proof.
  intros Hne Hvalid Hc Hok Hcv valid final. unfold AILLEEngine.makeDecision.
  destruct signals as [|s rest]; [contradiction|].
  fold valid in Hc, Hvalid |- *.
  destruct valid as [|v vs] eqn:Hv; [contradiction|].
  rewrite Hc. cbn [bind]. rewrite Hok. cbn [negb]. rewrite Hcv. cbn [bind].
  rewrite makeDecision_loop.
  unfold Spec.mean, final, AILLEEngine.smoothPosition.
  cbv beta iota delta
      [Decision.set_reasoning Decision.set_fallback_used Decision.set_models_agreed
       Decision.set_confidence Decision.set_contributing_models
       Decision.set_final_value Decision.set_status Decision.set_timestamp_ns
       Decision.init Decision.final_value Decision.status Decision.confidence
       Decision.models_agreed Decision.fallback_used Decision.timestamp_ns
       Decision.contributing_models Decision.reasoning].
  rewrite size_map. reflexivity.
Qed.

End Composer.

(** ** Order and sorting of single-precision values *)

Lemma SFcompare_antisym (x y : float) :
  SFcompare y x = option_map CompOpp (SFcompare x y).
Proof.
  destruct x as [sx|sx| |sx mx ex], y as [sy|sy| |sy my ey]; cbn;
    try reflexivity;
    try (destruct sx; reflexivity);
    try (destruct sy; reflexivity);
    try (destruct sx, sy; reflexivity).
  pose proof (Pos.compare_cont_antisym my mx Eq) as Hm.
  change (CompOpp Eq) with Eq in Hm.
  destruct sx, sy; cbn; try reflexivity;
    rewrite (Z.compare_antisym ex ey);
    destruct (ex ?= ey)%Z; cbn; try reflexivity;
    rewrite <- Hm;
    destruct (Pos.compare_cont Eq my mx); reflexivity.
Qed.

Lemma flt_fge (x y : float) : flt x y = true -> fge y x = true.
Proof.
  unfold flt, fge, SFltb, SFleb.
  destruct (SFcompare x y) as [[| |]|]; intros H; try discriminate; reflexivity.
Qed.

Lemma SFcompare_defined (x y : float) :
  is_nan x = false -> is_nan y = false -> SFcompare x y <> None.
Proof.
  intros Hx Hy. destruct x, y; cbn in *; discriminate.
Qed.

Lemma not_flt_fge (x y : float) :
  is_nan x = false -> is_nan y = false -> flt x y = false -> fge x y = true.
Proof.
  unfold flt, fge, SFltb, SFleb. intros Hx Hy.
  rewrite (SFcompare_antisym x y).
  pose proof (SFcompare_defined x y Hx Hy) as Hd.
  destruct (SFcompare x y) as [[| |]|]; cbn; intros H;
    try reflexivity; try discriminate.
  now contradiction Hd.
Qed.

Lemma insert_sorted_perm (x : float) (l : list float) :
  Permutation (x :: l) (insert_sorted x l).
Proof.
  induction l as [|y t IH]; cbn; [apply Permutation_refl|].
  destruct (flt x y); [apply Permutation_refl|].
  eapply Permutation_trans; [apply perm_swap|]. now apply perm_skip.
Qed.

Lemma sort_perm (l : list float) : Permutation l (sort l).
Proof.
  induction l as [|x l IH]; cbn; [constructor|].
  eapply Permutation_trans; [apply perm_skip, IH|apply insert_sorted_perm].
Qed.

Lemma sort_length (l : list float) : length (sort l) = length l.
Proof. symmetry. apply Permutation_length, sort_perm. Qed.

Lemma insert_sorted_ascending (x : float) (l : list float) :
  is_nan x = false -> Forall (fun v => is_nan v = false) l ->
  Spec.ascending l -> Spec.ascending (insert_sorted x l).
Proof.
  unfold Spec.ascending. intros Hx Hl Hs.
  induction l as [|y t IH]; cbn.
  - repeat constructor.
  - destruct (flt x y) eqn:E.
    + constructor; [assumption|]. constructor. now apply flt_fge.
    + inversion Hl as [|? ? Hy Ht]; subst. inversion Hs as [|? ? Hst Hhd]; subst.
      constructor; [now apply IH|].
      destruct t as [|z t']; cbn.
      * constructor. now apply not_flt_fge.
      * destruct (flt x z); constructor.
        -- now apply not_flt_fge.
        -- now inversion Hhd.
Qed.

Lemma sort_ascending (l : list float) :
  Forall (fun v => is_nan v = false) l -> Spec.ascending (sort l).
Proof.
  induction l as [|x l IH]; intros Hl; cbn.
  - constructor.
  - inversion Hl as [|? ? Hx Hl']; subst.
    apply insert_sorted_ascending; [assumption| |now apply IH].
    eapply Permutation_Forall; [apply sort_perm|assumption].
Qed.

(** In an ascending sequence the values that fail [v >= 0] come first, so
    the sign test of the element of index [k] only depends on how many
    values fail it: whatever algorithm sorts the values, the median has the
    same sign. *)
Lemma fge_zero_trans (a b : float) :
  fge a f0 = true -> fge b a = true -> fge b f0 = true.
Proof.
  unfold fge, SFleb, f0.
  destruct a as [sa|sa| |sa ma ea], b as [sb|sb| |sb mb eb]; cbn;
    try discriminate; try reflexivity;
    try (destruct sa; cbn; try discriminate; try reflexivity);
    try (destruct sb; cbn; try discriminate; try reflexivity).
Qed.

Lemma ascending_nonneg (a : float) (t : list float) :
  Spec.ascending (a :: t) -> fge a f0 = true ->
  Forall (fun v => fge v f0 = true) (a :: t).
Proof.
  revert a. induction t as [|b t IH]; intros a Hs Ha.
  - repeat constructor. assumption.
  - constructor; [assumption|].
    inversion Hs as [|? ? Hst Hhd]; subst. inversion Hhd as [|? ? Hab]; subst.
    apply IH; [assumption|]. now apply (fge_zero_trans a b).
Qed.

Lemma ascending_nth_sign (s : list float) (k : nat) :
  Spec.ascending s -> (k < length s)%nat ->
  fge (nth k s f0) f0 = (Spec.negatives s <=? k)%nat.
Proof.
  revert k. induction s as [|a t IH]; intros k Hs Hk; [cbn in Hk; lia|].
  destruct (fge a f0) eqn:Ha.
  - pose proof (ascending_nonneg a t Hs Ha) as Hall.
    assert (Hn : Spec.negatives (a :: t) = 0%nat).
    { unfold Spec.negatives. clear -Hall.
      induction Hall as [|x l Hx _ IHl]; [reflexivity|].
      cbn. rewrite Hx. cbn. exact IHl. }
    rewrite Hn. cbn [Nat.leb].
    rewrite Forall_forall in Hall. apply Hall. now apply nth_In.
  - unfold Spec.negatives. cbn [List.filter]. rewrite Ha. cbn [negb length].
    fold (Spec.negatives t). destruct k as [|k']; cbn [nth].
    + rewrite Ha. reflexivity.
    + cbn [Nat.leb]. apply IH; [now inversion Hs|cbn in Hk; lia].
Qed.

Lemma negatives_perm (l s : list float) :
  Permutation l s -> Spec.negatives l = Spec.negatives s.
Proof.
  unfold Spec.negatives.
  induction 1 as [|x l s _ IH|x y l|l s u _ IH1 _ IH2]; cbn.
  - reflexivity.
  - destruct (negb _); cbn; now rewrite IH.
  - destruct (negb (fge x f0)), (negb (fge y f0)); reflexivity.
  - congruence.
Qed.

Lemma median_sign_any_sort (values s : list float) :
  values <> [] ->
  Forall (fun v => is_nan v = false) values ->
  Permutation values s -> Spec.ascending s ->
  fge (nth (length values / 2) s f0) f0 = fge (Spec.median values) f0.
Proof.
  intros Hne Hnan Hperm Hasc.
  assert (Hk : (length values / 2 < length values)%nat).
  { destruct values as [|v vs]; [contradiction|].
    apply Nat.div_lt; cbn [length]; lia. }
  unfold Spec.median.
  rewrite (ascending_nth_sign s) by
      (try assumption; now rewrite <- (Permutation_length Hperm)).
  rewrite (ascending_nth_sign (sort values)) by
      (try (now apply sort_ascending); now rewrite sort_length).
  now rewrite <- (negatives_perm _ _ Hperm), <- (negatives_perm _ _ (sort_perm values)).
Qed.

(** ** The consensus evaluator *)

Lemma values_loop (valid : list ModelSignal.t) (acc : list float) :
  fold_left (fun vs sig => vs ++ [ModelSignal.value sig]) valid acc
  = acc ++ map ModelSignal.value valid.
Proof.
  revert acc. induction valid as [|sig rest IH]; intros acc; cbn.
  - now rewrite app_nil_r.
  - rewrite IH. now rewrite <- app_assoc.
Qed.

(** The counting loop: below [INT_MAX] it counts the elements that pass
    the test. *)
Lemma count_loop {A : Type} (P : A -> bool) (l : list A) (c0 : Z) :
  c0 + size (List.filter P l) <= INT_MAX ->
  fold_left
    (fun acc x => c <- acc ;; if P x then int_incr c else Some c) l (Some c0)
  = Some (c0 + size (List.filter P l)).
Proof.
  revert c0. induction l as [|x l IH]; intros c0; cbn [fold_left List.filter].
  - intros _. cbn. now rewrite Z.add_0_r.
  - cbn [bind]. destruct (P x) eqn:Px; intros Hb.
    + rewrite size_cons in Hb |- *. pose proof (size_nonneg (List.filter P l)).
      unfold int_incr. destruct (c0 <? INT_MAX) eqn:E; [|apply Z.ltb_ge in E; lia].
      rewrite IH by lia. f_equal. lia.
    + now apply IH.
Qed.

(** The summing loop of the success branch. *)
Lemma sum_loop (P : ModelSignal.t -> bool) (l : list ModelSignal.t) (s0 : float) (c0 : Z) :
  c0 + size (List.filter P l) <= INT_MAX ->
  fold_left
    (fun acc sig =>
       sc <- acc ;;
       if P sig
       then count <- int_incr (snd sc) ;;
            Some (fadd (fst sc) (ModelSignal.value sig), count)
       else Some sc)
    l (Some (s0, c0))
  = Some (fold_left fadd (map ModelSignal.value (List.filter P l)) s0,
          c0 + size (List.filter P l)).
Proof.
  revert s0 c0. induction l as [|x l IH]; intros s0 c0;
    cbn [fold_left List.filter].
  - intros _. cbn. now rewrite Z.add_0_r.
  - cbn [bind fst snd]. destruct (P x) eqn:Px; intros Hb.
    + rewrite size_cons in Hb |- *. pose proof (size_nonneg (List.filter P l)).
      unfold int_incr. destruct (c0 <? INT_MAX) eqn:E; [|apply Z.ltb_ge in E; lia].
      cbn [bind]. rewrite IH by lia. cbn [map fold_left]. f_equal. f_equal. lia.
    + now apply IH.
Qed.

Lemma filter_map_size {A B : Type} (f : A -> B) (P : B -> bool) (l : list A) :
  size (List.filter P (map f l)) = size (List.filter (fun x => P (f x)) l).
Proof.
  induction l as [|x l IH]; cbn [List.filter map]; [reflexivity|].
  destruct (P (f x)); rewrite ?size_cons; now rewrite IH.
Qed.

Lemma filter_size_le {A : Type} (P : A -> bool) (l : list A) :
  size (List.filter P l) <= size l.
Proof.
  induction l as [|x l IH]; cbn [List.filter]; [lia|].
  destruct (P x); rewrite ?size_cons; lia.
Qed.

Lemma half_index (n : nat) : Z.to_nat (Z.of_nat n / 2) = (n / 2)%nat.
Proof.
  change 2 with (Z.of_nat 2). rewrite <- Nat2Z.inj_div. apply Nat2Z.id.
Qed.

Lemma median_defined (values : list float) :
  values <> [] ->
  nth_error (sort values) (Z.to_nat (size (sort values) / 2))
  = Some (Spec.median values).
Proof.
  intros Hne. unfold Spec.median, size. rewrite sort_length, half_index.
  apply nth_error_nth'. rewrite sort_length.
  destruct values as [|v vs]; [contradiction|].
  apply Nat.div_lt; cbn [length]; lia.
Qed.

Lemma existsb_nan_free (l : list float) :
  Forall (fun v => is_nan v = false) l -> existsb is_nan l = false.
Proof.
  induction 1 as [|x l Hx _ IH]; [reflexivity|].
  cbn [existsb]. now rewrite Hx, IH.
Qed.

Lemma std_sort_nan_free (l : list float) :
  Forall (fun v => is_nan v = false) l -> std_sort l = Some (sort l).
Proof.
  intros H. unfold std_sort. rewrite (existsb_nan_free l H).
  destruct l as [|x l]; [reflexivity|].
  inversion H as [|? ? Hx _]; subst. cbn [forallb]. now rewrite Hx.
Qed.

(** With a NaN beside a number the sort, and so the evaluator past its
    minimum-count test, is undefined. *)
Lemma std_sort_mixed (l : list float) :
  existsb is_nan l = true -> forallb is_nan l = false -> std_sort l = None.
Proof. intros H1 H2. unfold std_sort. now rewrite H2, H1. Qed.

(** The evaluator, once past the minimum-count test, on a non-empty
    NaN-free sequence that an [int] can count. *)
Lemma checkConsensus_votes (e : AILLEEngine.t) (valid : list ModelSignal.t) :
  valid <> [] ->
  size valid <= INT_MAX ->
  to_size_t (AILLEConfig.min_models_required (AILLEEngine.config e)) <= size valid ->
  Forall (fun v => is_nan v = false) (map ModelSignal.value valid) ->
  AILLEEngine.checkConsensus e valid
  = Some (if Spec.succeeds (AILLEEngine.config e) valid
          then AILLEEngine.mkConsensus
                 true (Some (Spec.mean (map ModelSignal.value (Spec.agreeing valid))))
                 (Spec.agreement_count valid)
          else AILLEEngine.mkConsensus false None (Spec.agreement_count valid)).
Proof.
  intros Hne Hmax Hmin Hnan. unfold AILLEEngine.checkConsensus.
  destruct (size valid <? to_size_t _) eqn:E; [apply Z.ltb_lt in E; lia|].
  rewrite values_loop. cbn [app].
  rewrite (std_sort_nan_free _ Hnan). cbn [bind].
  rewrite median_defined by (destruct valid; [contradiction|discriminate]).
  cbn [bind].
  set (m := Spec.median (map ModelSignal.value valid)).
  assert (Hcount :
            size (List.filter
                    (fun val => feq (AILLEEngine.sign_of val) (AILLEEngine.sign_of m))
                    (map ModelSignal.value valid))
            = Spec.agreement_count valid)
    by (rewrite filter_map_size; reflexivity).
  assert (Hle : Spec.agreement_count valid <= INT_MAX)
    by (pose proof (filter_size_le (Spec.agrees m) valid);
        unfold Spec.agreement_count, Spec.agreeing; fold m; lia).
  rewrite count_loop by (rewrite Hcount; lia).
  cbn [bind]. rewrite Hcount, !Z.add_0_l, size_map.
  unfold Spec.succeeds. rewrite Z.geb_leb.
  destruct (fge _ _ && _); [|reflexivity].
  rewrite (sum_loop (Spec.agrees m)) by (fold (Spec.agreeing valid); exact Hle).
  cbn [bind fst snd]. rewrite Z.add_0_l. unfold Spec.mean. rewrite size_map.
  reflexivity.
Qed.

(** On a NaN-free sequence that an [int] can count, under a configuration
    that asks for at least one model, the evaluator is defined. *)
Lemma checkConsensus_evaluate (e : AILLEEngine.t) (valid : list ModelSignal.t) :
  1 <= AILLEConfig.min_models_required (AILLEEngine.config e) <= INT_MAX ->
  size valid <= INT_MAX ->
  Forall (fun v => is_nan v = false) (map ModelSignal.value valid) ->
  AILLEEngine.checkConsensus e valid = Some (Spec.evaluate (AILLEEngine.config e) valid).
Proof.
  intros Hcfg Hmax Hnan. unfold Spec.evaluate.
  destruct (size valid <? _) eqn:E.
  - unfold AILLEEngine.checkConsensus. rewrite to_size_t_small by lia. now rewrite E.
  - apply Z.ltb_ge in E. rewrite checkConsensus_votes; try assumption.
    + reflexivity.
    + intros ->. autorewrite with sizes in E. lia.
    + rewrite to_size_t_small by lia. assumption.
Qed.

(** Agreement is equality of the two sign tests. *)
Lemma agrees_eqb (m : float) (sig : ModelSignal.t) :
  Spec.agrees m sig = Bool.eqb (fge (ModelSignal.value sig) f0) (fge m f0).
Proof.
  unfold Spec.agrees, Spec.sign.
  destruct (fge (ModelSignal.value sig) f0), (fge m f0); reflexivity.
Qed.

(** C3. Under a configuration asking for at least one model, and on a
    sequence short enough for an [int] to count: with fewer than
    min_models_required signals the evaluation fails with models_agreed = 0;
    otherwise, the values being numbers (no NaN: with a NaN beside a number
    [std::sort] is undefined), the median is the element of index n/2 of
    the sorted values (the input values in ascending order, every ascending
    arrangement of them giving a median of the same sign), its sign is +1
    when the median is at least 0 (both zeros count as +1) and -1
    otherwise, agreement_count is the number of signals whose value has the
    same sign test, and the evaluation succeeds exactly when
    agreement_count / n reaches the threshold and agreement_count reaches
    min_models_required; it then returns the mean of the agreeing values,
    and models_agreed = agreement_count. *)
Theorem C3_consensus_evaluation :
  forall (e : AILLEEngine.t) (valid : list ModelSignal.t),
    1 <= AILLEConfig.min_models_required (AILLEEngine.config e) <= INT_MAX ->
    size valid <= INT_MAX ->
    let cfg := AILLEEngine.config e in
    let values := map ModelSignal.value valid in
    let m := Spec.median values in
    let agree := List.filter
                   (fun sig => Bool.eqb (fge (ModelSignal.value sig) f0) (fge m f0))
                   valid in
    let success :=
      fge (fdiv (of_Z (size agree)) (of_Z (size valid)))
          (AILLEConfig.sign_agreement_threshold cfg)
      && (AILLEConfig.min_models_required cfg <=? size agree) in
    (size valid < AILLEConfig.min_models_required cfg ->
     AILLEEngine.checkConsensus e valid
     = Some (AILLEEngine.mkConsensus false None 0))
    /\ (Forall (fun v => is_nan v = false) values ->
        AILLEEngine.checkConsensus e valid = Some (Spec.evaluate cfg valid)
        /\ (AILLEConfig.min_models_required cfg <= size valid ->
            std_sort values = Some (sort values)
            /\ nth_error (sort values) (length valid / 2) = Some m
            /\ AILLEEngine.checkConsensus e valid
               = Some (if success
                       then AILLEEngine.mkConsensus
                              true (Some (Spec.mean (map ModelSignal.value agree)))
                              (size agree)
                       else AILLEEngine.mkConsensus false None (size agree)))
        /\ (Permutation values (sort values) /\ Spec.ascending (sort values))
        /\ (forall s : list float,
               valid <> [] -> Permutation values s -> Spec.ascending s ->
               fge (nth (length valid / 2) s f0) f0 = fge m f0))
    /\ (fge f0 f0 = true /\ fge (S754_zero true) f0 = true).
Proof.
  intros e valid Hcfg Hmax cfg values m agree success.
  assert (Hagree : agree = Spec.agreeing valid).
  { unfold agree, Spec.agreeing. fold values. fold m.
    apply filter_ext. intros sig. symmetry. apply agrees_eqb. }
  split.
  { intros Hlt. unfold AILLEEngine.checkConsensus. fold cfg.
    rewrite to_size_t_small by (unfold cfg in *; lia).
    destruct (size valid <? _) eqn:E; [reflexivity|apply Z.ltb_ge in E; lia]. }
  split; [|split; reflexivity].
  intros Hnan.
  split; [now apply checkConsensus_evaluate|].
  split.
  { intros Hge. split; [now apply std_sort_nan_free|]. split.
    - assert (Hne : values <> []).
      { unfold values. destruct valid; [|discriminate].
        unfold cfg in Hge. change (size (@nil ModelSignal.t)) with 0 in Hge. lia. }
      pose proof (median_defined values Hne) as Hm.
      unfold size in Hm. rewrite sort_length, half_index in Hm.
      unfold values in Hm at 2. now rewrite length_map in Hm.
    - rewrite checkConsensus_evaluate by assumption.
      unfold Spec.evaluate. fold cfg.
      destruct (size valid <? _) eqn:E; [apply Z.ltb_lt in E; lia|].
      unfold success, Spec.succeeds, Spec.agreement_count. fold cfg.
      now rewrite Hagree. }
  split.
  { split; [apply sort_perm|now apply sort_ascending]. }
  intros s Hne Hperm Hasc.
  replace (length valid) with (length values) by apply length_map.
  apply median_sign_any_sort; try assumption.
  unfold values. destruct valid; [contradiction|discriminate].
Qed.

Lemma C3_consensus_evaluation_witness :
  (1 <= AILLEConfig.min_models_required (AILLEEngine.config AILLEEngine.init)
   <= INT_MAX
   /\ size Examples.agreeing_batch <= INT_MAX
   /\ Forall (fun v => is_nan v = false)
             (map ModelSignal.value Examples.agreeing_batch))
  /\ AILLEEngine.checkConsensus AILLEEngine.init Examples.agreeing_batch
     = Some (Spec.evaluate AILLEConfig.init Examples.agreeing_batch).
Proof.
  assert (H1 : 1 <= AILLEConfig.min_models_required
                      (AILLEEngine.config AILLEEngine.init) <= INT_MAX)
    by (vm_compute; split; discriminate).
  assert (H2 : size Examples.agreeing_batch <= INT_MAX)
    by (vm_compute; discriminate).
  assert (H3 : Forall (fun v => is_nan v = false)
                      (map ModelSignal.value Examples.agreeing_batch))
    by (repeat constructor).
  split; [repeat split; assumption|].
  exact (proj1 (proj1 (proj2 (C3_consensus_evaluation
                                AILLEEngine.init Examples.agreeing_batch H1 H2))
                      H3)).
Defined.

(** ** Multiplication by 1.0f *)

Lemma fmul_one_l (x : float) : valid x = true -> fmul f1 x = x.
Proof.
  destruct x as [s|s| |s m e]; intros Hv; try reflexivity.
  unfold valid, valid_binary, bounded, canonical_mantissa in Hv.
  apply andb_true_iff in Hv. destruct Hv as [Hc Hb].
  apply Z.eqb_eq in Hc.
  unfold fmul, f1, SFmul.
  change (xorb false s) with s.
  change (Pos.mul 8388608 m) with (Pos.iter xO m 23).
  unfold binary_round_aux, shr_fexp.
  assert (Hd : Zdigits2 (Zpos (Pos.iter xO m 23)) = Zpos (digits2_pos m) + 23)
    by (cbn; lia).
  rewrite Hd.
  replace (Z.pos (digits2_pos m) + 23 + (-23 + e))
    with (Z.pos (digits2_pos m) + e) by lia.
  rewrite Hc.
  replace (e - (-23 + e)) with 23 by lia.
  cbn [shr shr_record_of_loc].
  change (iter_pos shr_1 23
            {| shr_m := Z.pos (Pos.iter xO m 23); shr_r := false; shr_s := false |})
    with {| shr_m := Z.pos m; shr_r := false; shr_s := false |}.
  cbn [shr_m loc_of_shr_record round_nearest_even].
  replace (-23 + e + 23) with e by lia.
  cbn [Zdigits2]. rewrite Hc. rewrite Z.sub_diag. cbn [shr shr_m].
  unfold prec, emax in *. rewrite Hb. reflexivity.
Qed.

(** ** Definedness of the pipeline *)

Lemma checkConsensus_defined (e : AILLEEngine.t) (valid : list ModelSignal.t) :
  valid <> [] -> size valid <= INT_MAX ->
  Forall (fun v => is_nan v = false) (map ModelSignal.value valid) ->
  exists c, AILLEEngine.checkConsensus e valid = Some c
            /\ (AILLEEngine.ok c = true -> AILLEEngine.consensus_value c <> None)
            /\ (size valid
                < to_size_t (AILLEConfig.min_models_required (AILLEEngine.config e)) ->
                AILLEEngine.ok c = false /\ AILLEEngine.models_agreed c = 0).
Proof.
  intros Hne Hmax Hnan.
  destruct (size valid
            <? to_size_t (AILLEConfig.min_models_required (AILLEEngine.config e)))
           eqn:E.
  - exists (AILLEEngine.mkConsensus false None 0).
    unfold AILLEEngine.checkConsensus. rewrite E. cbn.
    repeat split; intros; discriminate.
  - apply Z.ltb_ge in E. rewrite checkConsensus_votes by assumption.
    eexists. split; [reflexivity|]. split; [|lia].
    destruct (Spec.succeeds _ _); cbn; intros; discriminate.
Qed.

(** The safety layer leaves the values as they are. *)
Lemma applySafetyLayer_nan_free (e : AILLEEngine.t) (signals : list ModelSignal.t) :
  Forall (fun v => is_nan v = false) (map ModelSignal.value signals) ->
  Forall (fun v => is_nan v = false)
         (map ModelSignal.value (AILLEEngine.applySafetyLayer e signals)).
Proof.
  rewrite applySafetyLayer_filter.
  induction signals as [|sig rest IH]; intros H; [constructor|].
  cbn [map] in H. inversion H as [|? ? Hsig Hrest]; subst.
  cbn [Spec.filter]. unfold Spec.admission.
  destruct (fge (ModelSignal.confidence sig) _);
    [|destruct (fge (ModelSignal.confidence sig) _)];
    cbn [map ModelSignal.value]; try constructor; auto.
Qed.

Section Decisions.

Variable tanhf : float -> float.

(** [makeDecision] returns a decision on every batch of numbers (no value
    is a NaN) that an [int] can count. *)
Lemma makeDecision_defined (e : AILLEEngine.t) (now : Z) (signals : list ModelSignal.t) :
  size signals <= INT_MAX ->
  Forall (fun v => is_nan v = false) (map ModelSignal.value signals) ->
  exists d e', AILLEEngine.makeDecision tanhf e now signals = Some (d, e').
Proof.
  intros Hmax Hnan. destruct signals as [|s rest] eqn:Hs.
  - eexists. eexists. reflexivity.
  - rewrite <- Hs in *. assert (Hne : signals <> []) by (rewrite Hs; discriminate).
    destruct (AILLEEngine.applySafetyLayer e signals) as [|v vs] eqn:Hv.
    + eexists. eexists. now apply makeDecision_low_confidence.
    + assert (Hvne : AILLEEngine.applySafetyLayer e signals <> [])
        by (rewrite Hv; discriminate).
      pose proof (applySafetyLayer_size e signals) as Hsz.
      destruct (checkConsensus_defined e (AILLEEngine.applySafetyLayer e signals))
        as [c [Hc [Hcv _]]];
        [assumption|lia|now apply applySafetyLayer_nan_free|].
      destruct (AILLEEngine.ok c) eqn:Hok.
      * destruct (AILLEEngine.consensus_value c) as [cv|] eqn:Ecv;
          [|now contradiction Hcv].
        eexists. eexists. now apply makeDecision_valid with (c := c) (cv := cv).
      * eexists. eexists. now apply makeDecision_no_consensus with (c := c).
Qed.

(** C4. When the batch is not empty, some signal passes the safety layer
    and the consensus evaluator succeeds, [makeDecision] returns status
    Valid, final_value = tanh(consensus_value * 100), confidence = the mean
    of the confidences of all the validated signals, contributing_models =
    the model ids of all the validated signals, models_agreed as the
    evaluator reported it and fallback_used = false, and the engine it
    leaves has final_value pushed into its fallback buffer.  For
    [(0.05,0.9,0), (0.04,0.8,1), (0.03,0.85,2)] under the default
    configuration the result is Valid with models_agreed = 3 and
    final_value = tanh(mean(0.05,0.04,0.03) * 100). *)
Theorem C4_valid_decision :
  forall (e : AILLEEngine.t) (now : Z) (signals : list ModelSignal.t)
         (c : AILLEEngine.Consensus),
    signals <> [] ->
    AILLEEngine.applySafetyLayer e signals <> [] ->
    AILLEEngine.checkConsensus e (AILLEEngine.applySafetyLayer e signals) = Some c ->
    AILLEEngine.ok c = true ->
    let valid := AILLEEngine.applySafetyLayer e signals in
    (exists (cv : float) (d : Decision.t) (e' : AILLEEngine.t),
        AILLEEngine.consensus_value c = Some cv
        /\ AILLEEngine.makeDecision tanhf e now signals = Some (d, e')
        /\ Decision.status d = DECISION_VALID
        /\ Decision.final_value d = tanhf (fmul cv f100)
        /\ Decision.confidence d = Spec.mean (map ModelSignal.confidence valid)
        /\ Decision.contributing_models d = map ModelSignal.model_id valid
        /\ Decision.models_agreed d = AILLEEngine.models_agreed c
        /\ Decision.fallback_used d = false
        /\ e' = AILLEEngine.updateFallbackBuffer e (Decision.final_value d)
        /\ AILLEEngine.fallback_buffer e'
           = AILLEEngine.pop_while_over
               (to_size_t (AILLEConfig.fallback_window_size (AILLEEngine.config e)))
               (AILLEEngine.fallback_buffer e ++ [Decision.final_value d]))
    /\ (exists (d : Decision.t) (e' : AILLEEngine.t),
           AILLEEngine.makeDecision tanhf AILLEEngine.init now Examples.agreeing_batch
           = Some (d, e')
           /\ Decision.status d = DECISION_VALID
           /\ Decision.models_agreed d = 3
           /\ Decision.final_value d
              = tanhf (fmul (Spec.mean [decimal 5 100; decimal 4 100; decimal 3 100])
                            f100)).
Proof.
  intros e now signals c Hne Hvalid Hc Hok valid. split.
  - destruct (AILLEEngine.consensus_value c) as [cv|] eqn:Hcv.
    + exists cv. eexists. eexists. split; [reflexivity|].
      split; [now apply makeDecision_valid with (c := c) (cv := cv)|].
      cbn [Decision.status Decision.final_value Decision.confidence
           Decision.contributing_models Decision.models_agreed
           Decision.fallback_used].
      repeat split; reflexivity.
    + exfalso.
      assert (Hsz : AILLEEngine.ok c = true -> AILLEEngine.consensus_value c <> None).
      { unfold AILLEEngine.checkConsensus in Hc.
        destruct (size _ <? _); [inversion Hc; subst; discriminate|].
        apply bind_Some in Hc. destruct Hc as [sorted [_ Hc]].
        apply bind_Some in Hc. destruct Hc as [m [_ Hc]].
        apply bind_Some in Hc. destruct Hc as [n [_ Hc]].
        destruct (fge _ _ && _).
        - apply bind_Some in Hc. destruct Hc as [sc [_ Hc]].
          inversion Hc; subst. cbn. discriminate.
        - inversion Hc; subst. cbn. discriminate. }
      now apply (Hsz Hok).
  - eexists. eexists. split; [vm_compute; reflexivity|].
    repeat split; vm_compute; reflexivity.
Qed.

End Decisions.

(** ** The two fallback branches *)

Section Fallback.

Variable tanhf : float -> float.

(** C6. On a non-empty batch: if the safety filter removes every signal,
    [makeDecision] returns status RejectedLowConfidence with confidence 0.1,
    fallback_used = true, models_agreed = 0 and final_value =
    sign(mean of the fallback buffer) * fallback_position_scale, where the
    mean of an empty buffer is 0 and sign(0) = +1, so that an empty buffer
    gives 1 * fallback_position_scale, which is fallback_position_scale
    itself; if some signal passes and the consensus evaluator fails, it
    returns status RejectedNoConsensus with confidence 0.2, fallback_used =
    true, the same fallback value, and the models_agreed that the evaluator
    reported, which is 0 when the minimum-count test failed.  In both cases
    the engine is left as it was.  The evaluator does report on every
    validated set of numbers that an [int] can count. *)
Theorem C6_fallback_branches :
  forall (e : AILLEEngine.t) (now : Z) (signals : list ModelSignal.t),
    signals <> [] ->
    let valid := AILLEEngine.applySafetyLayer e signals in
    let cfg := AILLEEngine.config e in
    let scale := AILLEConfig.fallback_position_scale cfg in
    let fallback :=
      fmul (Spec.sign (Spec.currentMean (AILLEEngine.fallback_buffer e))) scale in
    (valid = [] ->
     exists d : Decision.t,
       AILLEEngine.makeDecision tanhf e now signals = Some (d, e)
       /\ Decision.status d = REJECTED_LOW_CONFIDENCE
       /\ Decision.confidence d = decimal 1 10
       /\ Decision.fallback_used d = true
       /\ Decision.models_agreed d = 0
       /\ Decision.final_value d = fallback)
    /\ (valid <> [] ->
        (forall c : AILLEEngine.Consensus,
            AILLEEngine.checkConsensus e valid = Some c ->
            (size valid < to_size_t (AILLEConfig.min_models_required cfg) ->
             AILLEEngine.ok c = false /\ AILLEEngine.models_agreed c = 0)
            /\ (AILLEEngine.ok c = false ->
                exists d : Decision.t,
                  AILLEEngine.makeDecision tanhf e now signals = Some (d, e)
                  /\ Decision.status d = REJECTED_NO_CONSENSUS
                  /\ Decision.confidence d = decimal 2 10
                  /\ Decision.fallback_used d = true
                  /\ Decision.models_agreed d = AILLEEngine.models_agreed c
                  /\ Decision.final_value d = fallback))
        /\ (size valid <= INT_MAX ->
            Forall (fun v => is_nan v = false) (map ModelSignal.value valid) ->
            exists c : AILLEEngine.Consensus,
              AILLEEngine.checkConsensus e valid = Some c)
        /\ (size valid < to_size_t (AILLEConfig.min_models_required cfg) ->
            AILLEEngine.checkConsensus e valid
            = Some (AILLEEngine.mkConsensus false None 0)))
    /\ (AILLEEngine.fallback_buffer e = [] ->
        fallback = fmul f1 scale /\ (F32.valid scale = true -> fallback = scale))
    /\ (Spec.sign f0 = f1 /\ Spec.sign (S754_zero true) = f1).
Proof.
  intros e now signals Hne valid0 cfg scale fallback.
  assert (Hfb : AILLEEngine.getFallbackValue e = fallback).
  { rewrite getFallbackValue_directional. reflexivity. }
  split.
  { intros Hempty. eexists. split.
    - now apply makeDecision_low_confidence.
    - cbn [Decision.status Decision.confidence Decision.fallback_used
           Decision.models_agreed Decision.final_value].
      repeat split; try reflexivity; exact Hfb. }
  split.
  { intros Hvalid.
    assert (Hmin : size valid0 < to_size_t (AILLEConfig.min_models_required cfg) ->
                   AILLEEngine.checkConsensus e valid0
                   = Some (AILLEEngine.mkConsensus false None 0)).
    { intros Hlt. unfold AILLEEngine.checkConsensus. fold cfg.
      destruct (size valid0 <? _) eqn:E; [reflexivity|apply Z.ltb_ge in E; lia]. }
    split; [|split; [|exact Hmin]].
    - intros c Hc. split.
      + intros Hlt. rewrite (Hmin Hlt) in Hc. injection Hc as <-.
        split; reflexivity.
      + intros Hok. eexists. split.
        * now apply makeDecision_no_consensus with (c := c).
        * cbn [Decision.status Decision.confidence Decision.fallback_used
               Decision.models_agreed Decision.final_value].
          repeat split; try reflexivity; exact Hfb.
    - intros Hmax Hnan.
      destruct (checkConsensus_defined e valid0 Hvalid Hmax Hnan) as [c [Hc _]].
      now exists c. }
  split.
  { intros Hbuf. unfold fallback. rewrite Hbuf.
    change (Spec.sign (Spec.currentMean [])) with f1.
    split; [reflexivity|]. intros Hv. now apply fmul_one_l. }
  split; reflexivity.
Qed.

End Fallback.

Lemma C6_fallback_branches_witness :
  (Examples.weak_batch <> []
   /\ AILLEEngine.applySafetyLayer AILLEEngine.init Examples.weak_batch = []
   /\ exists d : Decision.t,
       AILLEEngine.makeDecision Examples.tanh_id AILLEEngine.init 7 Examples.weak_batch
       = Some (d, AILLEEngine.init)
       /\ Decision.status d = REJECTED_LOW_CONFIDENCE
       /\ Decision.final_value d = decimal 1 10)
  /\ (Examples.split_batch <> []
      /\ AILLEEngine.applySafetyLayer AILLEEngine.init Examples.split_batch <> []
      /\ size (AILLEEngine.applySafetyLayer AILLEEngine.init Examples.split_batch)
         <= INT_MAX
      /\ Forall (fun v => is_nan v = false)
                (map ModelSignal.value
                     (AILLEEngine.applySafetyLayer AILLEEngine.init
                                                   Examples.split_batch))
      /\ exists d : Decision.t,
          AILLEEngine.makeDecision Examples.tanh_id AILLEEngine.init 7
                                   Examples.split_batch
          = Some (d, AILLEEngine.init)
          /\ Decision.status d = REJECTED_NO_CONSENSUS
          /\ Decision.models_agreed d = 1).
Proof.
  assert (Hw : Examples.weak_batch <> []) by discriminate.
  assert (Hs : Examples.split_batch <> []) by discriminate.
  assert (Hwv : AILLEEngine.applySafetyLayer AILLEEngine.init Examples.weak_batch = [])
    by (vm_compute; reflexivity).
  assert (Hsv : AILLEEngine.applySafetyLayer AILLEEngine.init Examples.split_batch <> [])
    by (vm_compute; discriminate).
  assert (Hsm : size (AILLEEngine.applySafetyLayer AILLEEngine.init Examples.split_batch)
                <= INT_MAX)
    by (vm_compute; discriminate).
  assert (Hsn : Forall (fun v => is_nan v = false)
                       (map ModelSignal.value
                            (AILLEEngine.applySafetyLayer AILLEEngine.init
                                                          Examples.split_batch)))
    by (apply applySafetyLayer_nan_free; repeat constructor).
  split.
  - split; [exact Hw|]. split; [exact Hwv|].
    destruct (C6_fallback_branches Examples.tanh_id AILLEEngine.init 7
                                   Examples.weak_batch Hw)
      as [Hlow [_ [Hempty _]]].
    destruct (Hlow Hwv) as [d [Hd [Hst [_ [_ [_ Hfv]]]]]].
    exists d. split; [exact Hd|]. split; [exact Hst|].
    rewrite Hfv. apply (proj2 (Hempty eq_refl)). vm_compute. reflexivity.
  - split; [exact Hs|]. split; [exact Hsv|]. split; [exact Hsm|].
    split; [exact Hsn|].
    destruct (C6_fallback_branches Examples.tanh_id AILLEEngine.init 7
                                   Examples.split_batch Hs)
      as [_ [Hno _]].
    destruct (Hno Hsv) as [Hbranch [Hdef _]].
    destruct (Hdef Hsm Hsn) as [c Hc].
    destruct (Hbranch c Hc) as [_ Hfail].
    assert (Hcc : c = AILLEEngine.mkConsensus false None 1).
    { assert (Hcomp :
                AILLEEngine.checkConsensus
                  AILLEEngine.init
                  (AILLEEngine.applySafetyLayer AILLEEngine.init Examples.split_batch)
                = Some (AILLEEngine.mkConsensus false None 1))
        by (vm_compute; reflexivity).
      rewrite Hcomp in Hc. now inversion Hc. }
    subst c. destruct (Hfail eq_refl) as [d [Hd [Hst [_ [_ [Hma _]]]]]].
    exists d. split; [exact Hd|]. split; [exact Hst|]. exact Hma.
Defined.

Lemma C4_valid_decision_witness :
  (Examples.agreeing_batch <> []
   /\ AILLEEngine.applySafetyLayer AILLEEngine.init Examples.agreeing_batch <> []
   /\ AILLEEngine.checkConsensus
        AILLEEngine.init
        (AILLEEngine.applySafetyLayer AILLEEngine.init Examples.agreeing_batch)
      = Some Examples.agreeing_consensus
   /\ AILLEEngine.ok Examples.agreeing_consensus = true)
  /\ exists (d : Decision.t) (e' : AILLEEngine.t),
      AILLEEngine.makeDecision Examples.tanh_id AILLEEngine.init 7
                               Examples.agreeing_batch
      = Some (d, e')
      /\ Decision.status d = DECISION_VALID
      /\ Decision.contributing_models d = [0; 1; 2]
      /\ AILLEEngine.fallback_buffer e' = [Decision.final_value d].
Proof.
  pose (c := Examples.agreeing_consensus).
  assert (H1 : Examples.agreeing_batch <> []) by discriminate.
  assert (H2 : AILLEEngine.applySafetyLayer AILLEEngine.init Examples.agreeing_batch
               <> [])
    by (vm_compute; discriminate).
  assert (H3 : AILLEEngine.checkConsensus
                 AILLEEngine.init
                 (AILLEEngine.applySafetyLayer AILLEEngine.init Examples.agreeing_batch)
               = Some c)
    by (vm_compute; reflexivity).
  assert (H4 : AILLEEngine.ok c = true) by reflexivity.
  split; [repeat split; assumption|].
  destruct (C4_valid_decision Examples.tanh_id AILLEEngine.init 7
                              Examples.agreeing_batch c H1 H2 H3 H4)
    as [[cv [d [e' [_ [Hd [Hst [_ [_ [Hcm [_ [_ [_ Hbuf]]]]]]]]]]]] _].
  exists d, e'. split; [exact Hd|]. split; [exact Hst|].
  split; [rewrite Hcm; vm_compute; reflexivity|].
  rewrite Hbuf. vm_compute. reflexivity.
Defined.

(** ** The fallback buffer *)

Lemma pop_while_over_bound (w : Z) (buf : list float) :
  0 <= w -> size (AILLEEngine.pop_while_over w buf) <= w.
Proof.
  intros Hw. induction buf as [|x rest IH]; cbn [AILLEEngine.pop_while_over].
  - rewrite size_nil. assumption.
  - destruct (size (x :: rest) >? w) eqn:E; [assumption|].
    rewrite Z.gtb_ltb in E. apply Z.ltb_ge in E. assumption.
Qed.

Lemma pop_while_over_fits (w : Z) (buf : list float) :
  size buf <= w -> AILLEEngine.pop_while_over w buf = buf.
Proof.
  intros H. destruct buf as [|x rest]; cbn [AILLEEngine.pop_while_over]; [reflexivity|].
  destruct (size (x :: rest) >? w) eqn:E; [|reflexivity].
  rewrite Z.gtb_ltb in E. apply Z.ltb_lt in E. lia.
Qed.

Lemma pop_while_over_one (w : Z) (buf : list float) :
  size buf = w + 1 -> AILLEEngine.pop_while_over w buf = tl buf.
Proof.
  intros H. destruct buf as [|x rest]; cbn [AILLEEngine.pop_while_over tl];
    [reflexivity|].
  rewrite size_cons in H.
  destruct (size (x :: rest) >? w) eqn:E.
  - apply pop_while_over_fits. lia.
  - rewrite Z.gtb_ltb in E. apply Z.ltb_ge in E. rewrite size_cons in E. lia.
Qed.

Lemma updateFallbackBuffer_bound (e : AILLEEngine.t) (v : float) :
  0 <= AILLEConfig.fallback_window_size (AILLEEngine.config e) ->
  size (AILLEEngine.fallback_buffer (AILLEEngine.updateFallbackBuffer e v))
  <= AILLEConfig.fallback_window_size (AILLEEngine.config e).
Proof.
  intros Hw. unfold AILLEEngine.updateFallbackBuffer. cbn [AILLEEngine.fallback_buffer].
  pose proof (to_size_t_le _ Hw).
  pose proof (pop_while_over_bound
                (to_size_t (AILLEConfig.fallback_window_size (AILLEEngine.config e)))
                (AILLEEngine.fallback_buffer e ++ [v])
                (to_size_t_nonneg _)).
  lia.
Qed.

Lemma updateFallbackBuffer_push (e : AILLEEngine.t) (v : float) :
  1 <= AILLEConfig.fallback_window_size (AILLEEngine.config e) <= INT_MAX ->
  size (AILLEEngine.fallback_buffer e)
  <= AILLEConfig.fallback_window_size (AILLEEngine.config e) ->
  AILLEEngine.fallback_buffer (AILLEEngine.updateFallbackBuffer e v)
  = Spec.push (AILLEConfig.fallback_window_size (AILLEEngine.config e))
              (AILLEEngine.fallback_buffer e) v.
Proof.
  intros Hw Hsz. unfold AILLEEngine.updateFallbackBuffer, Spec.push.
  cbn [AILLEEngine.fallback_buffer]. rewrite to_size_t_small by lia.
  case_ltb E.
  - apply pop_while_over_fits. autorewrite with sizes. lia.
  - rewrite pop_while_over_one.
    + destruct (AILLEEngine.fallback_buffer e) as [|x rest]; [|reflexivity].
      autorewrite with sizes in E. lia.
    + autorewrite with sizes. lia.
Qed.

Section Store.

Variable tanhf : float -> float.

(** What a call of [makeDecision] does to the engine. *)
Lemma makeDecision_engine (e e' : AILLEEngine.t) (now : Z)
      (signals : list ModelSignal.t) (d : Decision.t) :
  AILLEEngine.makeDecision tanhf e now signals = Some (d, e') ->
  (Decision.status d <> DECISION_VALID /\ e' = e)
  \/ (Decision.status d = DECISION_VALID
      /\ e' = AILLEEngine.updateFallbackBuffer e (Decision.final_value d)).
Proof.
  unfold AILLEEngine.makeDecision. intros H.
  destruct signals as [|s rest].
  { inversion H; subst. left. split; [discriminate|reflexivity]. }
  destruct (AILLEEngine.applySafetyLayer e (s :: rest)) as [|v vs].
  { inversion H; subst. left. split; [discriminate|reflexivity]. }
  apply bind_Some in H. destruct H as [c [_ H]].
  destruct (negb (AILLEEngine.ok c)).
  { inversion H; subst. left. split; [discriminate|reflexivity]. }
  apply bind_Some in H. destruct H as [cv [_ H]].
  rewrite makeDecision_loop in H. inversion H; subst. right.
  split; reflexivity.
Qed.

Lemma engine_step_invariant (e e' : AILLEEngine.t) (op : EngineOp) :
  0 <= AILLEConfig.fallback_window_size (AILLEEngine.config e) ->
  size (AILLEEngine.fallback_buffer e)
  <= AILLEConfig.fallback_window_size (AILLEEngine.config e) ->
  engine_step tanhf e op = Some e' ->
  AILLEEngine.config e' = AILLEEngine.config e
  /\ size (AILLEEngine.fallback_buffer e')
     <= AILLEConfig.fallback_window_size (AILLEEngine.config e).
Proof.
  intros Hw Hsz Hstep. destruct op as [now signals|]; cbn [engine_step] in Hstep.
  - apply bind_Some in Hstep. destruct Hstep as [[d e1] [Hd He1]].
    inversion He1; subst. cbn [snd].
    destruct (makeDecision_engine _ _ _ _ _ Hd) as [[_ ->]|[_ ->]].
    + split; [reflexivity|assumption].
    + split; [reflexivity|]. now apply updateFallbackBuffer_bound.
  - inversion Hstep; subst. cbn. split; [reflexivity|assumption].
Qed.

Lemma engine_run_invariant (ops : list EngineOp) (e e' : AILLEEngine.t) :
  0 <= AILLEConfig.fallback_window_size (AILLEEngine.config e) ->
  size (AILLEEngine.fallback_buffer e)
  <= AILLEConfig.fallback_window_size (AILLEEngine.config e) ->
  engine_run tanhf e ops = Some e' ->
  AILLEEngine.config e' = AILLEEngine.config e
  /\ size (AILLEEngine.fallback_buffer e')
     <= AILLEConfig.fallback_window_size (AILLEEngine.config e).
Proof.
  revert e. induction ops as [|op rest IH]; intros e Hw Hsz Hrun; cbn in Hrun.
  - inversion Hrun; subst. split; [reflexivity|assumption].
  - apply bind_Some in Hrun. destruct Hrun as [e1 [Hstep Hrest]].
    destruct (engine_step_invariant _ _ _ Hw Hsz Hstep) as [Hcfg Hsz1].
    destruct (IH e1) as [Hcfg' Hsz']; rewrite ?Hcfg; try assumption.
    split; [congruence|]. now rewrite Hcfg in Hsz'.
Qed.

End Store.

(** C7 (as the code has it). Under a configuration whose window is at least
    1: every push leaves at most fallback_window_size values, whatever the
    buffer held before; a push onto a buffer within its window appends the
    value, and onto a full buffer it drops exactly the oldest value; over
    any sequence of decisions and resets from construction the buffer stays
    within the window; a call of [makeDecision] changes the engine only when
    its outcome is Valid, and then by pushing final_value.  With a window of
    3, pushing 0.1, 0.2, 0.3, 0.4 leaves exactly [0.2, 0.3, 0.4]; the mean
    computed in single precision is 0.29999998, the value immediately
    below 0.3f. *)
Theorem C7_fallback_store :
  forall (tanhf : float -> float) (cfg : AILLEConfig.t),
    1 <= AILLEConfig.fallback_window_size cfg <= INT_MAX ->
    let window := AILLEConfig.fallback_window_size cfg in
    (forall (buf : list float) (v : float),
        size (AILLEEngine.fallback_buffer
                (AILLEEngine.updateFallbackBuffer (AILLEEngine.mk cfg buf) v))
        <= window)
    /\ (forall (buf : list float) (v : float),
           size buf <= window ->
           AILLEEngine.fallback_buffer
             (AILLEEngine.updateFallbackBuffer (AILLEEngine.mk cfg buf) v)
           = if size buf <? window then buf ++ [v] else tl buf ++ [v])
    /\ (forall (ops : list EngineOp) (e' : AILLEEngine.t),
           engine_run tanhf (AILLEEngine.init_with cfg) ops = Some e' ->
           AILLEEngine.config e' = cfg
           /\ size (AILLEEngine.fallback_buffer e') <= window)
    /\ (forall (e e' : AILLEEngine.t) (now : Z) (signals : list ModelSignal.t)
               (d : Decision.t),
           AILLEEngine.makeDecision tanhf e now signals = Some (d, e') ->
           (Decision.status d <> DECISION_VALID -> e' = e)
           /\ (Decision.status d = DECISION_VALID ->
               e' = AILLEEngine.updateFallbackBuffer e (Decision.final_value d)))
    /\ (AILLEEngine.fallback_buffer Examples.pushed4
        = [decimal 2 10; decimal 3 10; decimal 4 10]
        /\ AILLEEngine.calculateFallbackValue Examples.pushed4
           = S754_finite false 10066329 (-25)
        /\ SFsucc prec emax (AILLEEngine.calculateFallbackValue Examples.pushed4)
           = decimal 3 10).
Proof.
  intros tanhf cfg Hw window. split.
  { intros buf v.
    apply (updateFallbackBuffer_bound (AILLEEngine.mk cfg buf) v). cbn. lia. }
  split.
  { intros buf v Hsz.
    now apply (updateFallbackBuffer_push (AILLEEngine.mk cfg buf) v). }
  split.
  { intros ops e' Hrun.
    apply (engine_run_invariant tanhf ops (AILLEEngine.init_with cfg) e');
      cbn [AILLEEngine.init_with AILLEEngine.config AILLEEngine.fallback_buffer];
      try assumption; rewrite ?size_nil; lia. }
  split.
  { intros e e' now signals d Hd.
    destruct (makeDecision_engine tanhf _ _ _ _ _ Hd) as [[Hs ->]|[Hs ->]].
    - split; [reflexivity|intros Hv; now contradiction Hs].
    - split; [intros Hn; now contradiction Hn|reflexivity]. }
  repeat split; vm_compute; reflexivity.
Qed.

Lemma C7_fallback_store_witness :
  1 <= AILLEConfig.fallback_window_size Examples.window3 <= INT_MAX
  /\ size (AILLEEngine.fallback_buffer
             (AILLEEngine.updateFallbackBuffer
                (AILLEEngine.mk Examples.window3
                                [decimal 1 10; decimal 2 10; decimal 3 10])
                (decimal 4 10)))
     <= 3.
Proof.
  assert (H : 1 <= AILLEConfig.fallback_window_size Examples.window3 <= INT_MAX)
    by (vm_compute; split; discriminate).
  split; [exact H|].
  exact (proj1 (C7_fallback_store Examples.tanh_id Examples.window3 H)
               [decimal 1 10; decimal 2 10; decimal 3 10] (decimal 4 10)).
Defined.

(** The mean stored after pushing 0.1, 0.2, 0.3, 0.4 with a window of 3 is
    not 0.3f: the sum 0.2f + 0.3f + 0.4f rounds to 0.9f, and 0.9f / 3
    rounds to the value below 0.3f. *)
Lemma C7_mean_counterexample :
  AILLEEngine.fallback_buffer Examples.pushed4
  = [decimal 2 10; decimal 3 10; decimal 4 10]
  /\ AILLEEngine.calculateFallbackValue Examples.pushed4 <> decimal 3 10
  /\ feq (AILLEEngine.calculateFallbackValue Examples.pushed4) (decimal 3 10) = false
  /\ flt (AILLEEngine.calculateFallbackValue Examples.pushed4) (decimal 3 10) = true.
Proof.
  split; [vm_compute; reflexivity|].
  split; [vm_compute; discriminate|].
  split; vm_compute; reflexivity.
Qed.

(** ** The hash chain of [aille.hpp] *)

Lemma last_cons_default {A : Type} (l : list A) (a d : A) :
  last (a :: l) d = last l a.
Proof.
  revert a d. induction l as [|y l IH]; intros a d; [reflexivity|].
  change (last (a :: y :: l) d) with (last (y :: l) d).
  now rewrite (IH y d), (IH y a).
Qed.

Lemma hpp_verify_from_app (h : string) (l : list AuditHpp.AuditRecord.t)
      (r : AuditHpp.AuditRecord.t) :
  AuditHpp.verify_from h (l ++ [r])
  = AuditHpp.verify_from h l
    && String.eqb (AuditHpp.AuditRecord.prev_hash r)
                  (last (map AuditHpp.AuditRecord.hash l) h).
Proof.
  revert h. induction l as [|x l IH]; intros h.
  - cbn. destruct (String.eqb _ h); reflexivity.
  - cbn [app AuditHpp.verify_from map]. rewrite IH.
    destruct (String.eqb (AuditHpp.AuditRecord.prev_hash x) h); cbn [negb];
      [|reflexivity].
    f_equal. f_equal. symmetry. apply last_cons_default.
Qed.

Lemma hpp_verify_from_linked (h : string) (trail : list AuditHpp.AuditRecord.t) :
  AuditHpp.verify_from h trail = true ->
  (forall r, hd_error trail = Some r -> AuditHpp.AuditRecord.prev_hash r = h)
  /\ (forall i r r',
         nth_error trail i = Some r -> nth_error trail (S i) = Some r' ->
         AuditHpp.AuditRecord.prev_hash r' = AuditHpp.AuditRecord.hash r).
Proof.
  revert h. induction trail as [|x rest IH]; intros h Hv.
  - split; [intros r Hr; discriminate|intros i r r' Hr; destruct i; discriminate].
  - cbn [AuditHpp.verify_from] in Hv.
    destruct (String.eqb (AuditHpp.AuditRecord.prev_hash x) h) eqn:E;
      cbn [negb] in Hv; [|discriminate].
    apply String.eqb_eq in E. destruct (IH _ Hv) as [Hhd Hnext]. split.
    + intros r Hr. cbn in Hr. injection Hr as <-. exact E.
    + intros [|i] r r' Hr Hr'; cbn [nth_error] in Hr, Hr'.
      * injection Hr as <-. apply Hhd. destruct rest; [discriminate|exact Hr'].
      * now apply (Hnext i).
Qed.

Lemma hpp_verifyIntegrity_verify_from (lg : AuditHpp.AuditLogger) :
  AuditHpp.verifyIntegrity lg
  = AuditHpp.verify_from genesis_hash (AuditHpp.audit_trail lg).
Proof.
  unfold AuditHpp.verifyIntegrity. destruct (AuditHpp.audit_trail lg); reflexivity.
Qed.

Lemma hpp_tamper_verify (h : string) (trail : list AuditHpp.AuditRecord.t)
      (i : nat) (v : float) :
  AuditHpp.verify_from h (hpp_tamper trail i v) = AuditHpp.verify_from h trail.
Proof.
  revert h i. induction trail as [|r rest IH]; intros h i.
  - destruct i; reflexivity.
  - destruct i as [|k]; cbn [hpp_tamper AuditHpp.verify_from].
    + reflexivity.
    + now rewrite IH.
Qed.

Lemma seq_snoc (start len : nat) :
  seq start (S len) = seq start len ++ [(start + len)%nat].
Proof. rewrite <- Nat.add_1_r. rewrite seq_app. reflexivity. Qed.

Section ChainHpp.

Variable show_float : float -> string.
Variable hasher : string -> N.
Variable strftime_utc : Z -> string.

(** What one call of [logDecision] leaves in memory. *)
Lemma hpp_logDecision_memory (lg : AuditHpp.AuditLogger) (disk_ok : bool)
      (d : Decision.t) (symbol strategy : string) :
  let lg' := AuditHpp.logDecision show_float hasher strftime_utc lg disk_ok d
                                  symbol strategy in
  exists rec : AuditHpp.AuditRecord.t,
    AuditHpp.audit_trail lg' = AuditHpp.audit_trail lg ++ [rec]
    /\ AuditHpp.AuditRecord.prev_hash rec = AuditHpp.last_hash lg
    /\ AuditHpp.AuditRecord.decision_id rec = AuditHpp.next_decision_id lg
    /\ AuditHpp.AuditRecord.final_value rec = Decision.final_value d
    /\ AuditHpp.last_hash lg' = AuditHpp.AuditRecord.hash rec
    /\ AuditHpp.next_decision_id lg' = to_uint64 (AuditHpp.next_decision_id lg + 1).
Proof.
  cbv zeta. unfold AuditHpp.logDecision. eexists.
  cbn [AuditHpp.audit_trail AuditHpp.last_hash AuditHpp.next_decision_id].
  split; [reflexivity|]. repeat split; reflexivity.
Qed.

(** The invariant of the logger: the trail is linked from the genesis
    hash, [last_hash] is the hash of the last record, and the identifiers
    count from 1 (modulo 2^64). *)
Lemma hpp_log_all_invariant (calls : list HppCall) (lg : AuditHpp.AuditLogger) :
  let n := length (AuditHpp.audit_trail lg) in
  AuditHpp.verify_from genesis_hash (AuditHpp.audit_trail lg) = true ->
  AuditHpp.last_hash lg
  = last (map AuditHpp.AuditRecord.hash (AuditHpp.audit_trail lg)) genesis_hash ->
  AuditHpp.next_decision_id lg = to_uint64 (Z.of_nat (S n)) ->
  map AuditHpp.AuditRecord.decision_id (AuditHpp.audit_trail lg)
  = map (fun i => to_uint64 (Z.of_nat i)) (seq 1 n) ->
  let lg' := hpp_log_all show_float hasher strftime_utc lg calls in
  let n' := (n + length calls)%nat in
  length (AuditHpp.audit_trail lg') = n'
  /\ AuditHpp.verify_from genesis_hash (AuditHpp.audit_trail lg') = true
  /\ map AuditHpp.AuditRecord.decision_id (AuditHpp.audit_trail lg')
     = map (fun i => to_uint64 (Z.of_nat i)) (seq 1 n').
Proof.
  revert lg. induction calls as [|c rest IH]; intros lg n Hv Hlast Hnext Hids.
  - cbn [hpp_log_all fold_left length]. rewrite Nat.add_0_r. now repeat split.
  - cbn [hpp_log_all fold_left length].
    destruct (hpp_logDecision_memory lg (hc_disk_ok c) (hc_decision c)
                                     (hc_symbol c) (hc_strategy c))
      as [rec [Htrail [Hprev [Hid [_ [Hlast' Hnext']]]]]].
    set (lg1 := AuditHpp.logDecision _ _ _ lg _ _ _ _) in *.
    assert (Hlen : length (AuditHpp.audit_trail lg1) = S n)
      by (rewrite Htrail, length_app; cbn [length]; fold n; lia).
    specialize (IH lg1). cbv zeta in IH. rewrite Hlen in IH.
    replace (n + S (length rest))%nat with (S n + length rest)%nat by lia.
    apply IH.
    + rewrite Htrail, hpp_verify_from_app, Hv, Hprev, Hlast. cbn [andb].
      apply String.eqb_refl.
    + rewrite Hlast', Htrail, map_app. cbn [map]. now rewrite last_last.
    + rewrite Hnext', Hnext. unfold to_uint64.
      rewrite Zplus_mod_idemp_l. f_equal. lia.
    + rewrite Htrail, map_app, Hids, seq_snoc, map_app. cbn [map].
      rewrite Hid, Hnext. reflexivity.
Qed.

End ChainHpp.

(** Both constructors leave an empty trail, the counter at 1 and the genesis
    hash as last hash; they differ by the stream only. *)
Lemma hpp_constructors_fresh (fs : OStream.open_answer) :
  AuditHpp.init = AuditHpp.mkLogger OStream.init [] 1 genesis_hash
  /\ AuditHpp.init_with fs
     = AuditHpp.mkLogger (AuditHpp.log_file (AuditHpp.init_with fs))
                         [] 1 genesis_hash.
Proof.
  split; [reflexivity|].
  unfold AuditHpp.init_with, AuditHpp.open.
  destruct (negb _); reflexivity.
Qed.

(** C2. After any sequence of [logDecision] calls on a freshly constructed
    logger (fewer than 2^64 of them, the range of the [uint64_t] counter),
    with no later mutation: the trail holds one record per call, the first
    record's prev_hash is the genesis hash "0000000000000000", every later
    record's prev_hash is the hash of the record before it, the
    decision ids are exactly 1, 2, 3, ..., and [verifyIntegrity] returns
    true; it returns true on the empty trail too.  The file attached to the
    logger and the fate of the writes play no part. *)
Theorem C2_chain_invariant :
  forall (show_float : float -> string) (hasher : string -> N)
         (strftime_utc : Z -> string) (f : OStream.t) (calls : list HppCall),
    Z.of_nat (length calls) < 2 ^ 64 ->
    let fresh := AuditHpp.mkLogger f [] 1 genesis_hash in
    let lg := hpp_log_all show_float hasher strftime_utc fresh calls in
    let trail := AuditHpp.audit_trail lg in
    length trail = length calls
    /\ (forall r, hd_error trail = Some r ->
                  AuditHpp.AuditRecord.prev_hash r = "0000000000000000"%string)
    /\ (forall i r r',
           nth_error trail i = Some r -> nth_error trail (S i) = Some r' ->
           AuditHpp.AuditRecord.prev_hash r' = AuditHpp.AuditRecord.hash r)
    /\ map AuditHpp.AuditRecord.decision_id trail
       = map Z.of_nat (seq 1 (length calls))
    /\ AuditHpp.verifyIntegrity lg = true
    /\ AuditHpp.verifyIntegrity fresh = true.
Proof.
  intros show_float hasher strftime_utc f calls Hlen fresh lg trail.
  destruct (hpp_log_all_invariant show_float hasher strftime_utc calls fresh)
    as [Hn [Hv Hids]]; try reflexivity.
  cbn [AuditHpp.audit_trail fresh length Nat.add] in Hn, Hv, Hids.
  fold lg in Hn, Hv, Hids. fold trail in Hn, Hv, Hids.
  destruct (hpp_verify_from_linked _ _ Hv) as [Hhd Hnext].
  split; [exact Hn|]. split; [exact Hhd|]. split; [exact Hnext|].
  split.
  { rewrite Hids. apply map_ext_in. intros i Hi. apply in_seq in Hi.
    unfold to_uint64, SIZE_MOD. apply Z.mod_small. lia. }
  split; [|reflexivity].
  rewrite hpp_verifyIntegrity_verify_from. exact Hv.
Qed.

Lemma C2_chain_invariant_witness :
  Z.of_nat (length Examples.hpp_calls) < 2 ^ 64
  /\ map AuditHpp.AuditRecord.decision_id
         (AuditHpp.audit_trail
            (hpp_log_all Examples.show_float0 Examples.hasher0 Examples.strftime_utc0
                         (AuditHpp.mkLogger OStream.init [] 1 genesis_hash)
                         Examples.hpp_calls))
     = [1; 2; 3]
  /\ AuditHpp.verifyIntegrity
       (hpp_log_all Examples.show_float0 Examples.hasher0 Examples.strftime_utc0
                    (AuditHpp.mkLogger OStream.init [] 1 genesis_hash)
                    Examples.hpp_calls)
     = true.
Proof.
  assert (H : Z.of_nat (length Examples.hpp_calls) < 2 ^ 64) by (vm_compute; reflexivity).
  split; [exact H|].
  destruct (C2_chain_invariant Examples.show_float0 Examples.hasher0
                               Examples.strftime_utc0 OStream.init
                               Examples.hpp_calls H)
    as [_ [_ [_ [Hids [Hv _]]]]].
  split; [exact Hids|exact Hv].
Defined.

(** ** The hash chain of [aille_audit.cpp] *)

Lemma cpp_verify_from_app (h : string) (l : list AuditCpp.AuditRecord.t)
      (r : AuditCpp.AuditRecord.t) :
  AuditCpp.verify_from h (l ++ [r])
  = AuditCpp.verify_from h l
    && String.eqb (AuditCpp.AuditRecord.prev_hash r)
                  (last (map AuditCpp.AuditRecord.hash l) h).
Proof.
  revert h. induction l as [|x l IH]; intros h.
  - cbn. destruct (String.eqb _ h); reflexivity.
  - cbn [app AuditCpp.verify_from map]. rewrite IH.
    destruct (String.eqb (AuditCpp.AuditRecord.prev_hash x) h); cbn [negb];
      [|reflexivity].
    f_equal. f_equal. symmetry. apply last_cons_default.
Qed.

Lemma cpp_verifyIntegrity_verify_from (lg : AuditCpp.AuditLogger) :
  AuditCpp.verifyIntegrity lg
  = AuditCpp.verify_from genesis_hash (AuditCpp.audit_trail lg).
Proof.
  unfold AuditCpp.verifyIntegrity. destruct (AuditCpp.audit_trail lg); reflexivity.
Qed.

Lemma cpp_tamper_verify (h : string) (trail : list AuditCpp.AuditRecord.t)
      (i : nat) (v : float) :
  AuditCpp.verify_from h (cpp_tamper trail i v) = AuditCpp.verify_from h trail.
Proof.
  revert h i. induction trail as [|r rest IH]; intros h i.
  - destruct i; reflexivity.
  - destruct i as [|k]; cbn [cpp_tamper AuditCpp.verify_from].
    + reflexivity.
    + now rewrite IH.
Qed.

Section ChainCpp.

Variable show_float : float -> string.
Variable hasher : string -> N.
Variable strftime_utc : Z -> string.

Lemma cpp_log_all_linked (calls : list CppCall) (lg : AuditCpp.AuditLogger) :
  AuditCpp.verify_from genesis_hash (AuditCpp.audit_trail lg) = true ->
  AuditCpp.last_hash lg
  = last (map AuditCpp.AuditRecord.hash (AuditCpp.audit_trail lg)) genesis_hash ->
  AuditCpp.verify_from
    genesis_hash
    (AuditCpp.audit_trail (cpp_log_all show_float hasher strftime_utc lg calls))
  = true.
Proof.
  revert lg. induction calls as [|c rest IH]; intros lg Hv Hlast.
  - exact Hv.
  - cbn [cpp_log_all fold_left]. apply IH.
    + unfold AuditCpp.logDecision. cbn [AuditCpp.audit_trail].
      rewrite cpp_verify_from_app, Hv. cbn [andb AuditCpp.AuditRecord.set_hash
        AuditCpp.AuditRecord.prev_hash].
      rewrite Hlast. apply String.eqb_refl.
    + unfold AuditCpp.logDecision.
      cbn [AuditCpp.audit_trail AuditCpp.last_hash]. rewrite map_app. cbn [map].
      now rewrite last_last.
Qed.

End ChainCpp.

(** ** Tampering with a stored value *)

(** C1 (what the code does). After any sequence of [logDecision] calls on a
    fresh logger, overwriting the stored final_value of any record, with no
    hash recomputed, leaves [verifyIntegrity] returning true, in [aille.hpp]
    and in [aille_audit.cpp] alike: the check compares each prev_hash with
    the stored hash of the record before and never recomputes a hash.  In
    the instance, the first of three records has its final_value changed
    from 0.5 to 0.9 and the trail still verifies. *)
Theorem C1_tampering_undetected :
  forall (show_float : float -> string) (hasher : string -> N)
         (strftime_utc : Z -> string) (f : OStream.t)
         (hcalls : list HppCall) (ccalls : list CppCall) (i : nat) (v : float),
    let hlg := hpp_log_all show_float hasher strftime_utc
                           (AuditHpp.mkLogger f [] 1 genesis_hash) hcalls in
    let clg := cpp_log_all show_float hasher strftime_utc
                           (AuditCpp.mkLogger f [] 1 genesis_hash) ccalls in
    AuditHpp.verifyIntegrity
      (hpp_with_trail hlg (hpp_tamper (AuditHpp.audit_trail hlg) i v)) = true
    /\ AuditCpp.verifyIntegrity
         (cpp_with_trail clg (cpp_tamper (AuditCpp.audit_trail clg) i v)) = true
    /\ (let lg0 := hpp_log_all Examples.show_float0 Examples.hasher0
                               Examples.strftime_utc0 AuditHpp.init
                               Examples.hpp_calls in
        let tampered := hpp_tamper (AuditHpp.audit_trail lg0) 0 (decimal 9 10) in
        option_map AuditHpp.AuditRecord.final_value
                   (nth_error (AuditHpp.audit_trail lg0) 0) = Some (decimal 5 10)
        /\ option_map AuditHpp.AuditRecord.final_value (nth_error tampered 0)
           = Some (decimal 9 10)
        /\ option_map AuditHpp.AuditRecord.hash (nth_error tampered 0)
           = option_map AuditHpp.AuditRecord.hash
                        (nth_error (AuditHpp.audit_trail lg0) 0)
        /\ AuditHpp.verifyIntegrity (hpp_with_trail lg0 tampered) = true).
Proof.
  intros show_float hasher strftime_utc f hcalls ccalls i v hlg clg.
  split.
  { rewrite hpp_verifyIntegrity_verify_from. cbn [hpp_with_trail AuditHpp.audit_trail].
    rewrite hpp_tamper_verify.
    destruct (hpp_log_all_invariant show_float hasher strftime_utc hcalls
                                    (AuditHpp.mkLogger f [] 1 genesis_hash))
      as [_ [Hv _]]; try reflexivity.
    exact Hv. }
  split.
  { rewrite cpp_verifyIntegrity_verify_from. cbn [cpp_with_trail AuditCpp.audit_trail].
    rewrite cpp_tamper_verify. now apply cpp_log_all_linked. }
  repeat split; vm_compute; reflexivity.
Qed.

(** ** What the digest covers *)

(** C10. In [aille.hpp], two records that agree on timestamp_ns,
    decision_id, final_value, confidence, reasoning and prev_hash have the
    same digest, whatever their status, models_agreed, fallback_used,
    symbol, strategy_id and stored hash; in [aille_audit.cpp] the same holds
    for records that agree on models_agreed as well, whatever their status,
    fallback_used, contributing_models, symbol, strategy_id, user_id and
    stored hash. *)
Theorem C10_digest_ignores_fields :
  forall (show_float : float -> string) (hasher : string -> N)
         (r1 r2 : AuditHpp.AuditRecord.t) (q1 q2 : AuditCpp.AuditRecord.t),
    (AuditHpp.AuditRecord.timestamp_ns r1 = AuditHpp.AuditRecord.timestamp_ns r2
     /\ AuditHpp.AuditRecord.decision_id r1 = AuditHpp.AuditRecord.decision_id r2
     /\ AuditHpp.AuditRecord.final_value r1 = AuditHpp.AuditRecord.final_value r2
     /\ AuditHpp.AuditRecord.confidence r1 = AuditHpp.AuditRecord.confidence r2
     /\ AuditHpp.AuditRecord.reasoning r1 = AuditHpp.AuditRecord.reasoning r2
     /\ AuditHpp.AuditRecord.prev_hash r1 = AuditHpp.AuditRecord.prev_hash r2) ->
    (AuditCpp.AuditRecord.timestamp_ns q1 = AuditCpp.AuditRecord.timestamp_ns q2
     /\ AuditCpp.AuditRecord.decision_id q1 = AuditCpp.AuditRecord.decision_id q2
     /\ AuditCpp.AuditRecord.final_value q1 = AuditCpp.AuditRecord.final_value q2
     /\ AuditCpp.AuditRecord.confidence q1 = AuditCpp.AuditRecord.confidence q2
     /\ AuditCpp.AuditRecord.models_agreed q1 = AuditCpp.AuditRecord.models_agreed q2
     /\ AuditCpp.AuditRecord.reasoning q1 = AuditCpp.AuditRecord.reasoning q2
     /\ AuditCpp.AuditRecord.prev_hash q1 = AuditCpp.AuditRecord.prev_hash q2) ->
    AuditHpp.computeHash show_float hasher r1 = AuditHpp.computeHash show_float hasher r2
    /\ AuditCpp.computeHash show_float hasher q1
       = AuditCpp.computeHash show_float hasher q2.
Proof.
  intros show_float hasher r1 r2 q1 q2
         (Hts & Hid & Hfv & Hcf & Hre & Hph) (Gts & Gid & Gfv & Gcf & Gma & Gre & Gph).
  unfold AuditHpp.computeHash, AuditCpp.computeHash.
  rewrite Hts, Hid, Hfv, Hcf, Hre, Hph, Gts, Gid, Gfv, Gcf, Gma, Gre, Gph.
  split; reflexivity.
Qed.

Lemma C10_digest_ignores_fields_witness :
  Examples.hpp_record_a <> Examples.hpp_record_b
  /\ Examples.cpp_record_a <> Examples.cpp_record_b
  /\ AuditHpp.computeHash Examples.show_float0 Examples.hasher0 Examples.hpp_record_a
     = AuditHpp.computeHash Examples.show_float0 Examples.hasher0 Examples.hpp_record_b
  /\ AuditCpp.computeHash Examples.show_float0 Examples.hasher0 Examples.cpp_record_a
     = AuditCpp.computeHash Examples.show_float0 Examples.hasher0 Examples.cpp_record_b.
Proof.
  split; [discriminate|]. split; [discriminate|].
  apply (C10_digest_ignores_fields
           Examples.show_float0 Examples.hasher0
           Examples.hpp_record_a Examples.hpp_record_b
           Examples.cpp_record_a Examples.cpp_record_b);
    repeat split; reflexivity.
Defined.

(** ** Persistence failures *)

Section Persistence.

Variable show_float : float -> string.
Variable hasher : string -> N.
Variable strftime_utc : Z -> string.



End Persistence.



(* ================================================================== *)
(** * Further properties of the engine *)
(* ================================================================== *)

Lemma count_loop_None {A : Type} (P : A -> bool) (l : list A) :
  fold_left
    (fun acc x => c <- acc ;; if P x then int_incr c else Some c) l None
  = None.
Proof. induction l as [|x l IH]; [reflexivity|exact IH]. Qed.

(** Whenever the counting loop ends without overflow, it has counted the
    elements that pass the test. *)
Lemma count_loop_inv {A : Type} (P : A -> bool) (l : list A) (c0 n : Z) :
  fold_left
    (fun acc x => c <- acc ;; if P x then int_incr c else Some c) l (Some c0)
  = Some n ->
  n = c0 + size (List.filter P l).
Proof.
  revert c0. induction l as [|x l IH]; intros c0; cbn [fold_left List.filter bind].
  - intros H. injection H as <-. autorewrite with sizes. lia.
  - destruct (P x).
    + unfold int_incr. destruct (c0 <? INT_MAX).
      * intros H. apply IH in H. autorewrite with sizes. lia.
      * rewrite count_loop_None. discriminate.
    + apply IH.
Qed.

(** What the evaluator reports lies between 0 and the number of signals,
    and reaches min_models_required when it succeeds. *)
Lemma checkConsensus_bounds (e : AILLEEngine.t) (valid : list ModelSignal.t)
      (c : AILLEEngine.Consensus) :
  AILLEEngine.checkConsensus e valid = Some c ->
  0 <= AILLEEngine.models_agreed c <= size valid
  /\ (AILLEEngine.ok c = true ->
      AILLEConfig.min_models_required (AILLEEngine.config e)
      <= AILLEEngine.models_agreed c).
Proof.
  unfold AILLEEngine.checkConsensus. pose proof (size_nonneg valid) as Hn.
  destruct (size valid <? _).
  { intros H. injection H as <-. cbn. split; [lia|discriminate]. }
  rewrite values_loop. cbn [app]. intros H.
  apply bind_Some in H. destruct H as [sorted [_ H]].
  apply bind_Some in H. destruct H as [m [_ H]].
  apply bind_Some in H. destruct H as [n [Hcount H]].
  apply count_loop_inv in Hcount. rewrite Z.add_0_l in Hcount.
  pose proof (filter_size_le
                (fun val => feq (AILLEEngine.sign_of val) (AILLEEngine.sign_of m))
                (map ModelSignal.value valid)) as Hle.
  pose proof (size_nonneg
                (List.filter
                   (fun val => feq (AILLEEngine.sign_of val) (AILLEEngine.sign_of m))
                   (map ModelSignal.value valid))) as Hge.
  rewrite size_map in Hle.
  destruct (fge _ _ && (n >=? _)) eqn:Hsucc.
  - apply bind_Some in H. destruct H as [sc [_ H]]. injection H as <-.
    cbn. split; [lia|]. intros _.
    apply andb_true_iff in Hsucc. destruct Hsucc as [_ Hmin].
    rewrite Z.geb_leb in Hmin. now apply Z.leb_le in Hmin.
  - injection H as <-. cbn. split; [lia|discriminate].
Qed.

Section EngineFacts.

Variable tanhf : float -> float.

(** The four shapes of a result of [makeDecision]. *)
Lemma makeDecision_shape (e e' : AILLEEngine.t) (now : Z)
      (signals : list ModelSignal.t) (d : Decision.t) :
  AILLEEngine.makeDecision tanhf e now signals = Some (d, e') ->
  (signals = [] /\ e' = e
   /\ d = Decision.mk f0 ERROR_NO_MODELS f0 0 false now [] "No model inputs")
  \/ (signals <> [] /\ AILLEEngine.applySafetyLayer e signals = [] /\ e' = e
      /\ d = Decision.mk (AILLEEngine.getFallbackValue e) REJECTED_LOW_CONFIDENCE
                         f0_1 0 true now []
                         "All models failed confidence - fallback")
  \/ (exists c, signals <> [] /\ AILLEEngine.applySafetyLayer e signals <> []
                /\ AILLEEngine.checkConsensus
                     e (AILLEEngine.applySafetyLayer e signals) = Some c
                /\ AILLEEngine.ok c = false /\ e' = e
                /\ d = Decision.mk (AILLEEngine.getFallbackValue e)
                                   REJECTED_NO_CONSENSUS f0_2
                                   (AILLEEngine.models_agreed c) true now []
                                   "No consensus - fallback")
  \/ (exists c cv, signals <> [] /\ AILLEEngine.applySafetyLayer e signals <> []
                   /\ AILLEEngine.checkConsensus
                        e (AILLEEngine.applySafetyLayer e signals) = Some c
                   /\ AILLEEngine.ok c = true
                   /\ AILLEEngine.consensus_value c = Some cv
                   /\ e' = AILLEEngine.updateFallbackBuffer e (tanhf (fmul cv f100))
                   /\ d = Decision.mk
                            (tanhf (fmul cv f100)) DECISION_VALID
                            (Spec.mean (map ModelSignal.confidence
                                            (AILLEEngine.applySafetyLayer e signals)))
                            (AILLEEngine.models_agreed c) false now
                            (map ModelSignal.model_id
                                 (AILLEEngine.applySafetyLayer e signals))
                            ("Consensus: " ++ show_int (AILLEEngine.models_agreed c)
                                           ++ " models")%string).
Proof.
  intros H.
  destruct signals as [|s rest] eqn:Hs.
  { left. cbn in H. injection H as <- <-. repeat split; reflexivity. }
  rewrite <- Hs in *.
  assert (Hne : signals <> []) by (rewrite Hs; discriminate).
  destruct (AILLEEngine.applySafetyLayer e signals) as [|v vs] eqn:Hv.
  { right. left. rewrite makeDecision_low_confidence in H by assumption.
    injection H as <- <-. repeat split; try reflexivity; assumption. }
  rewrite <- Hv in *.
  assert (Hvne : AILLEEngine.applySafetyLayer e signals <> [])
    by (rewrite Hv; discriminate).
  destruct (AILLEEngine.checkConsensus e (AILLEEngine.applySafetyLayer e signals))
    as [c|] eqn:Hc.
  2:{ exfalso. unfold AILLEEngine.makeDecision in H. rewrite Hs in H.
      rewrite <- Hs in H. rewrite Hv in H, Hc. rewrite Hc in H. discriminate. }
  destruct (AILLEEngine.ok c) eqn:Hok.
  - destruct (AILLEEngine.consensus_value c) as [cv|] eqn:Hcv.
    + right. right. right. exists c, cv.
      rewrite (makeDecision_valid tanhf e now signals c cv) in H by assumption.
      injection H as <- <-. repeat split; try reflexivity; assumption.
    + exfalso. unfold AILLEEngine.makeDecision in H. rewrite Hs in H.
      rewrite <- Hs in H. rewrite Hv in H, Hc. rewrite Hc in H.
      cbn [bind] in H. rewrite Hok, Hcv in H. discriminate.
  - right. right. left. exists c.
    rewrite (makeDecision_no_consensus tanhf e now signals c) in H by assumption.
    injection H as <- <-. repeat split; try reflexivity; assumption.
Qed.

End EngineFacts.

Lemma existsb_nan_In (l : list float) (x : float) :
  In x l -> is_nan x = true -> existsb is_nan l = true.
Proof.
  intros Hin Hx. apply existsb_exists. now exists x.
Qed.

Lemma forallb_nan_In (l : list float) (x : float) :
  In x l -> is_nan x = false -> forallb is_nan l = false.
Proof.
  intros Hin Hx. destruct (forallb is_nan l) eqn:E; [|reflexivity].
  rewrite forallb_forall in E. rewrite (E x Hin) in Hx. discriminate.
Qed.

(** X1. [makeDecision] returns a decision on every batch of numbers: when
    no signal value is a NaN (infinities and any confidence are allowed) and
    the batch has at most INT_MAX signals, whatever the configuration and
    the buffer, it returns a decision stamped with the entry time and
    leaves the configuration as it was.  When the validated signals pass
    the minimum-count test and their values hold a NaN and two numbers of
    which one is below the other, [operator<] is no strict weak order on
    them: the call of [std::sort] is undefined behaviour and no decision is
    determined. *)
Theorem X1_makeDecision_defined_on_numbers :
  forall (tanhf : float -> float) (e : AILLEEngine.t) (now : Z)
         (signals : list ModelSignal.t),
    size signals <= INT_MAX ->
    (Forall (fun v => is_nan v = false) (map ModelSignal.value signals) ->
     exists (d : Decision.t) (e' : AILLEEngine.t),
       AILLEEngine.makeDecision tanhf e now signals = Some (d, e')
       /\ Decision.timestamp_ns d = now
       /\ AILLEEngine.config e' = AILLEEngine.config e)
    /\ (let values :=
          map ModelSignal.value (AILLEEngine.applySafetyLayer e signals) in
        to_size_t (AILLEConfig.min_models_required (AILLEEngine.config e))
        <= size values ->
        forall nan x y : float,
          In nan values -> In x values -> In y values ->
          is_nan nan = true -> flt x y = true ->
          AILLEEngine.makeDecision tanhf e now signals = None).
Proof.
  intros tanhf e now signals Hmax. split.
  - intros Hnan.
    destruct (makeDecision_defined tanhf e now signals Hmax Hnan) as [d [e' H]].
    exists d, e'. split; [exact H|].
    destruct (makeDecision_shape tanhf _ _ _ _ _ H)
      as [(_ & -> & ->)|[(_ & _ & -> & ->)|[(c & _ & _ & _ & _ & -> & ->)
                                          |(c & cv & _ & _ & _ & _ & _ & -> & ->)]]];
      split; reflexivity.
  - cbv zeta. rewrite size_map. intros Hmin nan x y Hin Hx Hy Hnan Hlt.
    assert (Hex : existsb is_nan
                    (map ModelSignal.value (AILLEEngine.applySafetyLayer e signals))
                  = true) by (now apply existsb_nan_In with (x := nan)).
    assert (Hall : forallb is_nan
                     (map ModelSignal.value (AILLEEngine.applySafetyLayer e signals))
                   = false).
    { apply forallb_nan_In with (x := x); [exact Hx|].
      destruct x; try reflexivity. cbn in Hlt. discriminate. }
    assert (Hc : AILLEEngine.checkConsensus e (AILLEEngine.applySafetyLayer e signals)
                 = None).
    { unfold AILLEEngine.checkConsensus.
      destruct (size _ <? to_size_t _) eqn:E; [apply Z.ltb_lt in E; lia|].
      rewrite values_loop. cbn [app].
      now rewrite (std_sort_mixed _ Hex Hall). }
    unfold AILLEEngine.makeDecision.
    destruct signals as [|s0 rest] eqn:Hs.
    { cbn in Hex. discriminate. }
    rewrite <- Hs in *.
    destruct (AILLEEngine.applySafetyLayer e signals) as [|v vs] eqn:Hv.
    { cbn in Hex. discriminate. }
    rewrite Hc. reflexivity.
Qed.

Lemma X1_makeDecision_defined_on_numbers_witness :
  (size Examples.split_batch <= INT_MAX
   /\ Forall (fun v => is_nan v = false)
             (map ModelSignal.value Examples.split_batch))
  /\ (exists (d : Decision.t) (e' : AILLEEngine.t),
         AILLEEngine.makeDecision Examples.tanh_id AILLEEngine.init 7
                                  Examples.split_batch
         = Some (d, e')
         /\ Decision.timestamp_ns d = 7
         /\ AILLEEngine.config e' = AILLEEngine.config AILLEEngine.init)
  /\ AILLEEngine.makeDecision Examples.tanh_id AILLEEngine.init 7 Examples.nan_batch
     = None.
Proof.
  assert (H : size Examples.split_batch <= INT_MAX) by (vm_compute; discriminate).
  assert (Hn : Forall (fun v => is_nan v = false)
                      (map ModelSignal.value Examples.split_batch))
    by (repeat constructor).
  split; [split; assumption|]. split.
  - exact (proj1 (X1_makeDecision_defined_on_numbers
                    Examples.tanh_id AILLEEngine.init 7 Examples.split_batch H) Hn).
  - apply (proj2 (X1_makeDecision_defined_on_numbers
                    Examples.tanh_id AILLEEngine.init 7 Examples.nan_batch
                    ltac:(vm_compute; discriminate))
                 ltac:(vm_compute; discriminate)
                 S754_nan (decimal (-4) 100) (decimal 5 100));
      vm_compute; auto.
Defined.

(** X2. Whatever [makeDecision] returns: its status is never
    FALLBACK_ACTIVATED; it is ERROR_NO_MODELS exactly on the empty batch;
    fallback_used is set exactly for the two rejected statuses;
    contributing_models is empty unless the status is DECISION_VALID; and
    the reasoning is never empty. *)
Theorem X2_decision_invariants :
  forall (tanhf : float -> float) (e e' : AILLEEngine.t) (now : Z)
         (signals : list ModelSignal.t) (d : Decision.t),
    AILLEEngine.makeDecision tanhf e now signals = Some (d, e') ->
    Decision.status d <> FALLBACK_ACTIVATED
    /\ (Decision.status d = ERROR_NO_MODELS <-> signals = [])
    /\ (Decision.fallback_used d = true
        <-> Decision.status d = REJECTED_LOW_CONFIDENCE
            \/ Decision.status d = REJECTED_NO_CONSENSUS)
    /\ (Decision.status d <> DECISION_VALID -> Decision.contributing_models d = [])
    /\ Decision.reasoning d <> EmptyString.
Proof.
  intros tanhf e e' now signals d H.
  destruct (makeDecision_shape tanhf _ _ _ _ _ H)
    as [(Hs & _ & ->)|[(Hs & _ & _ & ->)|[(c & Hs & _ & _ & _ & _ & ->)
                                       |(c & cv & Hs & _ & _ & _ & _ & _ & ->)]]];
    cbn [Decision.status Decision.fallback_used Decision.contributing_models
         Decision.reasoning].
  - repeat split; try discriminate; try (intros; assumption); try reflexivity.
    intros [Hc|Hc]; discriminate.
  - repeat split; try discriminate; try reflexivity.
    + intros Hc. now contradiction Hs.
    + intros _. now left.
  - repeat split; try discriminate; try reflexivity.
    + intros Hc. now contradiction Hs.
    + intros _. now right.
  - repeat split; try discriminate.
    + intros Hc. now contradiction Hs.
    + intros [Hc|Hc]; discriminate.
    + intros Hc. now contradiction Hc.
Qed.

Lemma X2_decision_invariants_witness :
  AILLEEngine.makeDecision Examples.tanh_id AILLEEngine.init 7 Examples.weak_batch
  = Some (Decision.mk (decimal 1 10) REJECTED_LOW_CONFIDENCE (decimal 1 10) 0 true 7 []
                      "All models failed confidence - fallback",
          AILLEEngine.init)
  /\ (Decision.fallback_used
        (Decision.mk (decimal 1 10) REJECTED_LOW_CONFIDENCE (decimal 1 10) 0 true 7 []
                     "All models failed confidence - fallback") = true
      <-> REJECTED_LOW_CONFIDENCE = REJECTED_LOW_CONFIDENCE
          \/ REJECTED_LOW_CONFIDENCE = REJECTED_NO_CONSENSUS).
Proof.
  assert (H : AILLEEngine.makeDecision Examples.tanh_id AILLEEngine.init 7
                                       Examples.weak_batch
              = Some (Decision.mk (decimal 1 10) REJECTED_LOW_CONFIDENCE (decimal 1 10)
                                  0 true 7 []
                                  "All models failed confidence - fallback",
                      AILLEEngine.init))
    by (vm_compute; reflexivity).
  split; [exact H|].
  exact (proj1 (proj2 (proj2 (X2_decision_invariants
                                Examples.tanh_id _ _ _ _ _ H)))).
Defined.

(** X3. The models_agreed of a decision lies between 0 and the number of
    signals that passed the safety layer, itself at most the size of the
    batch; on a valid decision it reaches min_models_required and is at
    most the number of contributing models. *)
Theorem X3_models_agreed_bounds :
  forall (tanhf : float -> float) (e e' : AILLEEngine.t) (now : Z)
         (signals : list ModelSignal.t) (d : Decision.t),
    AILLEEngine.makeDecision tanhf e now signals = Some (d, e') ->
    0 <= Decision.models_agreed d
    /\ Decision.models_agreed d <= size (AILLEEngine.applySafetyLayer e signals)
    /\ size (AILLEEngine.applySafetyLayer e signals) <= size signals
    /\ (Decision.status d = DECISION_VALID ->
        AILLEConfig.min_models_required (AILLEEngine.config e)
        <= Decision.models_agreed d
        /\ Decision.models_agreed d <= size (Decision.contributing_models d)).
Proof.
  intros tanhf e e' now signals d H.
  pose proof (applySafetyLayer_size e signals) as Hsz.
  pose proof (size_nonneg (AILLEEngine.applySafetyLayer e signals)) as Hnn.
  destruct (makeDecision_shape tanhf _ _ _ _ _ H)
    as [(_ & _ & ->)|[(_ & _ & _ & ->)|[(c & _ & _ & Hc & _ & _ & ->)
                                      |(c & cv & _ & _ & Hc & Hok & _ & _ & ->)]]];
    cbn [Decision.status Decision.models_agreed Decision.contributing_models].
  - repeat split; try lia; discriminate.
  - repeat split; try lia; discriminate.
  - destruct (checkConsensus_bounds _ _ _ Hc) as [Hb _].
    repeat split; try lia; discriminate.
  - destruct (checkConsensus_bounds _ _ _ Hc) as [Hb Hmin].
    rewrite size_map. repeat split; try lia. now apply Hmin.
Qed.

Lemma X3_models_agreed_bounds_witness :
  exists (d : Decision.t) (e' : AILLEEngine.t),
    AILLEEngine.makeDecision Examples.tanh_id AILLEEngine.init 7
                             Examples.agreeing_batch = Some (d, e')
    /\ 0 <= Decision.models_agreed d
    /\ Decision.models_agreed d <= 3.
Proof.
  destruct (makeDecision_defined Examples.tanh_id AILLEEngine.init 7
                                 Examples.agreeing_batch)
    as [d [e' H]]; [vm_compute; discriminate|repeat constructor|].
  exists d, e'. split; [exact H|].
  destruct (X3_models_agreed_bounds Examples.tanh_id _ _ _ _ _ H)
    as [H0 [H1 [H2 _]]].
  split; [exact H0|].
  eapply Z.le_trans; [exact H1|]. eapply Z.le_trans; [exact H2|].
  vm_compute. discriminate.
Defined.

Lemma agreement_count_by_sign (m : float) (valid : list ModelSignal.t) :
  size (List.filter (Spec.agrees m) valid)
  = if fge m f0
    then size valid - Z.of_nat (Spec.negatives (map ModelSignal.value valid))
    else Z.of_nat (Spec.negatives (map ModelSignal.value valid)).
Proof.
  unfold Spec.negatives.
  induction valid as [|sig rest IH]; cbn [List.filter map].
  - destruct (fge m f0); reflexivity.
  - rewrite agrees_eqb.
    destruct (fge (ModelSignal.value sig) f0), (fge m f0);
      cbn [Bool.eqb negb length]; autorewrite with sizes; rewrite IH; lia.
Qed.

(** X4. The sign of the median is always a majority sign: when no value is
    a NaN and the vote is taken (the batch passes the minimum-count test),
    at least half of the signals agree, models_agreed * 2 >= n, whether or
    not the evaluation then succeeds. *)
Theorem X4_median_sign_is_majority :
  forall (e : AILLEEngine.t) (valid : list ModelSignal.t) (c : AILLEEngine.Consensus),
    valid <> [] ->
    size valid <= INT_MAX ->
    Forall (fun v => is_nan v = false) (map ModelSignal.value valid) ->
    to_size_t (AILLEConfig.min_models_required (AILLEEngine.config e)) <= size valid ->
    AILLEEngine.checkConsensus e valid = Some c ->
    size valid <= 2 * AILLEEngine.models_agreed c.
Proof.
  intros e valid c Hne Hmax Hnan Hmin Hc.
  rewrite checkConsensus_votes in Hc by assumption.
  assert (Hma : AILLEEngine.models_agreed c = Spec.agreement_count valid).
  { destruct (Spec.succeeds _ _); injection Hc as <-; reflexivity. }
  rewrite Hma. unfold Spec.agreement_count, Spec.agreeing.
  rewrite agreement_count_by_sign.
  set (values := map ModelSignal.value valid) in *.
  assert (Hlen : length values = length valid) by apply length_map.
  assert (Hpos : (0 < length values)%nat).
  { rewrite Hlen. destruct valid; [contradiction|cbn; lia]. }
  assert (Hsign : fge (Spec.median values) f0
                  = (Spec.negatives values <=? length values / 2)%nat).
  { unfold Spec.median.
    rewrite (ascending_nth_sign (sort values)).
    - now rewrite <- (negatives_perm _ _ (sort_perm values)).
    - now apply sort_ascending.
    - rewrite sort_length. apply Nat.div_lt; lia. }
  rewrite Hsign. unfold size. rewrite <- Hlen.
  pose proof (Nat.div_mod_eq (length values) 2) as Hdiv.
  pose proof (Nat.mod_upper_bound (length values) 2 ltac:(lia)) as Hmod.
  assert (Hneg : (Spec.negatives values <= length values)%nat).
  { unfold Spec.negatives. apply filter_length_le. }
  destruct (Nat.leb_spec (Spec.negatives values) (length values / 2)); lia.
Qed.

Lemma X4_median_sign_is_majority_witness :
  (Examples.split_batch <> []
   /\ size Examples.split_batch <= INT_MAX
   /\ Forall (fun v => is_nan v = false) (map ModelSignal.value Examples.split_batch)
   /\ to_size_t (AILLEConfig.min_models_required (AILLEEngine.config AILLEEngine.init))
      <= size Examples.split_batch
   /\ AILLEEngine.checkConsensus AILLEEngine.init Examples.split_batch
      = Some (AILLEEngine.mkConsensus false None 1))
  /\ size Examples.split_batch <= 2 * 1.
Proof.
  assert (H1 : Examples.split_batch <> []) by discriminate.
  assert (H2 : size Examples.split_batch <= INT_MAX) by (vm_compute; discriminate).
  assert (H3 : Forall (fun v => is_nan v = false)
                      (map ModelSignal.value Examples.split_batch))
    by (repeat constructor).
  assert (H4 : to_size_t (AILLEConfig.min_models_required
                            (AILLEEngine.config AILLEEngine.init))
               <= size Examples.split_batch) by (vm_compute; discriminate).
  assert (H5 : AILLEEngine.checkConsensus AILLEEngine.init Examples.split_batch
               = Some (AILLEEngine.mkConsensus false None 1))
    by (vm_compute; reflexivity).
  split; [repeat split; assumption|].
  exact (X4_median_sign_is_majority AILLEEngine.init Examples.split_batch _
                                    H1 H2 H3 H4 H5).
Defined.

(** The eviction loop keeps the last [w] elements. *)
Lemma pop_while_over_suffix (w : Z) (l : list float) :
  0 <= w ->
  AILLEEngine.pop_while_over w l = skipn (length l - Z.to_nat w) l.
Proof.
  intros Hw. induction l as [|x rest IH]; cbn [AILLEEngine.pop_while_over].
  - now rewrite skipn_nil.
  - destruct (size (x :: rest) >? w) eqn:E; rewrite Z.gtb_ltb in E.
    + apply Z.ltb_lt in E. unfold size in E. cbn [length] in E |- *.
      replace (S (length rest) - Z.to_nat w)%nat
        with (S (length rest - Z.to_nat w)) by lia.
      cbn [skipn]. exact IH.
    + apply Z.ltb_ge in E. unfold size in E. cbn [length] in E |- *.
      replace (S (length rest) - Z.to_nat w)%nat with 0%nat by lia.
      reflexivity.
Qed.

(** X5. A push keeps exactly the most recent values: under a window
    between 0 and INT_MAX, whatever the buffer held (also more than the
    window, as after [setConfig] lowered it), the buffer after
    [updateFallbackBuffer] is the last fallback_window_size elements of the
    old buffer followed by the new value (all of them if there are fewer);
    with a window of at least 1 the new value is its last element, and with
    a window of 0 the buffer is left empty. *)
Theorem X5_buffer_keeps_most_recent :
  forall (e : AILLEEngine.t) (v : float),
    0 <= AILLEConfig.fallback_window_size (AILLEEngine.config e) <= INT_MAX ->
    let window := AILLEConfig.fallback_window_size (AILLEEngine.config e) in
    let pushed := AILLEEngine.fallback_buffer e ++ [v] in
    let after := AILLEEngine.fallback_buffer (AILLEEngine.updateFallbackBuffer e v) in
    after = skipn (length pushed - Z.to_nat window) pushed
    /\ size after = Z.min window (size pushed)
    /\ (1 <= window -> last after f0 = v /\ after <> [])
    /\ (window = 0 -> after = []).
Proof.
  intros e v Hw window pushed after.
  assert (Hafter : after = skipn (length pushed - Z.to_nat window) pushed).
  { unfold after, AILLEEngine.updateFallbackBuffer.
    cbn [AILLEEngine.fallback_buffer]. rewrite to_size_t_small by assumption.
    apply pop_while_over_suffix. lia. }
  assert (Hlen : length pushed = S (length (AILLEEngine.fallback_buffer e))).
  { unfold pushed. rewrite length_app. cbn [length]. lia. }
  split; [exact Hafter|]. split.
  { rewrite Hafter. unfold size. rewrite length_skipn. fold window in Hw. lia. }
  split.
  { intros H1. rewrite Hafter. unfold pushed.
    rewrite skipn_app.
    replace (length (AILLEEngine.fallback_buffer e ++ [v]) - Z.to_nat window
             - length (AILLEEngine.fallback_buffer e))%nat with 0%nat
      by (rewrite length_app; cbn [length]; lia).
    cbn [skipn]. split; [apply last_last|].
    intros Hnil. apply app_eq_nil in Hnil. destruct Hnil as [_ Hnil]. discriminate. }
  intros H0. rewrite Hafter, H0. cbn [Z.to_nat]. rewrite Nat.sub_0_r.
  apply skipn_all.
Qed.

Lemma X5_buffer_keeps_most_recent_witness :
  0 <= AILLEConfig.fallback_window_size Examples.window3 <= INT_MAX
  /\ AILLEEngine.fallback_buffer
       (AILLEEngine.updateFallbackBuffer
          (AILLEEngine.mk Examples.window3
                          [decimal 1 10; decimal 2 10; decimal 3 10; decimal 4 10;
                           decimal 5 10])
          (decimal 6 10))
     = [decimal 4 10; decimal 5 10; decimal 6 10].
Proof.
  assert (H : 0 <= AILLEConfig.fallback_window_size Examples.window3 <= INT_MAX)
    by (vm_compute; split; discriminate).
  split; [exact H|].
  exact (proj1 (X5_buffer_keeps_most_recent
                  (AILLEEngine.mk Examples.window3
                                  [decimal 1 10; decimal 2 10; decimal 3 10;
                                   decimal 4 10; decimal 5 10])
                  (decimal 6 10) H)).
Defined.

(** X6. A negative fallback_window_size disables the eviction: the cast to
    [size_t] turns it into a value above 2^63, so a push only appends and
    the buffer grows without bound. *)
Theorem X6_negative_window_never_evicts :
  forall (e : AILLEEngine.t) (v : float),
    - 2147483648 <= AILLEConfig.fallback_window_size (AILLEEngine.config e) < 0 ->
    size (AILLEEngine.fallback_buffer e) < 2 ^ 63 ->
    AILLEEngine.fallback_buffer (AILLEEngine.updateFallbackBuffer e v)
    = AILLEEngine.fallback_buffer e ++ [v].
Proof.
  intros e v Hw Hsz. unfold AILLEEngine.updateFallbackBuffer.
  cbn [AILLEEngine.fallback_buffer]. apply pop_while_over_fits.
  autorewrite with sizes. unfold to_size_t, SIZE_MOD.
  set (w := AILLEConfig.fallback_window_size (AILLEEngine.config e)) in *.
  replace (w mod 2 ^ 64) with (w + 2 ^ 64).
  - lia.
  - apply (Z.mod_unique_pos w (2 ^ 64) (-1) (w + 2 ^ 64)); lia.
Qed.

Lemma X6_negative_window_never_evicts_witness :
  (- 2147483648
   <= AILLEConfig.fallback_window_size
        (AILLEEngine.config
           (AILLEEngine.setConfig
              Examples.pushed4
              (AILLEConfig.mk f0 f0 2 f0 (-1) f0 10))) < 0
   /\ size (AILLEEngine.fallback_buffer
              (AILLEEngine.setConfig
                 Examples.pushed4 (AILLEConfig.mk f0 f0 2 f0 (-1) f0 10))) < 2 ^ 63)
  /\ AILLEEngine.fallback_buffer
       (AILLEEngine.updateFallbackBuffer
          (AILLEEngine.setConfig
             Examples.pushed4 (AILLEConfig.mk f0 f0 2 f0 (-1) f0 10))
          (decimal 5 10))
     = [decimal 2 10; decimal 3 10; decimal 4 10; decimal 5 10].
Proof.
  assert (H1 : - 2147483648
               <= AILLEConfig.fallback_window_size
                    (AILLEEngine.config
                       (AILLEEngine.setConfig
                          Examples.pushed4
                          (AILLEConfig.mk f0 f0 2 f0 (-1) f0 10))) < 0)
    by (vm_compute; split; [discriminate|reflexivity]).
  assert (H2 : size (AILLEEngine.fallback_buffer
                       (AILLEEngine.setConfig
                          Examples.pushed4 (AILLEConfig.mk f0 f0 2 f0 (-1) f0 10)))
               < 2 ^ 63)
    by (vm_compute; reflexivity).
  split; [split; assumption|].
  rewrite (X6_negative_window_never_evicts _ (decimal 5 10) H1 H2).
  vm_compute. reflexivity.
Defined.

(** Multiplication by -1.0f changes the sign and nothing else. *)
Lemma fmul_minus_one_l (x : float) : valid x = true -> fmul fm1 x = SFopp x.
Proof.
  destruct x as [s|s| |s m e]; intros Hv; try reflexivity.
  unfold valid, valid_binary, bounded, canonical_mantissa in Hv.
  apply andb_true_iff in Hv. destruct Hv as [Hc Hb].
  apply Z.eqb_eq in Hc.
  unfold fmul, fm1, SFmul, SFopp.
  change (xorb true s) with (negb s).
  change (Pos.mul 8388608 m) with (Pos.iter xO m 23).
  unfold binary_round_aux, shr_fexp.
  assert (Hd : Zdigits2 (Zpos (Pos.iter xO m 23)) = Zpos (digits2_pos m) + 23)
    by (cbn; lia).
  rewrite Hd.
  replace (Z.pos (digits2_pos m) + 23 + (-23 + e))
    with (Z.pos (digits2_pos m) + e) by lia.
  rewrite Hc.
  replace (e - (-23 + e)) with 23 by lia.
  cbn [shr shr_record_of_loc].
  change (iter_pos shr_1 23
            {| shr_m := Z.pos (Pos.iter xO m 23); shr_r := false; shr_s := false |})
    with {| shr_m := Z.pos m; shr_r := false; shr_s := false |}.
  cbn [shr_m loc_of_shr_record round_nearest_even].
  replace (-23 + e + 23) with e by lia.
  cbn [Zdigits2]. rewrite Hc. rewrite Z.sub_diag. cbn [shr shr_m].
  unfold prec, emax in *. rewrite Hb. reflexivity.
Qed.

(** X7. The fallback value has the magnitude of fallback_position_scale and
    the direction of the buffer: for every single-precision scale,
    [getFallbackValue] is the scale itself when the mean of the buffer is at
    least 0 (in particular on the empty buffer, after construction or
    [reset]) and its opposite otherwise (a NaN mean included); the
    final_value of every decision of [makeDecision] with fallback_used set
    is [getFallbackValue] of the engine at the call, hence the scale or its
    opposite as the mean of the buffer decides, and the engine is left as
    it was. *)
Theorem X7_fallback_is_plus_or_minus_scale :
  forall (tanhf : float -> float) (e : AILLEEngine.t),
    valid (AILLEConfig.fallback_position_scale (AILLEEngine.config e)) = true ->
    let scale := AILLEConfig.fallback_position_scale (AILLEEngine.config e) in
    AILLEEngine.getFallbackValue e
    = (if fge (AILLEEngine.calculateFallbackValue e) f0 then scale else SFopp scale)
    /\ AILLEEngine.getFallbackValue (AILLEEngine.reset e) = scale
    /\ (forall now signals d e',
           AILLEEngine.makeDecision tanhf e now signals = Some (d, e') ->
           Decision.fallback_used d = true ->
           Decision.final_value d = AILLEEngine.getFallbackValue e
           /\ Decision.final_value d
              = (if fge (AILLEEngine.calculateFallbackValue e) f0
                 then scale else SFopp scale)
           /\ e' = e).
Proof.
  intros tanhf e Hv scale.
  assert (Hfb : AILLEEngine.getFallbackValue e
                = if fge (AILLEEngine.calculateFallbackValue e) f0
                  then scale else SFopp scale).
  { unfold AILLEEngine.getFallbackValue, AILLEEngine.sign_of. fold scale.
    destruct (fge _ f0); [now apply fmul_one_l|now apply fmul_minus_one_l]. }
  split; [exact Hfb|]. split.
  { unfold AILLEEngine.getFallbackValue, AILLEEngine.reset.
    cbn [AILLEEngine.config AILLEEngine.calculateFallbackValue
         AILLEEngine.fallback_buffer].
    change (AILLEEngine.sign_of f0) with f1. now apply fmul_one_l. }
  intros now signals d e' H Hused.
  destruct (makeDecision_shape tanhf _ _ _ _ _ H)
    as [(_ & _ & ->)|[(_ & _ & -> & ->)|[(c & _ & _ & _ & _ & -> & ->)
                                       |(c & cv & _ & _ & _ & _ & _ & _ & ->)]]];
    cbn [Decision.fallback_used Decision.final_value] in Hused |- *;
    try discriminate;
    (split; [reflexivity|split; [exact Hfb|reflexivity]]).
Qed.

Lemma X7_fallback_is_plus_or_minus_scale_witness :
  valid (AILLEConfig.fallback_position_scale
           (AILLEEngine.config Examples.negative_engine)) = true
  /\ AILLEEngine.getFallbackValue Examples.negative_engine = SFopp (decimal 1 10)
  /\ AILLEEngine.getFallbackValue (AILLEEngine.reset Examples.negative_engine)
     = decimal 1 10
  /\ exists (d : Decision.t) (e' : AILLEEngine.t),
       AILLEEngine.makeDecision Examples.tanh_id Examples.negative_engine 7
                                Examples.weak_batch = Some (d, e')
       /\ Decision.fallback_used d = true
       /\ Decision.final_value d = SFopp (decimal 1 10)
       /\ e' = Examples.negative_engine.
Proof.
  assert (H : valid (AILLEConfig.fallback_position_scale
                       (AILLEEngine.config Examples.negative_engine)) = true)
    by (vm_compute; reflexivity).
  split; [exact H|].
  destruct (X7_fallback_is_plus_or_minus_scale
              Examples.tanh_id Examples.negative_engine H)
    as [H1 [H2 H3]].
  assert (Hneg : AILLEEngine.getFallbackValue Examples.negative_engine
                 = SFopp (decimal 1 10))
    by (rewrite H1; vm_compute; reflexivity).
  split; [exact Hneg|]. split; [exact H2|].
  assert (Hd : AILLEEngine.makeDecision Examples.tanh_id Examples.negative_engine 7
                                        Examples.weak_batch
               = Some (Decision.mk
                         (AILLEEngine.getFallbackValue Examples.negative_engine)
                         REJECTED_LOW_CONFIDENCE f0_1 0 true 7 []
                         "All models failed confidence - fallback",
                       Examples.negative_engine))
    by (vm_compute; reflexivity).
  eexists. eexists. split; [exact Hd|].
  destruct (H3 _ _ _ _ Hd eq_refl) as [Hf [_ He]].
  split; [reflexivity|]. split; [|reflexivity].
  rewrite Hf. exact Hneg.
Defined.

Lemma filter_keeps_fields (cfg : AILLEConfig.t) (signals : list ModelSignal.t) :
  let keep sig :=
    fge (ModelSignal.confidence sig) (AILLEConfig.min_confidence_threshold cfg)
    || fge (ModelSignal.confidence sig) (AILLEConfig.grace_confidence_threshold cfg) in
  map ModelSignal.model_id (Spec.filter cfg signals)
  = map ModelSignal.model_id (List.filter keep signals)
  /\ map ModelSignal.value (Spec.filter cfg signals)
     = map ModelSignal.value (List.filter keep signals)
  /\ map ModelSignal.timestamp_ns (Spec.filter cfg signals)
     = map ModelSignal.timestamp_ns (List.filter keep signals).
Proof.
  intros keep. induction signals as [|sig rest (IH1 & IH2 & IH3)];
    [repeat split; reflexivity|].
  cbn [Spec.filter List.filter]. unfold Spec.admission. subst keep. cbv beta.
  destruct (fge (ModelSignal.confidence sig) (AILLEConfig.min_confidence_threshold cfg));
    [|destruct (fge (ModelSignal.confidence sig)
                    (AILLEConfig.grace_confidence_threshold cfg))];
    cbn [orb map ModelSignal.model_id ModelSignal.value ModelSignal.timestamp_ns];
    rewrite ?IH1, ?IH2, ?IH3; repeat split; reflexivity.
Qed.

(** X8. The signals that reach the consensus stage are exactly those whose
    confidence reaches the minimum or the grace threshold, in input order,
    with their values, time stamps and model ids untouched; the
    contributing_models of a valid decision are their model ids. *)
Theorem X8_contributing_models :
  forall (tanhf : float -> float) (e e' : AILLEEngine.t) (now : Z)
         (signals : list ModelSignal.t) (d : Decision.t),
    AILLEEngine.makeDecision tanhf e now signals = Some (d, e') ->
    Decision.status d = DECISION_VALID ->
    let keep sig :=
      fge (ModelSignal.confidence sig)
          (AILLEConfig.min_confidence_threshold (AILLEEngine.config e))
      || fge (ModelSignal.confidence sig)
             (AILLEConfig.grace_confidence_threshold (AILLEEngine.config e)) in
    let valid := AILLEEngine.applySafetyLayer e signals in
    Decision.contributing_models d = map ModelSignal.model_id (List.filter keep signals)
    /\ map ModelSignal.model_id valid = map ModelSignal.model_id (List.filter keep signals)
    /\ map ModelSignal.value valid = map ModelSignal.value (List.filter keep signals)
    /\ map ModelSignal.timestamp_ns valid
       = map ModelSignal.timestamp_ns (List.filter keep signals).
Proof.
  intros tanhf e e' now signals d H Hst keep valid.
  destruct (filter_keeps_fields (AILLEEngine.config e) signals) as (Hid & Hval & Hts).
  unfold valid. rewrite applySafetyLayer_filter.
  split; [|repeat split; assumption].
  destruct (makeDecision_shape tanhf _ _ _ _ _ H)
    as [(_ & _ & ->)|[(_ & _ & _ & ->)|[(c & _ & _ & _ & _ & _ & ->)
                                      |(c & cv & _ & _ & _ & _ & _ & _ & ->)]]];
    cbn [Decision.status] in Hst; try discriminate.
  cbn [Decision.contributing_models]. rewrite applySafetyLayer_filter. exact Hid.
Qed.

Lemma X8_contributing_models_witness :
  (AILLEEngine.makeDecision Examples.tanh_id AILLEEngine.init 7 Examples.agreeing_batch
   = Some (Examples.agreeing_decision, Examples.agreeing_engine)
   /\ Decision.status Examples.agreeing_decision = DECISION_VALID)
  /\ Decision.contributing_models Examples.agreeing_decision
     = map ModelSignal.model_id
           (List.filter
              (fun sig =>
                 fge (ModelSignal.confidence sig)
                     (AILLEConfig.min_confidence_threshold
                        (AILLEEngine.config AILLEEngine.init))
                 || fge (ModelSignal.confidence sig)
                        (AILLEConfig.grace_confidence_threshold
                           (AILLEEngine.config AILLEEngine.init)))
              Examples.agreeing_batch).
Proof.
  assert (H : AILLEEngine.makeDecision Examples.tanh_id AILLEEngine.init 7
                                       Examples.agreeing_batch
              = Some (Examples.agreeing_decision, Examples.agreeing_engine))
    by (vm_compute; reflexivity).
  assert (Hst : Decision.status Examples.agreeing_decision = DECISION_VALID)
    by reflexivity.
  split; [split; assumption|].
  exact (proj1 (X8_contributing_models Examples.tanh_id _ _ _ _ _ H Hst)).
Defined.

(* ================================================================== *)
(** * Further properties of the audit loggers *)
(* ================================================================== *)

Lemma string_append_assoc (a b c : string) :
  ((a ++ b) ++ c)%string = (a ++ (b ++ c))%string.
Proof. induction a as [|ch a IH]; cbn; [reflexivity|now rewrite IH]. Qed.

Lemma string_append_nil_r (a : string) : (a ++ EmptyString)%string = a.
Proof. induction a as [|ch a IH]; cbn; [reflexivity|now rewrite IH]. Qed.

Section Trails.

Variable show_float : float -> string.
Variable hasher : string -> N.
Variable strftime_utc : Z -> string.

Lemma hpp_log_all_snoc (lg : AuditHpp.AuditLogger) (calls : list HppCall) (c : HppCall) :
  hpp_log_all show_float hasher strftime_utc lg (calls ++ [c])
  = AuditHpp.logDecision show_float hasher strftime_utc
                         (hpp_log_all show_float hasher strftime_utc lg calls)
                         (hc_disk_ok c) (hc_decision c) (hc_symbol c) (hc_strategy c).
Proof. unfold hpp_log_all. now rewrite fold_left_app. Qed.

Lemma cpp_log_all_snoc (lg : AuditCpp.AuditLogger) (calls : list CppCall) (c : CppCall) :
  cpp_log_all show_float hasher strftime_utc lg (calls ++ [c])
  = AuditCpp.logDecision show_float hasher strftime_utc
                         (cpp_log_all show_float hasher strftime_utc lg calls)
                         (cc_disk_ok c) (cc_decision c) (cc_symbol c)
                         (cc_strategy_id c) (cc_user_id c).
Proof. unfold cpp_log_all. now rewrite fold_left_app. Qed.

(** A projection of the records that [logDecision] copies from its
    arguments lists, over the trail, that projection of the calls. *)
Lemma hpp_trail_projection {A : Type} (fr : AuditHpp.AuditRecord.t -> A)
      (fc : HppCall -> A) (lg : AuditHpp.AuditLogger) (calls : list HppCall) :
  (forall lg0 c,
      exists r,
        AuditHpp.audit_trail
          (AuditHpp.logDecision show_float hasher strftime_utc lg0 (hc_disk_ok c)
                                (hc_decision c) (hc_symbol c) (hc_strategy c))
        = AuditHpp.audit_trail lg0 ++ [r]
        /\ fr r = fc c) ->
  map fr (AuditHpp.audit_trail (hpp_log_all show_float hasher strftime_utc lg calls))
  = map fr (AuditHpp.audit_trail lg) ++ map fc calls.
Proof.
  intros Hstep. induction calls as [|c calls IH] using rev_ind.
  - cbn. now rewrite app_nil_r.
  - rewrite hpp_log_all_snoc.
    destruct (Hstep (hpp_log_all show_float hasher strftime_utc lg calls) c)
      as [r [-> Hr]].
    rewrite !map_app, IH. cbn [map]. rewrite Hr. now rewrite app_assoc.
Qed.

Lemma cpp_trail_projection {A : Type} (fr : AuditCpp.AuditRecord.t -> A)
      (fc : CppCall -> A) (lg : AuditCpp.AuditLogger) (calls : list CppCall) :
  (forall lg0 c,
      exists r,
        AuditCpp.audit_trail
          (AuditCpp.logDecision show_float hasher strftime_utc lg0 (cc_disk_ok c)
                                (cc_decision c) (cc_symbol c) (cc_strategy_id c)
                                (cc_user_id c))
        = AuditCpp.audit_trail lg0 ++ [r]
        /\ fr r = fc c) ->
  map fr (AuditCpp.audit_trail (cpp_log_all show_float hasher strftime_utc lg calls))
  = map fr (AuditCpp.audit_trail lg) ++ map fc calls.
Proof.
  intros Hstep. induction calls as [|c calls IH] using rev_ind.
  - cbn. now rewrite app_nil_r.
  - rewrite cpp_log_all_snoc.
    destruct (Hstep (cpp_log_all show_float hasher strftime_utc lg calls) c)
      as [r [-> Hr]].
    rewrite !map_app, IH. cbn [map]. rewrite Hr. now rewrite app_assoc.
Qed.

(** X9. The trail is an order-preserving copy of what was logged: after any
    sequence of [logDecision] calls on a fresh logger, of either file, the
    i-th record carries the time stamp, status, final value, confidence,
    models_agreed, fallback flag and reasoning of the i-th decision and the
    symbol and strategy passed with it (and, in [aille_audit.cpp], its
    contributing models and the user id); nothing is dropped, merged or
    reordered, whatever happens to the file. *)
Theorem X9_trail_mirrors_decisions :
  forall (f : OStream.t) (hcalls : list HppCall) (ccalls : list CppCall),
    let ht := AuditHpp.audit_trail
                (hpp_log_all show_float hasher strftime_utc
                             (AuditHpp.mkLogger f [] 1 genesis_hash) hcalls) in
    let ct := AuditCpp.audit_trail
                (cpp_log_all show_float hasher strftime_utc
                             (AuditCpp.mkLogger f [] 1 genesis_hash) ccalls) in
    (map (fun r => (AuditHpp.AuditRecord.timestamp_ns r, AuditHpp.AuditRecord.status r,
                    AuditHpp.AuditRecord.final_value r,
                    AuditHpp.AuditRecord.confidence r,
                    AuditHpp.AuditRecord.models_agreed r,
                    AuditHpp.AuditRecord.fallback_used r,
                    AuditHpp.AuditRecord.reasoning r,
                    AuditHpp.AuditRecord.symbol r, AuditHpp.AuditRecord.strategy_id r))
         ht
     = map (fun c => (Decision.timestamp_ns (hc_decision c),
                      Decision.status (hc_decision c),
                      Decision.final_value (hc_decision c),
                      Decision.confidence (hc_decision c),
                      Decision.models_agreed (hc_decision c),
                      Decision.fallback_used (hc_decision c),
                      Decision.reasoning (hc_decision c),
                      hc_symbol c, hc_strategy c))
           hcalls)
    /\ (map (fun r => (AuditCpp.AuditRecord.timestamp_ns r,
                       AuditCpp.AuditRecord.status r,
                       AuditCpp.AuditRecord.final_value r,
                       AuditCpp.AuditRecord.confidence r,
                       AuditCpp.AuditRecord.models_agreed r,
                       AuditCpp.AuditRecord.fallback_used r,
                       AuditCpp.AuditRecord.reasoning r,
                       AuditCpp.AuditRecord.contributing_models r,
                       AuditCpp.AuditRecord.symbol r,
                       AuditCpp.AuditRecord.strategy_id r,
                       AuditCpp.AuditRecord.user_id r))
            ct
        = map (fun c => (Decision.timestamp_ns (cc_decision c),
                         Decision.status (cc_decision c),
                         Decision.final_value (cc_decision c),
                         Decision.confidence (cc_decision c),
                         Decision.models_agreed (cc_decision c),
                         Decision.fallback_used (cc_decision c),
                         Decision.reasoning (cc_decision c),
                         Decision.contributing_models (cc_decision c),
                         cc_symbol c, cc_strategy_id c, cc_user_id c))
              ccalls).
Proof.
  intros f hcalls ccalls ht ct. split.
  - unfold ht.
    match goal with
    | |- map ?fr _ = map ?fc _ => rewrite (hpp_trail_projection fr fc)
    end; [reflexivity|].
    intros lg0 c. eexists. split; reflexivity.
  - unfold ct.
    match goal with
    | |- map ?fr _ = map ?fc _ => rewrite (cpp_trail_projection fr fc)
    end; [reflexivity|].
    intros lg0 c. eexists. split; reflexivity.
Qed.

(** X10. Every stored hash is the digest of its own record: after any
    sequence of [logDecision] calls on a fresh logger, of either file, each
    record of the trail satisfies hash = computeHash(record), and last_hash
    is the hash of the last record (the genesis hash on the empty trail). A
    verifier that recomputed the digests would therefore accept every
    unmodified trail. *)
Theorem X10_stored_hash_is_digest :
  forall (f : OStream.t) (hcalls : list HppCall) (ccalls : list CppCall),
    let hlg := hpp_log_all show_float hasher strftime_utc
                           (AuditHpp.mkLogger f [] 1 genesis_hash) hcalls in
    let clg := cpp_log_all show_float hasher strftime_utc
                           (AuditCpp.mkLogger f [] 1 genesis_hash) ccalls in
    Forall (fun r => AuditHpp.AuditRecord.hash r
                     = AuditHpp.computeHash show_float hasher r)
           (AuditHpp.audit_trail hlg)
    /\ AuditHpp.last_hash hlg
       = last (map AuditHpp.AuditRecord.hash (AuditHpp.audit_trail hlg)) genesis_hash
    /\ Forall (fun r => AuditCpp.AuditRecord.hash r
                        = AuditCpp.computeHash show_float hasher r)
              (AuditCpp.audit_trail clg)
    /\ AuditCpp.last_hash clg
       = last (map AuditCpp.AuditRecord.hash (AuditCpp.audit_trail clg)) genesis_hash.
Proof.
  intros f hcalls ccalls hlg clg.
  assert (Hh : Forall (fun r => AuditHpp.AuditRecord.hash r
                                = AuditHpp.computeHash show_float hasher r)
                      (AuditHpp.audit_trail hlg)
               /\ AuditHpp.last_hash hlg
                  = last (map AuditHpp.AuditRecord.hash (AuditHpp.audit_trail hlg))
                         genesis_hash).
  { unfold hlg. induction hcalls as [|c calls [IH1 IH2]] using rev_ind.
    - split; [constructor|reflexivity].
    - rewrite hpp_log_all_snoc. unfold AuditHpp.logDecision.
      cbn [AuditHpp.audit_trail AuditHpp.last_hash]. split.
      + apply Forall_app. split; [exact IH1|]. constructor; [|constructor].
        reflexivity.
      + rewrite map_app. cbn [map]. now rewrite last_last. }
  assert (Hc : Forall (fun r => AuditCpp.AuditRecord.hash r
                                = AuditCpp.computeHash show_float hasher r)
                      (AuditCpp.audit_trail clg)
               /\ AuditCpp.last_hash clg
                  = last (map AuditCpp.AuditRecord.hash (AuditCpp.audit_trail clg))
                         genesis_hash).
  { unfold clg. induction ccalls as [|c calls [IH1 IH2]] using rev_ind.
    - split; [constructor|reflexivity].
    - rewrite cpp_log_all_snoc. unfold AuditCpp.logDecision.
      cbn [AuditCpp.audit_trail AuditCpp.last_hash]. split.
      + apply Forall_app. split; [exact IH1|]. constructor; [|constructor].
        reflexivity.
      + rewrite map_app. cbn [map]. now rewrite last_last. }
  destruct Hh, Hc. repeat split; assumption.
Qed.

End Trails.

(** ** The stream buffer *)

Lemma string_append_nonempty (a b : string) :
  b <> EmptyString -> (a ++ b)%string <> EmptyString.
Proof. destruct a; [trivial|discriminate]. Qed.

(** An accepted [flush] of a good open stream hands the buffer and the new
    characters to the device. *)
Lemma put_accepted (f : OStream.t) (s : string) :
  OStream.is_open f = true -> OStream.failed f = false -> s <> EmptyString ->
  OStream.put f true s
  = OStream.mk true false EmptyString
               (OStream.written f ++ (OStream.pending f ++ s))%string.
Proof.
  intros Ho Hf Hs. unfold OStream.put, OStream.insert, OStream.flush.
  rewrite Hf, Ho. cbn [OStream.failed OStream.is_open OStream.pending OStream.written].
  pose proof (string_append_nonempty (OStream.pending f) s Hs) as Hne.
  destruct (OStream.pending f ++ s)%string; [contradiction|reflexivity].
Qed.

(** A refused one sets the error bit and keeps them in the buffer. *)
Lemma put_refused (f : OStream.t) (s : string) :
  OStream.is_open f = true -> OStream.failed f = false -> s <> EmptyString ->
  OStream.put f false s
  = OStream.mk true true (OStream.pending f ++ s)%string (OStream.written f).
Proof.
  intros Ho Hf Hs. unfold OStream.put, OStream.insert, OStream.flush.
  rewrite Hf, Ho. cbn [OStream.failed OStream.is_open OStream.pending OStream.written].
  pose proof (string_append_nonempty (OStream.pending f) s Hs) as Hne.
  destruct (OStream.pending f ++ s)%string; [contradiction|reflexivity].
Qed.

(** A stream in error takes nothing more. *)
Lemma put_failed (f : OStream.t) (disk_ok : bool) (s : string) :
  OStream.failed f = true -> OStream.put f disk_ok s = f.
Proof.
  intros Hf. unfold OStream.put, OStream.insert, OStream.flush. now rewrite Hf, Hf.
Qed.

Section Files.

Variable show_float : float -> string.
Variable hasher : string -> N.
Variable strftime_utc : Z -> string.

Lemma hpp_csv_line_nonempty (rec : AuditHpp.AuditRecord.t) :
  AuditHpp.csv_line show_float strftime_utc rec <> EmptyString.
Proof.
  unfold AuditHpp.csv_line. now apply string_append_nonempty.
Qed.

Lemma cpp_csv_line_nonempty (record : AuditCpp.AuditRecord.t) :
  AuditCpp.csv_line show_float strftime_utc record <> EmptyString.
Proof.
  unfold AuditCpp.csv_line. now apply string_append_nonempty.
Qed.

(** A stream that is closed or in error takes nothing more. *)
Lemma hpp_inert_stream (calls : list HppCall) (lg : AuditHpp.AuditLogger) :
  OStream.is_open (AuditHpp.log_file lg) = false
  \/ OStream.failed (AuditHpp.log_file lg) = true ->
  AuditHpp.log_file (hpp_log_all show_float hasher strftime_utc lg calls)
  = AuditHpp.log_file lg.
Proof.
  revert lg. induction calls as [|c calls IH]; intros lg H; [reflexivity|].
  cbn [hpp_log_all fold_left].
  assert (Hstep : AuditHpp.log_file
                    (AuditHpp.logDecision show_float hasher strftime_utc lg
                                          (hc_disk_ok c) (hc_decision c) (hc_symbol c)
                                          (hc_strategy c))
                  = AuditHpp.log_file lg).
  { unfold AuditHpp.logDecision. cbn [AuditHpp.log_file].
    destruct H as [H|H]; [now rewrite H|].
    destruct (OStream.is_open _); [now apply put_failed|reflexivity]. }
  fold (hpp_log_all show_float hasher strftime_utc).
  unfold hpp_log_all in IH |- *. rewrite IH; [exact Hstep|now rewrite Hstep].
Qed.

Lemma cpp_inert_stream (calls : list CppCall) (lg : AuditCpp.AuditLogger) :
  OStream.is_open (AuditCpp.log_file lg) = false
  \/ OStream.failed (AuditCpp.log_file lg) = true ->
  AuditCpp.log_file (cpp_log_all show_float hasher strftime_utc lg calls)
  = AuditCpp.log_file lg.
Proof.
  revert lg. induction calls as [|c calls IH]; intros lg H; [reflexivity|].
  cbn [cpp_log_all fold_left].
  assert (Hstep : AuditCpp.log_file
                    (AuditCpp.logDecision show_float hasher strftime_utc lg
                                          (cc_disk_ok c) (cc_decision c) (cc_symbol c)
                                          (cc_strategy_id c) (cc_user_id c))
                  = AuditCpp.log_file lg).
  { unfold AuditCpp.logDecision. cbn [AuditCpp.log_file].
    destruct H as [H|H]; [now rewrite H|].
    destruct (OStream.is_open _); [now apply put_failed|reflexivity]. }
  unfold cpp_log_all in IH |- *. rewrite IH; [exact Hstep|now rewrite Hstep].
Qed.

Lemma hpp_log_all_length (calls : list HppCall) (lg : AuditHpp.AuditLogger) :
  length (AuditHpp.audit_trail (hpp_log_all show_float hasher strftime_utc lg calls))
  = (length (AuditHpp.audit_trail lg) + length calls)%nat.
Proof.
  pose proof (hpp_trail_projection show_float hasher strftime_utc
                                   (fun _ => tt) (fun _ => tt) lg calls) as H.
  apply (f_equal (@length unit)) in H.
  - rewrite length_app, !length_map in H. exact H.
  - intros lg0 c. eexists. split; reflexivity.
Qed.

Lemma cpp_log_all_length (calls : list CppCall) (lg : AuditCpp.AuditLogger) :
  length (AuditCpp.audit_trail (cpp_log_all show_float hasher strftime_utc lg calls))
  = (length (AuditCpp.audit_trail lg) + length calls)%nat.
Proof.
  pose proof (cpp_trail_projection show_float hasher strftime_utc
                                   (fun _ => tt) (fun _ => tt) lg calls) as H.
  apply (f_equal (@length unit)) in H.
  - rewrite length_app, !length_map in H. exact H.
  - intros lg0 c. eexists. split; reflexivity.
Qed.

(** The file and the stream after accepted writes. *)
Lemma hpp_file_follows (lg : AuditHpp.AuditLogger) (calls : list HppCall) :
  OStream.is_open (AuditHpp.log_file lg) = true ->
  OStream.failed (AuditHpp.log_file lg) = false ->
  Forall (fun c => hc_disk_ok c = true) calls ->
  exists added,
    AuditHpp.audit_trail (hpp_log_all show_float hasher strftime_utc lg calls)
    = AuditHpp.audit_trail lg ++ added
    /\ length added = length calls
    /\ (calls = [] ->
        AuditHpp.log_file (hpp_log_all show_float hasher strftime_utc lg calls)
        = AuditHpp.log_file lg)
    /\ (calls <> [] ->
        AuditHpp.log_file (hpp_log_all show_float hasher strftime_utc lg calls)
        = OStream.mk true false EmptyString
            (fold_left String.append
                       (map (AuditHpp.csv_line show_float strftime_utc) added)
                       (OStream.written (AuditHpp.log_file lg)
                        ++ OStream.pending (AuditHpp.log_file lg))%string)).
Proof.
  intros Ho Hf Hd. induction calls as [|c calls IH] using rev_ind.
  - exists []. rewrite app_nil_r.
    split; [reflexivity|]. split; [reflexivity|].
    split; [intros _; reflexivity|intros H; now contradiction H].
  - apply Forall_app in Hd. destruct Hd as [Hd Hc].
    destruct (IH Hd) as [added (Ht & Hl & Hnil & Hcons)].
    inversion Hc as [|? ? Hok _]; subst.
    rewrite hpp_log_all_snoc. unfold AuditHpp.logDecision at 1 2 3.
    cbn [AuditHpp.audit_trail AuditHpp.log_file].
    rewrite Ht, Hok.
    eexists (added ++ [_]). rewrite app_assoc. split; [reflexivity|].
    split; [rewrite !length_app; cbn [length]; lia|].
    split; [intros E; destruct calls; discriminate|]. intros _.
    rewrite map_app, fold_left_app. cbn [map fold_left].
    destruct calls as [|c0 calls0].
    + rewrite (Hnil eq_refl), Ho.
      destruct added; [|discriminate]. cbn [map fold_left app].
      rewrite put_accepted by (assumption || apply hpp_csv_line_nonempty).
      now rewrite string_append_assoc.
    + rewrite (Hcons ltac:(discriminate)). cbn [OStream.is_open].
      rewrite put_accepted by (reflexivity || apply hpp_csv_line_nonempty).
      reflexivity.
Qed.

Lemma cpp_file_follows (lg : AuditCpp.AuditLogger) (calls : list CppCall) :
  OStream.is_open (AuditCpp.log_file lg) = true ->
  OStream.failed (AuditCpp.log_file lg) = false ->
  Forall (fun c => cc_disk_ok c = true) calls ->
  exists added,
    AuditCpp.audit_trail (cpp_log_all show_float hasher strftime_utc lg calls)
    = AuditCpp.audit_trail lg ++ added
    /\ length added = length calls
    /\ (calls = [] ->
        AuditCpp.log_file (cpp_log_all show_float hasher strftime_utc lg calls)
        = AuditCpp.log_file lg)
    /\ (calls <> [] ->
        AuditCpp.log_file (cpp_log_all show_float hasher strftime_utc lg calls)
        = OStream.mk true false EmptyString
            (fold_left String.append
                       (map (AuditCpp.csv_line show_float strftime_utc) added)
                       (OStream.written (AuditCpp.log_file lg)
                        ++ OStream.pending (AuditCpp.log_file lg))%string)).
Proof.
  intros Ho Hf Hd. induction calls as [|c calls IH] using rev_ind.
  - exists []. rewrite app_nil_r.
    split; [reflexivity|]. split; [reflexivity|].
    split; [intros _; reflexivity|intros H; now contradiction H].
  - apply Forall_app in Hd. destruct Hd as [Hd Hc].
    destruct (IH Hd) as [added (Ht & Hl & Hnil & Hcons)].
    inversion Hc as [|? ? Hok _]; subst.
    rewrite cpp_log_all_snoc. unfold AuditCpp.logDecision at 1 2 3.
    cbn [AuditCpp.audit_trail AuditCpp.log_file].
    rewrite Ht, Hok.
    eexists (added ++ [_]). rewrite app_assoc. split; [reflexivity|].
    split; [rewrite !length_app; cbn [length]; lia|].
    split; [intros E; destruct calls; discriminate|]. intros _.
    rewrite map_app, fold_left_app. cbn [map fold_left].
    destruct calls as [|c0 calls0].
    + rewrite (Hnil eq_refl), Ho.
      destruct added; [|discriminate]. cbn [map fold_left app].
      rewrite put_accepted by (assumption || apply cpp_csv_line_nonempty).
      now rewrite string_append_assoc.
    + rewrite (Hcons ltac:(discriminate)). cbn [OStream.is_open].
      rewrite put_accepted by (reflexivity || apply cpp_csv_line_nonempty).
      reflexivity.
Qed.

(** X11. While the file is open, no error bit is set and the device takes
    every write, the file grows by exactly one line per logged decision,
    the lines being those of the new records of the trail in their order,
    after whatever was still in the buffer (the header of a new file, which
    [open] inserts without flushing), and the stream stays good with an
    empty buffer; in particular a logger constructed on a new file holds,
    from the first logged decision on, the header followed by one line per
    record. *)
Theorem X11_file_follows_trail :
  forall (hlg : AuditHpp.AuditLogger) (clg : AuditCpp.AuditLogger)
         (hcalls : list HppCall) (ccalls : list CppCall),
    (OStream.is_open (AuditHpp.log_file hlg) = true
     /\ OStream.failed (AuditHpp.log_file hlg) = false
     /\ Forall (fun c => hc_disk_ok c = true) hcalls) ->
    (OStream.is_open (AuditCpp.log_file clg) = true
     /\ OStream.failed (AuditCpp.log_file clg) = false
     /\ Forall (fun c => cc_disk_ok c = true) ccalls) ->
    let hlg' := hpp_log_all show_float hasher strftime_utc hlg hcalls in
    let clg' := cpp_log_all show_float hasher strftime_utc clg ccalls in
    (exists added,
        AuditHpp.audit_trail hlg' = AuditHpp.audit_trail hlg ++ added
        /\ length added = length hcalls
        /\ (hcalls = [] -> AuditHpp.log_file hlg' = AuditHpp.log_file hlg)
        /\ (hcalls <> [] ->
            AuditHpp.log_file hlg'
            = OStream.mk true false EmptyString
                (fold_left String.append
                           (map (AuditHpp.csv_line show_float strftime_utc) added)
                           (OStream.written (AuditHpp.log_file hlg)
                            ++ OStream.pending (AuditHpp.log_file hlg))%string)))
    /\ (exists added,
           AuditCpp.audit_trail clg' = AuditCpp.audit_trail clg ++ added
           /\ length added = length ccalls
           /\ (ccalls = [] -> AuditCpp.log_file clg' = AuditCpp.log_file clg)
           /\ (ccalls <> [] ->
               AuditCpp.log_file clg'
               = OStream.mk true false EmptyString
                   (fold_left String.append
                              (map (AuditCpp.csv_line show_float strftime_utc) added)
                              (OStream.written (AuditCpp.log_file clg)
                               ++ OStream.pending (AuditCpp.log_file clg))%string))).
Proof.
  intros hlg clg hcalls ccalls (Ho & Hf & Hd) (Go & Gf & Gd) hlg' clg'. split.
  - exact (hpp_file_follows hlg hcalls Ho Hf Hd).
  - exact (cpp_file_follows clg ccalls Go Gf Gd).
Qed.

End Files.

Lemma X11_file_follows_trail_witness :
  ((OStream.is_open (AuditHpp.log_file Examples.hpp_opened) = true
    /\ OStream.failed (AuditHpp.log_file Examples.hpp_opened) = false
    /\ Forall (fun c => hc_disk_ok c = true) Examples.hpp_calls)
   /\ (OStream.is_open (AuditCpp.log_file Examples.cpp_opened) = true
       /\ OStream.failed (AuditCpp.log_file Examples.cpp_opened) = false
       /\ Forall (fun c => cc_disk_ok c = true) Examples.cpp_calls))
  /\ (OStream.failed
        (AuditHpp.log_file
           (hpp_log_all Examples.show_float0 Examples.hasher0 Examples.strftime_utc0
                        Examples.hpp_opened Examples.hpp_calls)) = false
      /\ OStream.pending
           (AuditHpp.log_file
              (hpp_log_all Examples.show_float0 Examples.hasher0
                           Examples.strftime_utc0
                           Examples.hpp_opened Examples.hpp_calls)) = EmptyString)
  /\ (OStream.failed
        (AuditCpp.log_file
           (cpp_log_all Examples.show_float0 Examples.hasher0 Examples.strftime_utc0
                        Examples.cpp_opened Examples.cpp_calls)) = false
      /\ OStream.pending
           (AuditCpp.log_file
              (cpp_log_all Examples.show_float0 Examples.hasher0
                           Examples.strftime_utc0
                           Examples.cpp_opened Examples.cpp_calls)) = EmptyString).
Proof.
  assert (H : OStream.is_open (AuditHpp.log_file Examples.hpp_opened) = true
              /\ OStream.failed (AuditHpp.log_file Examples.hpp_opened) = false
              /\ Forall (fun c => hc_disk_ok c = true) Examples.hpp_calls)
    by (repeat split; repeat constructor).
  assert (G : OStream.is_open (AuditCpp.log_file Examples.cpp_opened) = true
              /\ OStream.failed (AuditCpp.log_file Examples.cpp_opened) = false
              /\ Forall (fun c => cc_disk_ok c = true) Examples.cpp_calls)
    by (repeat split; repeat constructor).
  split; [split; assumption|].
  destruct (X11_file_follows_trail
              Examples.show_float0 Examples.hasher0 Examples.strftime_utc0
              Examples.hpp_opened Examples.cpp_opened
              Examples.hpp_calls Examples.cpp_calls H G)
    as [[ha (_ & _ & _ & Hh)] [ca (_ & _ & _ & Hc)]].
  rewrite (Hh ltac:(discriminate)), (Hc ltac:(discriminate)).
  repeat split; reflexivity.
Defined.

(** X12. One refused write ends the persistence of every later decision:
    if the device refuses the flush of a decision's line while the file is
    open and the stream good, the line stays in the stream buffer (behind
    what was still there, such as an unflushed header), the error bit is
    set and is never cleared, so that whatever is logged afterwards, even
    if the device would take the later writes, nothing reaches the file and
    the later lines do not even enter the buffer, while the in-memory trail
    still gains one record per call.  When the logger is closed or
    destroyed the buffer is handed to the device once more: if the device
    takes it, the file gains exactly the refused line (behind what was
    pending before it) and none of the later ones; otherwise it gains
    nothing. *)
Theorem X12_refused_write_is_sticky :
  forall (show_float : float -> string) (hasher : string -> N)
         (strftime_utc : Z -> string)
         (hlg : AuditHpp.AuditLogger) (clg : AuditCpp.AuditLogger)
         (hc : HppCall) (cc : CppCall) (hcalls : list HppCall) (ccalls : list CppCall),
    (OStream.is_open (AuditHpp.log_file hlg) = true
     /\ OStream.failed (AuditHpp.log_file hlg) = false
     /\ hc_disk_ok hc = false) ->
    (OStream.is_open (AuditCpp.log_file clg) = true
     /\ OStream.failed (AuditCpp.log_file clg) = false
     /\ cc_disk_ok cc = false) ->
    let hlg' := hpp_log_all show_float hasher strftime_utc hlg (hc :: hcalls) in
    let clg' := cpp_log_all show_float hasher strftime_utc clg (cc :: ccalls) in
    (exists rec : AuditHpp.AuditRecord.t,
        AuditHpp.audit_trail (hpp_log_all show_float hasher strftime_utc hlg [hc])
        = AuditHpp.audit_trail hlg ++ [rec]
        /\ AuditHpp.log_file hlg'
           = OStream.mk true true
               (OStream.pending (AuditHpp.log_file hlg)
                ++ AuditHpp.csv_line show_float strftime_utc rec)%string
               (OStream.written (AuditHpp.log_file hlg))
        /\ length (AuditHpp.audit_trail hlg')
           = S (length (AuditHpp.audit_trail hlg) + length hcalls)
        /\ OStream.written (AuditHpp.log_file (AuditHpp.close hlg' true))
           = (OStream.written (AuditHpp.log_file hlg)
              ++ (OStream.pending (AuditHpp.log_file hlg)
                  ++ AuditHpp.csv_line show_float strftime_utc rec))%string
        /\ OStream.written (AuditHpp.log_file (AuditHpp.close hlg' false))
           = OStream.written (AuditHpp.log_file hlg))
    /\ (exists record : AuditCpp.AuditRecord.t,
           AuditCpp.audit_trail (cpp_log_all show_float hasher strftime_utc clg [cc])
           = AuditCpp.audit_trail clg ++ [record]
           /\ AuditCpp.log_file clg'
              = OStream.mk true true
                  (OStream.pending (AuditCpp.log_file clg)
                   ++ AuditCpp.csv_line show_float strftime_utc record)%string
                  (OStream.written (AuditCpp.log_file clg))
           /\ length (AuditCpp.audit_trail clg')
              = S (length (AuditCpp.audit_trail clg) + length ccalls)
           /\ OStream.written (AuditCpp.log_file (AuditCpp.close clg' true))
              = (OStream.written (AuditCpp.log_file clg)
                 ++ (OStream.pending (AuditCpp.log_file clg)
                     ++ AuditCpp.csv_line show_float strftime_utc record))%string
           /\ OStream.written (AuditCpp.log_file (AuditCpp.close clg' false))
              = OStream.written (AuditCpp.log_file clg)).
Proof.
  intros show_float hasher strftime_utc hlg clg hc cc hcalls ccalls
         (Ho & Hf & Hd) (Go & Gf & Gd) hlg' clg'.
  split.
  - eexists. split; [reflexivity|].
    set (rec := AuditHpp.AuditRecord.set_hash _ _).
    assert (Hne : (OStream.pending (AuditHpp.log_file hlg)
                   ++ AuditHpp.csv_line show_float strftime_utc rec)%string
                  <> EmptyString)
      by (apply string_append_nonempty, hpp_csv_line_nonempty).
    assert (Hfile : AuditHpp.log_file hlg'
                    = OStream.mk true true
                        (OStream.pending (AuditHpp.log_file hlg)
                         ++ AuditHpp.csv_line show_float strftime_utc rec)%string
                        (OStream.written (AuditHpp.log_file hlg))).
    { unfold hlg'. cbn [hpp_log_all fold_left].
      set (lg1 := AuditHpp.logDecision _ _ _ hlg _ _ _ _).
      assert (H1 : AuditHpp.log_file lg1
                   = OStream.mk true true
                       (OStream.pending (AuditHpp.log_file hlg)
                        ++ AuditHpp.csv_line show_float strftime_utc rec)%string
                       (OStream.written (AuditHpp.log_file hlg))).
      { unfold lg1, AuditHpp.logDecision. cbn [AuditHpp.log_file].
        rewrite Ho, Hd.
        now rewrite put_refused by (assumption || apply hpp_csv_line_nonempty). }
      change (fold_left _ hcalls lg1)
        with (hpp_log_all show_float hasher strftime_utc lg1 hcalls).
      rewrite hpp_inert_stream; [exact H1|right; now rewrite H1]. }
    split; [exact Hfile|].
    split; [unfold hlg'; rewrite hpp_log_all_length; cbn [length]; lia|].
    unfold AuditHpp.close. rewrite Hfile.
    cbn [OStream.is_open AuditHpp.log_file OStream.close OStream.pending
         OStream.written OStream.failed].
    destruct (OStream.pending (AuditHpp.log_file hlg)
              ++ AuditHpp.csv_line show_float strftime_utc rec)%string;
      [contradiction|split; reflexivity].
  - eexists. split; [reflexivity|].
    set (record := AuditCpp.AuditRecord.set_hash _ _).
    assert (Hne : (OStream.pending (AuditCpp.log_file clg)
                   ++ AuditCpp.csv_line show_float strftime_utc record)%string
                  <> EmptyString)
      by (apply string_append_nonempty, cpp_csv_line_nonempty).
    assert (Hfile : AuditCpp.log_file clg'
                    = OStream.mk true true
                        (OStream.pending (AuditCpp.log_file clg)
                         ++ AuditCpp.csv_line show_float strftime_utc record)%string
                        (OStream.written (AuditCpp.log_file clg))).
    { unfold clg'. cbn [cpp_log_all fold_left].
      set (lg1 := AuditCpp.logDecision _ _ _ clg _ _ _ _ _).
      assert (H1 : AuditCpp.log_file lg1
                   = OStream.mk true true
                       (OStream.pending (AuditCpp.log_file clg)
                        ++ AuditCpp.csv_line show_float strftime_utc record)%string
                       (OStream.written (AuditCpp.log_file clg))).
      { unfold lg1, AuditCpp.logDecision. cbn [AuditCpp.log_file].
        rewrite Go, Gd.
        now rewrite put_refused by (assumption || apply cpp_csv_line_nonempty). }
      change (fold_left _ ccalls lg1)
        with (cpp_log_all show_float hasher strftime_utc lg1 ccalls).
      rewrite cpp_inert_stream; [exact H1|right; now rewrite H1]. }
    split; [exact Hfile|].
    split; [unfold clg'; rewrite cpp_log_all_length; cbn [length]; lia|].
    unfold AuditCpp.close. rewrite Hfile.
    cbn [OStream.is_open AuditCpp.log_file OStream.close OStream.pending
         OStream.written OStream.failed].
    destruct (OStream.pending (AuditCpp.log_file clg)
              ++ AuditCpp.csv_line show_float strftime_utc record)%string;
      [contradiction|split; reflexivity].
Qed.

Lemma X12_refused_write_is_sticky_witness :
  ((OStream.is_open (AuditHpp.log_file Examples.hpp_flushed) = true
    /\ OStream.failed (AuditHpp.log_file Examples.hpp_flushed) = false
    /\ hc_disk_ok (mkHppCall Examples.decision1 "AAPL" "momentum" false) = false)
   /\ (OStream.is_open (AuditCpp.log_file Examples.cpp_opened) = true
       /\ OStream.failed (AuditCpp.log_file Examples.cpp_opened) = false
       /\ cc_disk_ok (mkCppCall Examples.decision1 "AAPL" "momentum" "trader_001" false)
          = false))
  /\ OStream.written
       (AuditHpp.log_file
          (hpp_log_all Examples.show_float0 Examples.hasher0 Examples.strftime_utc0
                       Examples.hpp_flushed
                       (mkHppCall Examples.decision1 "AAPL" "momentum" false
                                  :: Examples.hpp_calls)))
     = OStream.written (AuditHpp.log_file Examples.hpp_flushed)
  /\ OStream.failed
       (AuditHpp.log_file
          (hpp_log_all Examples.show_float0 Examples.hasher0 Examples.strftime_utc0
                       Examples.hpp_flushed
                       (mkHppCall Examples.decision1 "AAPL" "momentum" false
                                  :: Examples.hpp_calls)))
     = true.
Proof.
  assert (H : OStream.is_open (AuditHpp.log_file Examples.hpp_flushed) = true
              /\ OStream.failed (AuditHpp.log_file Examples.hpp_flushed) = false
              /\ hc_disk_ok (mkHppCall Examples.decision1 "AAPL" "momentum" false)
                 = false)
    by (repeat split; reflexivity).
  assert (G : OStream.is_open (AuditCpp.log_file Examples.cpp_opened) = true
              /\ OStream.failed (AuditCpp.log_file Examples.cpp_opened) = false
              /\ cc_disk_ok (mkCppCall Examples.decision1 "AAPL" "momentum"
                                       "trader_001" false) = false)
    by (repeat split; reflexivity).
  split; [split; assumption|].
  destruct (X12_refused_write_is_sticky
              Examples.show_float0 Examples.hasher0 Examples.strftime_utc0
              Examples.hpp_flushed Examples.cpp_opened _ _
              Examples.hpp_calls Examples.cpp_calls H G)
    as [[rec (_ & Hf & _)] _].
  rewrite Hf. split; reflexivity.
Defined.

(** X13. Calling [open] on a logger whose file is already open returns true
    and yet ends persistence: the second [open] fails inside the stream and
    sets its error bit, no header is written, and every later
    [logDecision] leaves the file and the stream buffer as they were. *)
Theorem X13_second_open_disables_logging :
  forall (show_float : float -> string) (hasher : string -> N)
         (strftime_utc : Z -> string)
         (hlg : AuditHpp.AuditLogger) (clg : AuditCpp.AuditLogger)
         (fs : OStream.open_answer)
         (hcalls : list HppCall) (ccalls : list CppCall),
    OStream.is_open (AuditHpp.log_file hlg) = true ->
    OStream.is_open (AuditCpp.log_file clg) = true ->
    (fst (AuditHpp.open hlg fs) = true
     /\ AuditHpp.log_file
          (hpp_log_all show_float hasher strftime_utc
                       (snd (AuditHpp.open hlg fs)) hcalls)
        = OStream.mk true true (OStream.pending (AuditHpp.log_file hlg))
                     (OStream.written (AuditHpp.log_file hlg)))
    /\ (fst (AuditCpp.open clg fs) = true
        /\ AuditCpp.log_file
             (cpp_log_all show_float hasher strftime_utc
                          (snd (AuditCpp.open clg fs)) ccalls)
           = OStream.mk true true (OStream.pending (AuditCpp.log_file clg))
                        (OStream.written (AuditCpp.log_file clg))).
Proof.
  intros show_float hasher strftime_utc hlg clg fs hcalls ccalls Ho Go.
  split.
  - assert (H : AuditHpp.open hlg fs
                = (true, AuditHpp.mkLogger
                           (OStream.mk true true
                                       (OStream.pending (AuditHpp.log_file hlg))
                                       (OStream.written (AuditHpp.log_file hlg)))
                           (AuditHpp.audit_trail hlg) (AuditHpp.next_decision_id hlg)
                           (AuditHpp.last_hash hlg))).
    { unfold AuditHpp.open, OStream.open, OStream.tellp. rewrite Ho. reflexivity. }
    rewrite H. cbn [fst snd]. split; [reflexivity|].
    rewrite hpp_inert_stream; [reflexivity|now right].
  - assert (H : AuditCpp.open clg fs
                = (true, AuditCpp.mkLogger
                           (OStream.mk true true
                                       (OStream.pending (AuditCpp.log_file clg))
                                       (OStream.written (AuditCpp.log_file clg)))
                           (AuditCpp.audit_trail clg) (AuditCpp.next_decision_id clg)
                           (AuditCpp.last_hash clg))).
    { unfold AuditCpp.open, OStream.open, OStream.tellp. rewrite Go. reflexivity. }
    rewrite H. cbn [fst snd]. split; [reflexivity|].
    rewrite cpp_inert_stream; [reflexivity|now right].
Qed.

Lemma X13_second_open_disables_logging_witness :
  (OStream.is_open (AuditHpp.log_file Examples.hpp_opened) = true
   /\ OStream.is_open (AuditCpp.log_file Examples.cpp_opened) = true)
  /\ fst (AuditHpp.open Examples.hpp_opened (OStream.OpenedAt 0)) = true
  /\ OStream.written
       (AuditHpp.log_file
          (hpp_log_all Examples.show_float0 Examples.hasher0 Examples.strftime_utc0
                       (snd (AuditHpp.open Examples.hpp_opened (OStream.OpenedAt 0)))
                       Examples.hpp_calls))
     = EmptyString
  /\ OStream.pending
       (AuditHpp.log_file
          (hpp_log_all Examples.show_float0 Examples.hasher0 Examples.strftime_utc0
                       (snd (AuditHpp.open Examples.hpp_opened (OStream.OpenedAt 0)))
                       Examples.hpp_calls))
     = AuditHpp.header.
Proof.
  assert (H : OStream.is_open (AuditHpp.log_file Examples.hpp_opened) = true)
    by reflexivity.
  assert (G : OStream.is_open (AuditCpp.log_file Examples.cpp_opened) = true)
    by reflexivity.
  split; [split; assumption|].
  destruct (X13_second_open_disables_logging
              Examples.show_float0 Examples.hasher0 Examples.strftime_utc0
              Examples.hpp_opened Examples.cpp_opened (OStream.OpenedAt 0)
              Examples.hpp_calls Examples.cpp_calls H G)
    as [[H1 H2] _].
  split; [exact H1|]. rewrite H2. split; reflexivity.
Defined.

(** X14. The status column of the log can be read back: in both files
    [statusToString] gives different statuses different strings. *)
Theorem X14_statusToString_injective :
  forall s1 s2 : DecisionStatus,
    (AuditHpp.statusToString s1 = AuditHpp.statusToString s2 -> s1 = s2)
    /\ (AuditCpp.statusToString s1 = AuditCpp.statusToString s2 -> s1 = s2).
Proof.
  intros s1 s2. split; destruct s1, s2; cbn; intros H;
    try reflexivity; discriminate.
Qed.

(* ================================================================== *)
(** * Properties of the regulatory report *)
(* ================================================================== *)

(** How many records of the period pass a test. *)
Lemma count_records_loop (start_ns end_ns : Z) (trail : list AuditCpp.AuditRecord.t)
      (c0 : Report.Counters) :
  let cnt (P : AuditCpp.AuditRecord.t -> bool) :=
    size (List.filter (fun r => Report.in_period start_ns end_ns r && P r) trail) in
  Report.total_decisions c0 + size trail <= INT_MAX ->
  Report.valid_decisions c0 + size trail <= INT_MAX ->
  Report.fallback_activations c0 + size trail <= INT_MAX ->
  Report.rejected_confidence c0 + size trail <= INT_MAX ->
  Report.rejected_consensus c0 + size trail <= INT_MAX ->
  fold_left
    (fun acc record =>
       c <- acc ;;
       if Report.in_period start_ns end_ns record then
         total <- int_incr (Report.total_decisions c) ;;
         valid <- Report.incr_if
                    (Report.status_eqb (AuditCpp.AuditRecord.status record)
                                       DECISION_VALID)
                    (Report.valid_decisions c) ;;
         fallback <- Report.incr_if (AuditCpp.AuditRecord.fallback_used record)
                                    (Report.fallback_activations c) ;;
         conf <- Report.incr_if
                   (Report.status_eqb (AuditCpp.AuditRecord.status record)
                                      REJECTED_LOW_CONFIDENCE)
                   (Report.rejected_confidence c) ;;
         cons <- Report.incr_if
                   (Report.status_eqb (AuditCpp.AuditRecord.status record)
                                      REJECTED_NO_CONSENSUS)
                   (Report.rejected_consensus c) ;;
         Some (Report.mkCounters total valid fallback conf cons)
       else Some c)
    trail (Some c0)
  = Some (Report.mkCounters
            (Report.total_decisions c0 + cnt (fun _ => true))
            (Report.valid_decisions c0
             + cnt (fun r => Report.status_eqb (AuditCpp.AuditRecord.status r)
                                               DECISION_VALID))
            (Report.fallback_activations c0 + cnt AuditCpp.AuditRecord.fallback_used)
            (Report.rejected_confidence c0
             + cnt (fun r => Report.status_eqb (AuditCpp.AuditRecord.status r)
                                               REJECTED_LOW_CONFIDENCE))
            (Report.rejected_consensus c0
             + cnt (fun r => Report.status_eqb (AuditCpp.AuditRecord.status r)
                                               REJECTED_NO_CONSENSUS))).
Proof.
  cbv zeta. revert c0. induction trail as [|r rest IH]; intros c0 H1 H2 H3 H4 H5.
  - cbn [fold_left List.filter]. autorewrite with sizes. rewrite !Z.add_0_r.
    now destruct c0.
  - cbn [fold_left List.filter bind]. autorewrite with sizes in H1, H2, H3, H4, H5.
    pose proof (size_nonneg rest) as Hn.
    destruct (Report.in_period start_ns end_ns r); cbn [andb].
    + unfold Report.incr_if, int_incr.
      destruct (Report.total_decisions c0 <? INT_MAX) eqn:E1;
        [|apply Z.ltb_ge in E1; lia].
      cbn [bind].
      destruct (Report.status_eqb (AuditCpp.AuditRecord.status r) DECISION_VALID);
        [destruct (Report.valid_decisions c0 <? INT_MAX) eqn:E2;
         [|apply Z.ltb_ge in E2; lia]|];
        cbn [bind];
        (destruct (AuditCpp.AuditRecord.fallback_used r);
         [destruct (Report.fallback_activations c0 <? INT_MAX) eqn:E3;
          [|apply Z.ltb_ge in E3; lia]|]);
        cbn [bind];
        (destruct (Report.status_eqb (AuditCpp.AuditRecord.status r)
                                     REJECTED_LOW_CONFIDENCE);
         [destruct (Report.rejected_confidence c0 <? INT_MAX) eqn:E4;
          [|apply Z.ltb_ge in E4; lia]|]);
        cbn [bind];
        (destruct (Report.status_eqb (AuditCpp.AuditRecord.status r)
                                     REJECTED_NO_CONSENSUS);
         [destruct (Report.rejected_consensus c0 <? INT_MAX) eqn:E5;
          [|apply Z.ltb_ge in E5; lia]|]);
        cbn [bind];
        rewrite IH by (cbn; lia);
        cbn [Report.total_decisions Report.valid_decisions Report.fallback_activations
             Report.rejected_confidence Report.rejected_consensus];
        autorewrite with sizes; f_equal; f_equal; lia.
    + rewrite IH by lia. reflexivity.
Qed.

Lemma count_records_spec (start_ns end_ns : Z) (trail : list AuditCpp.AuditRecord.t) :
  size trail <= INT_MAX ->
  let cnt (P : AuditCpp.AuditRecord.t -> bool) :=
    size (List.filter (fun r => Report.in_period start_ns end_ns r && P r) trail) in
  Report.count_records start_ns end_ns trail
  = Some (Report.mkCounters
            (cnt (fun _ => true))
            (cnt (fun r => Report.status_eqb (AuditCpp.AuditRecord.status r)
                                             DECISION_VALID))
            (cnt AuditCpp.AuditRecord.fallback_used)
            (cnt (fun r => Report.status_eqb (AuditCpp.AuditRecord.status r)
                                             REJECTED_LOW_CONFIDENCE))
            (cnt (fun r => Report.status_eqb (AuditCpp.AuditRecord.status r)
                                             REJECTED_NO_CONSENSUS))).
Proof.
  intros Hmax cnt. unfold Report.count_records.
  rewrite count_records_loop; cbn; try lia. reflexivity.
Qed.

Lemma filter_size_mono {A : Type} (P Q : A -> bool) (l : list A) :
  (forall x, P x = true -> Q x = true) ->
  size (List.filter P l) <= size (List.filter Q l).
Proof.
  intros H. induction l as [|x l IH]; cbn [List.filter]; [lia|].
  destruct (P x) eqn:Px.
  - rewrite (H x Px). autorewrite with sizes. lia.
  - destruct (Q x); autorewrite with sizes; lia.
Qed.

Lemma filter_size_split {A : Type} (P Q R S : A -> bool) (l : list A) :
  (forall x, S x = true -> P x = false \/ Q x = false) ->
  (forall x, S x = true -> P x = false \/ R x = false) ->
  (forall x, S x = true -> Q x = false \/ R x = false) ->
  size (List.filter (fun x => S x && P x) l)
  + size (List.filter (fun x => S x && Q x) l)
  + size (List.filter (fun x => S x && R x) l)
  <= size (List.filter (fun x => S x && true) l).
Proof.
  intros H1 H2 H3. induction l as [|x l IH]; cbn [List.filter];
    [autorewrite with sizes; lia|].
  destruct (S x) eqn:Sx; cbn [andb]; [|exact IH].
  destruct (H1 x Sx) as [E|E], (H2 x Sx) as [F|F], (H3 x Sx) as [G|G];
    rewrite ?E, ?F, ?G; destruct (P x), (Q x), (R x);
    try discriminate; autorewrite with sizes; lia.
Qed.

(** X15. On a trail of at most INT_MAX records [generateReport] counts
    without overflow, and its counters are what their names say:
    total_decisions is the number of records whose time stamp lies in
    [start, end] (bounds included), and the others count, among those, the
    records of status VALID, with fallback_used set, of status
    REJECTED_LOW_CONFIDENCE and of status REJECTED_NO_CONSENSUS; hence no
    counter exceeds the total and valid + rejected(confidence) +
    rejected(consensus) is at most the total.  When the report file cannot
    be opened nothing is produced. *)
Theorem X15_report_counts :
  forall (show_float : float -> string) (strftime_utc : Z -> string)
         (lg : AuditCpp.AuditLogger) (start_ns end_ns : Z),
    size (AuditCpp.audit_trail lg) <= INT_MAX ->
    let within r :=
      (start_ns <=? AuditCpp.AuditRecord.timestamp_ns r)
      && (AuditCpp.AuditRecord.timestamp_ns r <=? end_ns) in
    let cnt (P : AuditCpp.AuditRecord.t -> bool) :=
      size (List.filter (fun r => within r && P r) (AuditCpp.audit_trail lg)) in
    exists c : Report.Counters,
      Report.count_records start_ns end_ns (AuditCpp.audit_trail lg) = Some c
      /\ Report.generateReport show_float strftime_utc lg true start_ns end_ns
         = Some (Some (Report.report_text show_float strftime_utc lg start_ns end_ns c))
      /\ Report.generateReport show_float strftime_utc lg false start_ns end_ns
         = Some None
      /\ Report.total_decisions c = cnt (fun _ => true)
      /\ Report.valid_decisions c
         = cnt (fun r => Report.status_eqb (AuditCpp.AuditRecord.status r) DECISION_VALID)
      /\ Report.fallback_activations c = cnt AuditCpp.AuditRecord.fallback_used
      /\ Report.rejected_confidence c
         = cnt (fun r => Report.status_eqb (AuditCpp.AuditRecord.status r)
                                           REJECTED_LOW_CONFIDENCE)
      /\ Report.rejected_consensus c
         = cnt (fun r => Report.status_eqb (AuditCpp.AuditRecord.status r)
                                           REJECTED_NO_CONSENSUS)
      /\ 0 <= Report.total_decisions c <= size (AuditCpp.audit_trail lg)
      /\ 0 <= Report.fallback_activations c <= Report.total_decisions c
      /\ Report.valid_decisions c + Report.rejected_confidence c
         + Report.rejected_consensus c <= Report.total_decisions c.
Proof.
  intros show_float strftime_utc lg start_ns end_ns Hmax within cnt.
  assert (Hw : forall r, Report.in_period start_ns end_ns r = within r).
  { intros r. unfold Report.in_period, within. now rewrite Z.geb_leb. }
  assert (Hcnt : forall P,
             size (List.filter (fun r => Report.in_period start_ns end_ns r && P r)
                               (AuditCpp.audit_trail lg)) = cnt P).
  { intros P. unfold cnt. f_equal. apply filter_ext. intros r. now rewrite Hw. }
  pose proof (count_records_spec start_ns end_ns _ Hmax) as Hc. cbv zeta in Hc.
  eexists. split; [exact Hc|].
  split; [unfold Report.generateReport; cbn [negb]; rewrite Hc; reflexivity|].
  split; [reflexivity|].
  cbn [Report.total_decisions Report.valid_decisions Report.fallback_activations
       Report.rejected_confidence Report.rejected_consensus].
  repeat (split; [apply Hcnt|]).
  rewrite (Hcnt (fun _ => true)), (Hcnt AuditCpp.AuditRecord.fallback_used),
    (Hcnt (fun r => Report.status_eqb (AuditCpp.AuditRecord.status r) DECISION_VALID)),
    (Hcnt (fun r => Report.status_eqb (AuditCpp.AuditRecord.status r)
                                      REJECTED_LOW_CONFIDENCE)),
    (Hcnt (fun r => Report.status_eqb (AuditCpp.AuditRecord.status r)
                                      REJECTED_NO_CONSENSUS)).
  split.
  { split; [apply size_nonneg|]. unfold cnt. apply filter_size_le. }
  split.
  { split; [apply size_nonneg|]. unfold cnt. apply filter_size_mono.
    intros r H. apply andb_true_iff in H. destruct H as [H _]. now rewrite H. }
  unfold cnt.
  apply (filter_size_split
           (fun r => Report.status_eqb (AuditCpp.AuditRecord.status r) DECISION_VALID)
           (fun r => Report.status_eqb (AuditCpp.AuditRecord.status r)
                                       REJECTED_LOW_CONFIDENCE)
           (fun r => Report.status_eqb (AuditCpp.AuditRecord.status r)
                                       REJECTED_NO_CONSENSUS)
           within);
    intros r _; destruct (AuditCpp.AuditRecord.status r); cbn; auto.
Qed.

Lemma X15_report_counts_witness :
  size (AuditCpp.audit_trail
          (cpp_log_all Examples.show_float0 Examples.hasher0 Examples.strftime_utc0
                       AuditCpp.init Examples.cpp_calls)) <= INT_MAX
  /\ exists c : Report.Counters,
      Report.count_records
        0 2000
        (AuditCpp.audit_trail
           (cpp_log_all Examples.show_float0 Examples.hasher0 Examples.strftime_utc0
                        AuditCpp.init Examples.cpp_calls)) = Some c
      /\ 0 <= Report.total_decisions c <= 3.
Proof.
  assert (H : size (AuditCpp.audit_trail
                      (cpp_log_all Examples.show_float0 Examples.hasher0
                                   Examples.strftime_utc0 AuditCpp.init
                                   Examples.cpp_calls)) <= INT_MAX)
    by (vm_compute; discriminate).
  split; [exact H|].
  destruct (X15_report_counts Examples.show_float0 Examples.strftime_utc0 _ 0 2000 H)
    as [c (Hc & _ & _ & _ & _ & _ & _ & _ & Ht & _)].
  exists c. split; [exact Hc|exact Ht].
Defined.

(** X16. The counters grow with the period: if [s2 <= s1] and [e1 <= e2],
    every counter of the report over [s1, e1] is at most the same counter
    over [s2, e2]; a period that contains every time stamp of the trail
    counts every record, and a period whose end precedes its start counts
    none. *)
Theorem X16_report_period_monotone :
  forall (trail : list AuditCpp.AuditRecord.t) (s1 e1 s2 e2 : Z)
         (c1 c2 : Report.Counters),
    s2 <= s1 -> e1 <= e2 ->
    Report.count_records s1 e1 trail = Some c1 ->
    Report.count_records s2 e2 trail = Some c2 ->
    size trail <= INT_MAX ->
    (Report.total_decisions c1 <= Report.total_decisions c2
     /\ Report.valid_decisions c1 <= Report.valid_decisions c2
     /\ Report.fallback_activations c1 <= Report.fallback_activations c2
     /\ Report.rejected_confidence c1 <= Report.rejected_confidence c2
     /\ Report.rejected_consensus c1 <= Report.rejected_consensus c2)
    /\ (Forall (fun r => s2 <= AuditCpp.AuditRecord.timestamp_ns r <= e2) trail ->
        Report.total_decisions c2 = size trail)
    /\ (e1 < s1 -> c1 = Report.mkCounters 0 0 0 0 0).
Proof.
  intros trail s1 e1 s2 e2 c1 c2 Hs He H1 H2 Hmax.
  rewrite count_records_spec in H1, H2 by assumption. cbv zeta in H1, H2.
  injection H1 as <-. injection H2 as <-.
  cbn [Report.total_decisions Report.valid_decisions Report.fallback_activations
       Report.rejected_confidence Report.rejected_consensus].
  assert (Hin : forall r, Report.in_period s1 e1 r = true ->
                          Report.in_period s2 e2 r = true).
  { intros r. unfold Report.in_period. rewrite !andb_true_iff, !Z.geb_leb, !Z.leb_le.
    lia. }
  assert (Hmono : forall P,
             size (List.filter (fun r => Report.in_period s1 e1 r && P r) trail)
             <= size (List.filter (fun r => Report.in_period s2 e2 r && P r) trail)).
  { intros P. apply filter_size_mono. intros r H.
    apply andb_true_iff in H. destruct H as [Hi HP].
    now rewrite (Hin r Hi), HP. }
  split; [repeat split; apply Hmono|]. split.
  - intros Hall. f_equal. clear -Hall.
    induction Hall as [|r rest Hr _ IH]; [reflexivity|].
    cbn [List.filter]. unfold Report.in_period at 1.
    replace (AuditCpp.AuditRecord.timestamp_ns r >=? s2) with true
      by (symmetry; rewrite Z.geb_leb; apply Z.leb_le; lia).
    replace (AuditCpp.AuditRecord.timestamp_ns r <=? e2) with true
      by (symmetry; apply Z.leb_le; lia).
    cbn [andb]. now rewrite IH.
  - intros Hinv.
    assert (Hnone : forall P,
               List.filter (fun r => Report.in_period s1 e1 r && P r) trail = []).
    { intros P. clear -Hinv. induction trail as [|r rest IH]; [reflexivity|].
      cbn [List.filter]. unfold Report.in_period at 1.
      destruct (AuditCpp.AuditRecord.timestamp_ns r >=? s1) eqn:A;
        destruct (AuditCpp.AuditRecord.timestamp_ns r <=? e1) eqn:B;
        cbn [andb]; try exact IH.
      rewrite Z.geb_leb in A. apply Z.leb_le in A. apply Z.leb_le in B. lia. }
    now rewrite !Hnone.
Qed.

Lemma X16_report_period_monotone_witness :
  (100 <= 500 /\ 1500 <= 2000
   /\ Report.count_records
        500 1500
        (AuditCpp.audit_trail
           (cpp_log_all Examples.show_float0 Examples.hasher0 Examples.strftime_utc0
                        AuditCpp.init Examples.cpp_calls))
      = Some (Report.mkCounters 2 2 0 0 0)
   /\ Report.count_records
        100 2000
        (AuditCpp.audit_trail
           (cpp_log_all Examples.show_float0 Examples.hasher0 Examples.strftime_utc0
                        AuditCpp.init Examples.cpp_calls))
      = Some (Report.mkCounters 2 2 0 0 0)
   /\ size (AuditCpp.audit_trail
              (cpp_log_all Examples.show_float0 Examples.hasher0 Examples.strftime_utc0
                           AuditCpp.init Examples.cpp_calls)) <= INT_MAX)
  /\ Report.total_decisions (Report.mkCounters 2 2 0 0 0)
     <= Report.total_decisions (Report.mkCounters 2 2 0 0 0).
Proof.
  assert (H1 : 100 <= 500) by lia.
  assert (H2 : 1500 <= 2000) by lia.
  assert (H3 : Report.count_records
                 500 1500
                 (AuditCpp.audit_trail
                    (cpp_log_all Examples.show_float0 Examples.hasher0
                                 Examples.strftime_utc0 AuditCpp.init
                                 Examples.cpp_calls))
               = Some (Report.mkCounters 2 2 0 0 0)) by (vm_compute; reflexivity).
  assert (H4 : Report.count_records
                 100 2000
                 (AuditCpp.audit_trail
                    (cpp_log_all Examples.show_float0 Examples.hasher0
                                 Examples.strftime_utc0 AuditCpp.init
                                 Examples.cpp_calls))
               = Some (Report.mkCounters 2 2 0 0 0)) by (vm_compute; reflexivity).
  assert (H5 : size (AuditCpp.audit_trail
                       (cpp_log_all Examples.show_float0 Examples.hasher0
                                    Examples.strftime_utc0 AuditCpp.init
                                    Examples.cpp_calls)) <= INT_MAX)
    by (vm_compute; discriminate).
  split; [repeat split; assumption|].
  exact (proj1 (proj1 (X16_report_period_monotone _ _ _ _ _ _ _ H1 H2 H3 H4 H5))).
Defined.

(** The counters of a trail whose records have the flags of engine
    decisions. *)
Lemma engine_trail_counts (P : AuditCpp.AuditRecord.t -> bool)
      (trail : list AuditCpp.AuditRecord.t) :
  Forall (fun r =>
            AuditCpp.AuditRecord.status r <> FALLBACK_ACTIVATED
            /\ (AuditCpp.AuditRecord.fallback_used r = true
                <-> AuditCpp.AuditRecord.status r = REJECTED_LOW_CONFIDENCE
                    \/ AuditCpp.AuditRecord.status r = REJECTED_NO_CONSENSUS))
         trail ->
  let cnt (Q : AuditCpp.AuditRecord.t -> bool) :=
    size (List.filter (fun r => P r && Q r) trail) in
  cnt AuditCpp.AuditRecord.fallback_used
  = cnt (fun r => Report.status_eqb (AuditCpp.AuditRecord.status r)
                                    REJECTED_LOW_CONFIDENCE)
    + cnt (fun r => Report.status_eqb (AuditCpp.AuditRecord.status r)
                                      REJECTED_NO_CONSENSUS)
  /\ cnt (fun _ => true)
     = cnt (fun r => Report.status_eqb (AuditCpp.AuditRecord.status r) DECISION_VALID)
       + cnt AuditCpp.AuditRecord.fallback_used
       + cnt (fun r => Report.status_eqb (AuditCpp.AuditRecord.status r)
                                         ERROR_NO_MODELS).
Proof.
  cbv zeta. induction 1 as [|r rest [Hnf Hfb] _ [IH1 IH2]]; [split; reflexivity|].
  cbn [List.filter]. destruct (P r); cbn [andb]; [|split; assumption].
  destruct (AuditCpp.AuditRecord.fallback_used r) eqn:Efb.
  - destruct (proj1 Hfb eq_refl) as [Hs|Hs]; rewrite Hs; cbn [Report.status_eqb];
      autorewrite with sizes; split; lia.
  - destruct (AuditCpp.AuditRecord.status r) eqn:Hs; cbn [Report.status_eqb];
      autorewrite with sizes; try (split; lia).
    + assert (Hc : false = true) by (apply Hfb; now left). discriminate.
    + assert (Hc : false = true) by (apply Hfb; now right). discriminate.
    + now contradiction Hnf.
Qed.

(** X17. In a report over decisions that the engine produced (each logged
    decision being a result of [makeDecision]), the fallback activations are
    exactly the rejections, fallback = rejected(confidence) +
    rejected(consensus), and every counted record is valid, a fallback or an
    empty-batch error: total = valid + fallback + number of ERROR_NO_MODELS
    records of the period. *)
Theorem X17_report_of_engine_decisions :
  forall (tanhf : float -> float) (show_float : float -> string)
         (hasher : string -> N) (strftime_utc : Z -> string) (f : OStream.t)
         (calls : list CppCall) (start_ns end_ns : Z) (c : Report.Counters),
    Forall (fun call =>
              exists e now signals e',
                AILLEEngine.makeDecision tanhf e now signals
                = Some (cc_decision call, e'))
           calls ->
    Z.of_nat (length calls) <= INT_MAX ->
    let trail := AuditCpp.audit_trail
                   (cpp_log_all show_float hasher strftime_utc
                                (AuditCpp.mkLogger f [] 1 genesis_hash) calls) in
    Report.count_records start_ns end_ns trail = Some c ->
    Report.fallback_activations c
    = Report.rejected_confidence c + Report.rejected_consensus c
    /\ Report.total_decisions c
       = Report.valid_decisions c + Report.fallback_activations c
         + size (List.filter
                   (fun r => Report.in_period start_ns end_ns r
                             && Report.status_eqb (AuditCpp.AuditRecord.status r)
                                                  ERROR_NO_MODELS)
                   trail).
Proof.
  intros tanhf show_float hasher strftime_utc f calls start_ns end_ns c
         Hcalls Hlen trail Hc.
  assert (Hsz : size trail <= INT_MAX).
  { unfold size, trail. rewrite cpp_log_all_length. cbn [AuditCpp.audit_trail length].
    lia. }
  rewrite count_records_spec in Hc by assumption. cbv zeta in Hc.
  injection Hc as <-.
  cbn [Report.total_decisions Report.valid_decisions Report.fallback_activations
       Report.rejected_confidence Report.rejected_consensus].
  apply engine_trail_counts.
  pose proof (cpp_trail_projection
                show_float hasher strftime_utc
                (fun r => (AuditCpp.AuditRecord.status r,
                           AuditCpp.AuditRecord.fallback_used r))
                (fun call => (Decision.status (cc_decision call),
                              Decision.fallback_used (cc_decision call)))
                (AuditCpp.mkLogger f [] 1 genesis_hash) calls) as Hproj.
  cbn [AuditCpp.audit_trail map app] in Hproj. fold trail in Hproj.
  assert (Hq : Forall (fun p : DecisionStatus * bool =>
                         fst p <> FALLBACK_ACTIVATED
                         /\ (snd p = true
                             <-> fst p = REJECTED_LOW_CONFIDENCE
                                 \/ fst p = REJECTED_NO_CONSENSUS))
                      (map (fun r => (AuditCpp.AuditRecord.status r,
                                      AuditCpp.AuditRecord.fallback_used r)) trail)).
  { rewrite Hproj by (intros lg0 c0; eexists; split; reflexivity).
    apply Forall_map. eapply Forall_impl; [|exact Hcalls].
    intros call (e & now & signals & e' & Hd). cbn [fst snd].
    destruct (makeDecision_shape tanhf _ _ _ _ _ Hd)
      as [(_ & _ & ->)|[(_ & _ & _ & ->)|[(c1 & _ & _ & _ & _ & _ & ->)
                                        |(c1 & cv & _ & _ & _ & _ & _ & _ & ->)]]];
      cbn [Decision.status Decision.fallback_used];
      (split; [discriminate|split; [intros H; try discriminate; auto
                                   |intros [H|H]; try discriminate; reflexivity]]). }
  apply Forall_map in Hq. exact Hq.
Qed.

Lemma X17_report_of_engine_decisions_witness :
  (Forall (fun call =>
             exists e now signals e',
               AILLEEngine.makeDecision Examples.tanh_id e now signals
               = Some (cc_decision call, e'))
          Examples.engine_calls
   /\ Z.of_nat (length Examples.engine_calls) <= INT_MAX
   /\ Report.count_records
        0 20
        (AuditCpp.audit_trail
           (cpp_log_all Examples.show_float0 Examples.hasher0 Examples.strftime_utc0
                        (AuditCpp.mkLogger OStream.init [] 1 genesis_hash)
                        Examples.engine_calls))
      = Some (Report.mkCounters 5 2 2 1 1))
  /\ Report.fallback_activations (Report.mkCounters 5 2 2 1 1)
     = Report.rejected_confidence (Report.mkCounters 5 2 2 1 1)
       + Report.rejected_consensus (Report.mkCounters 5 2 2 1 1)
  /\ Report.total_decisions (Report.mkCounters 5 2 2 1 1)
     = Report.valid_decisions (Report.mkCounters 5 2 2 1 1)
       + Report.fallback_activations (Report.mkCounters 5 2 2 1 1)
       + 1.
Proof.
  assert (H1 : Forall (fun call =>
                         exists e now signals e',
                           AILLEEngine.makeDecision Examples.tanh_id e now signals
                           = Some (cc_decision call, e'))
                      Examples.engine_calls).
  { repeat constructor.
    - exists AILLEEngine.init, 7, Examples.agreeing_batch, Examples.agreeing_engine.
      vm_compute. reflexivity.
    - exists AILLEEngine.init, 8, Examples.split_batch, AILLEEngine.init.
      vm_compute. reflexivity.
    - exists AILLEEngine.init, 9, Examples.weak_batch, AILLEEngine.init.
      vm_compute. reflexivity.
    - exists AILLEEngine.init, 10, [], AILLEEngine.init.
      vm_compute. reflexivity.
    - exists AILLEEngine.init, 11, Examples.overconfident_batch,
        Examples.agreeing_engine.
      vm_compute. reflexivity. }
  assert (H2 : Z.of_nat (length Examples.engine_calls) <= INT_MAX)
    by (vm_compute; discriminate).
  assert (H3 : Report.count_records
                 0 20
                 (AuditCpp.audit_trail
                    (cpp_log_all Examples.show_float0 Examples.hasher0
                                 Examples.strftime_utc0
                                 (AuditCpp.mkLogger OStream.init [] 1 genesis_hash)
                                 Examples.engine_calls))
               = Some (Report.mkCounters 5 2 2 1 1)) by (vm_compute; reflexivity).
  split; [repeat split; assumption|].
  destruct (X17_report_of_engine_decisions
              Examples.tanh_id Examples.show_float0 Examples.hasher0
              Examples.strftime_utc0 OStream.init Examples.engine_calls 0 20 _
              H1 H2 H3) as [Hf Ht].
  split; [exact Hf|]. rewrite Ht. vm_compute. reflexivity.
Defined.

(* ================================================================== *)
(** * Properties of the metrics collector *)
(* ================================================================== *)

Lemma store_defined (v : list float) (i : nat) (x : float) :
  (i < length v)%nat ->
  MetricsCollector.store v i x = Some (firstn i v ++ x :: skipn (S i) v).
Proof.
  revert i. induction v as [|y rest IH]; intros i Hi; [cbn in Hi; lia|].
  destruct i as [|k]; [reflexivity|].
  cbn [MetricsCollector.store]. rewrite IH by (cbn in Hi; lia). reflexivity.
Qed.

Lemma recomputeStatistics_counters (s : MetricsSnapshot.t) (samples : list float) :
  let s' := MetricsCollector.recomputeStatistics s samples in
  MetricsSnapshot.total_decisions s' = MetricsSnapshot.total_decisions s
  /\ MetricsSnapshot.valid_decisions s' = MetricsSnapshot.valid_decisions s
  /\ MetricsSnapshot.fallback_activations s' = MetricsSnapshot.fallback_activations s
  /\ MetricsSnapshot.rejected_confidence s' = MetricsSnapshot.rejected_confidence s
  /\ MetricsSnapshot.rejected_consensus s' = MetricsSnapshot.rejected_consensus s
  /\ MetricsSnapshot.invalid_inputs s' = MetricsSnapshot.invalid_inputs s
  /\ MetricsSnapshot.models_agreed_histogram s'
     = MetricsSnapshot.models_agreed_histogram s
  /\ MetricsSnapshot.last_decision_timestamp_ns s'
     = MetricsSnapshot.last_decision_timestamp_ns s
  /\ MetricsSnapshot.overflow_detected s' = MetricsSnapshot.overflow_detected s.
Proof.
  cbv zeta. unfold MetricsCollector.recomputeStatistics.
  destruct (MetricsSnapshot.total_decisions s =? 0); [repeat split|].
  destruct samples; repeat split.
Qed.

Lemma addConfidenceSample_defined (c : MetricsCollector.t) (x : float) :
  MetricsCollector.invariant c ->
  exists samples index full,
    MetricsCollector.addConfidenceSample c x = Some (samples, index, full)
    /\ size samples
       = Z.min (MetricsSnapshot.total_decisions (MetricsCollector.snapshot c) + 1)
               MetricsCollector.MAX_SAMPLES
    /\ 0 <= index < MetricsCollector.MAX_SAMPLES
    /\ (full = true -> size samples = MetricsCollector.MAX_SAMPLES).
Proof.
  intros (Ht & _ & _ & _ & _ & _ & Hn & Hi & Hfull & _).
  unfold MetricsCollector.addConfidenceSample, MetricsCollector.MAX_SAMPLES in *.
  destruct (size (MetricsCollector.confidence_samples c) <? 10000) eqn:E.
  - apply Z.ltb_lt in E. eexists. eexists. eexists. split; [reflexivity|].
    autorewrite with sizes. repeat split; try lia.
    intros Hf. specialize (Hfull Hf). lia.
  - apply Z.ltb_ge in E.
    rewrite store_defined by (unfold size in *; lia). cbn [bind].
    eexists. eexists. eexists. split; [reflexivity|].
    assert (Hlen : size (firstn (Z.to_nat (MetricsCollector.sample_write_index c))
                                (MetricsCollector.confidence_samples c)
                         ++ x :: skipn (S (Z.to_nat (MetricsCollector.sample_write_index c)))
                                       (MetricsCollector.confidence_samples c))
                   = size (MetricsCollector.confidence_samples c)).
    { unfold size in *. rewrite length_app. cbn [length].
      rewrite length_firstn, length_skipn. lia. }
    rewrite Hlen.
    pose proof (Z.mod_pos_bound (MetricsCollector.sample_write_index c + 1) 10000
                                ltac:(lia)).
    repeat split; lia.
Qed.

Lemma to_uint64_small (i : Z) :
  0 <= i <= MetricsCollector.UINT64_MAX -> to_uint64 i = i.
Proof.
  intros H. unfold to_uint64, SIZE_MOD. apply Z.mod_small.
  unfold MetricsCollector.UINT64_MAX in H. lia.
Qed.

Ltac collector_fields :=
  cbn [MetricsCollector.snapshot MetricsCollector.confidence_samples
       MetricsCollector.sample_write_index MetricsCollector.samples_buffer_full
       MetricsCollector.overflow_flag
       MetricsSnapshot.total_decisions MetricsSnapshot.valid_decisions
       MetricsSnapshot.fallback_activations MetricsSnapshot.rejected_confidence
       MetricsSnapshot.rejected_consensus MetricsSnapshot.invalid_inputs
       MetricsSnapshot.average_confidence MetricsSnapshot.fallback_rate
       MetricsSnapshot.consensus_failure_rate MetricsSnapshot.min_confidence
       MetricsSnapshot.max_confidence MetricsSnapshot.stddev_confidence
       MetricsSnapshot.models_agreed_histogram
       MetricsSnapshot.last_decision_timestamp_ns
       MetricsSnapshot.overflow_detected] in *.

Lemma observeDecision_invariant (c : MetricsCollector.t) (d : Decision.t) :
  MetricsCollector.invariant c ->
  exists c', MetricsCollector.observeDecision c d = Some c'
             /\ MetricsCollector.invariant c'.
Proof.
  intros Hinv.
  destruct (addConfidenceSample_defined c (Decision.confidence d) Hinv)
    as (samples & index & full & Hadd & Hsize & Hidx & Hfull').
  destruct Hinv as (Ht & Hv & Hrc & Hrs & Hfb & Hsum & Hn & Hi & Hfull & Hov & Hflag).
  unfold MetricsCollector.observeDecision.
  destruct (MetricsCollector.isValidDecision d); cbn [negb].
  2:{ eexists. split; [reflexivity|].
      unfold MetricsCollector.invariant; collector_fields.
      repeat split; try assumption; lia. }
  destruct (MetricsSnapshot.total_decisions (MetricsCollector.snapshot c)
            =? MetricsCollector.UINT64_MAX) eqn:E.
  { apply Z.eqb_eq in E. eexists. split; [reflexivity|].
    unfold MetricsCollector.invariant; collector_fields.
    repeat split; try assumption; try lia. }
  apply Z.eqb_neq in E.
  rewrite Hadd. cbn [bind].
  destruct (MetricsCollector.track_status
              (Decision.status d) (MetricsCollector.snapshot c))
    as [[[nvalid nfallback] nconf] ncons] eqn:Htrack.
  eexists. split; [reflexivity|].
  match goal with
  | |- MetricsCollector.invariant
         (MetricsCollector.mkCollector
            (MetricsCollector.recomputeStatistics ?s ?l) _ _ _ _) =>
      destruct (recomputeStatistics_counters s l)
        as (R1 & R2 & R3 & R4 & R5 & _ & _ & _ & R9)
  end.
  unfold MetricsCollector.invariant.
  cbn [MetricsCollector.snapshot MetricsCollector.confidence_samples
       MetricsCollector.sample_write_index MetricsCollector.samples_buffer_full
       MetricsCollector.overflow_flag].
  rewrite R1, R2, R3, R4, R5, R9.
  cbn [MetricsSnapshot.total_decisions MetricsSnapshot.valid_decisions
       MetricsSnapshot.fallback_activations MetricsSnapshot.rejected_confidence
       MetricsSnapshot.rejected_consensus MetricsSnapshot.overflow_detected].
  clear R1 R2 R3 R4 R5 R9.
  rewrite (to_uint64_small
             (MetricsSnapshot.total_decisions (MetricsCollector.snapshot c) + 1))
    by lia.
  assert (Hcnt :
    0 <= nvalid /\ 0 <= nconf /\ 0 <= ncons /\ nconf + ncons <= nfallback
    /\ nvalid + nfallback
       <= MetricsSnapshot.total_decisions (MetricsCollector.snapshot c) + 1).
  { destruct (Decision.status d); cbn [MetricsCollector.track_status] in Htrack;
      injection Htrack as <- <- <- <-;
      rewrite ?to_uint64_small by lia; lia. }
  repeat split; try lia; try assumption.
  intros Hd. specialize (Hov Hd). lia.
Qed.

Lemma run_invariant (ops : list MetricsCollector.Op) (c : MetricsCollector.t) :
  MetricsCollector.invariant c ->
  exists c', MetricsCollector.run c ops = Some c'
             /\ MetricsCollector.invariant c'.
Proof.
  revert c. induction ops as [|op rest IH]; intros c Hinv.
  - exists c. split; [reflexivity|assumption].
  - cbn [MetricsCollector.run]. destruct op as [d|]; cbn [MetricsCollector.step].
    + destruct (observeDecision_invariant c d Hinv) as (c1 & -> & Hinv1).
      cbn [bind]. now apply IH.
    + cbn [bind]. apply IH.
      unfold MetricsCollector.invariant, MetricsCollector.MAX_SAMPLES,
        MetricsCollector.UINT64_MAX; cbn.
      repeat split; try lia; discriminate.
Qed.

Lemma init_invariant : MetricsCollector.invariant MetricsCollector.init.
Proof.
  unfold MetricsCollector.invariant, MetricsCollector.MAX_SAMPLES,
    MetricsCollector.UINT64_MAX; cbn.
  repeat split; try lia; discriminate.
Qed.

(** X18. The collector never runs into undefined behaviour and its memory is
    bounded: from a fresh collector every sequence of observeDecision and
    reset calls is defined (the indexed write of the circular buffer is
    always in range), the sample vector never holds more than MAX_SAMPLES =
    10000 values, the write index stays below MAX_SAMPLES, and
    getSampleCount is the size of the vector, namely the smaller of
    total_decisions and MAX_SAMPLES. *)
Theorem X18_collector_bounded_memory :
  forall ops : list MetricsCollector.Op,
    exists c : MetricsCollector.t,
      MetricsCollector.run MetricsCollector.init ops = Some c
      /\ size (MetricsCollector.confidence_samples c) <= MetricsCollector.MAX_SAMPLES
      /\ 0 <= MetricsCollector.sample_write_index c < MetricsCollector.MAX_SAMPLES
      /\ MetricsCollector.getSampleCount c
         = size (MetricsCollector.confidence_samples c)
      /\ MetricsCollector.getSampleCount c
         = Z.min (MetricsSnapshot.total_decisions (MetricsCollector.getSnapshot c))
                 MetricsCollector.MAX_SAMPLES.
Proof.
  intros ops.
  destruct (run_invariant ops MetricsCollector.init init_invariant)
    as (c & Hrun & Hinv).
  exists c. split; [exact Hrun|].
  destruct Hinv as (Ht & _ & _ & _ & _ & _ & Hn & Hi & Hfull & _).
  assert (Hcount : MetricsCollector.getSampleCount c
                   = size (MetricsCollector.confidence_samples c)).
  { unfold MetricsCollector.getSampleCount.
    destruct (MetricsCollector.samples_buffer_full c);
      [symmetry; now apply Hfull|reflexivity]. }
  unfold MetricsCollector.getSnapshot.
  repeat split; try lia.
Qed.

(** X19. The counters of the snapshot stay consistent: after every sequence
    of observeDecision and reset calls on a fresh collector,
    total_decisions is at most UINT64_MAX, valid_decisions and
    fallback_activations are at most total_decisions, rejected_confidence +
    rejected_consensus is at most fallback_activations, valid_decisions +
    fallback_activations is at most total_decisions (none of these counters
    has wrapped around), the overflow flag of the collector equals
    overflow_detected of the snapshot, and overflow_detected is only set
    when total_decisions has reached UINT64_MAX. *)
Theorem X19_collector_counters_consistent :
  forall ops : list MetricsCollector.Op,
    exists c : MetricsCollector.t,
      MetricsCollector.run MetricsCollector.init ops = Some c
      /\ let s := MetricsCollector.getSnapshot c in
         0 <= MetricsSnapshot.total_decisions s <= MetricsCollector.UINT64_MAX
         /\ 0 <= MetricsSnapshot.valid_decisions s
              <= MetricsSnapshot.total_decisions s
         /\ 0 <= MetricsSnapshot.fallback_activations s
              <= MetricsSnapshot.total_decisions s
         /\ 0 <= MetricsSnapshot.rejected_confidence s
              <= MetricsSnapshot.fallback_activations s
         /\ 0 <= MetricsSnapshot.rejected_consensus s
              <= MetricsSnapshot.fallback_activations s
         /\ MetricsSnapshot.rejected_confidence s
            + MetricsSnapshot.rejected_consensus s
            <= MetricsSnapshot.fallback_activations s
         /\ MetricsSnapshot.valid_decisions s
            + MetricsSnapshot.fallback_activations s
            <= MetricsSnapshot.total_decisions s
         /\ MetricsCollector.overflow_flag c = MetricsSnapshot.overflow_detected s
         /\ (MetricsSnapshot.overflow_detected s = true ->
             MetricsSnapshot.total_decisions s = MetricsCollector.UINT64_MAX).
Proof.
  intros ops.
  destruct (run_invariant ops MetricsCollector.init init_invariant)
    as (c & Hrun & Hinv).
  exists c. split; [exact Hrun|].
  destruct Hinv as (Ht & Hv & Hrc & Hrs & Hfb & Hsum & _ & _ & _ & Hov & Hflag).
  cbv zeta. unfold MetricsCollector.getSnapshot.
  repeat split; try lia; assumption.
Qed.

Lemma skipn_cons_nth {A : Type} (l : list A) (i : nat) (x : A) :
  (i < length l)%nat -> skipn i l = nth i l x :: skipn (S i) l.
Proof.
  revert i. induction l as [|y l IH]; intros i Hi; [cbn in Hi; lia|].
  destruct i as [|k]; [reflexivity|].
  cbn [length] in Hi. change (skipn (S k) (y :: l)) with (skipn k l).
  rewrite (IH k) by lia. reflexivity.
Qed.

Lemma rotate_push {A : Type} (l : list A) (i : nat) (x : A) :
  (i < length l)%nat ->
  let l' := firstn i l ++ x :: skipn (S i) l in
  let i' := (S i mod length l)%nat in
  skipn i' l' ++ firstn i' l' = skipn 1 (skipn i l ++ firstn i l) ++ [x].
Proof.
  intros Hi l' i'.
  assert (Hf : length (firstn i l) = i) by (rewrite length_firstn; lia).
  rewrite (skipn_cons_nth l i x Hi).
  change (skipn 1 ((nth i l x :: skipn (S i) l) ++ firstn i l))
    with (skipn (S i) l ++ firstn i l).
  destruct (Nat.eq_dec (S i) (length l)) as [E|E].
  - subst i'. rewrite E, Nat.Div0.mod_same. cbn [skipn firstn].
    subst l'. rewrite !skipn_all2 by lia. now rewrite app_nil_r.
  - subst i'. rewrite Nat.mod_small by lia. subst l'.
    rewrite skipn_app, Hf. rewrite (skipn_all2 (firstn i l)) by lia.
    replace (S i - i)%nat with 1%nat by lia.
    change (skipn 1 (x :: skipn (S i) l)) with (skipn (S i) l).
    rewrite firstn_app, Hf. rewrite (firstn_all2 (n := S i) (firstn i l)) by lia.
    replace (S i - i)%nat with 1%nat by lia.
    change (firstn 1 (x :: skipn (S i) l)) with [x].
    cbn [app]. now rewrite <- app_assoc.
Qed.

Lemma lastn_short {A : Type} (n : Z) (l : list A) :
  size l <= n -> MetricsCollector.lastn n l = l.
Proof.
  intros H. unfold MetricsCollector.lastn, size in *.
  replace (length l - Z.to_nat n)%nat with 0%nat by lia. reflexivity.
Qed.

Lemma lastn_snoc_full {A : Type} (n : Z) (l : list A) (x : A) :
  1 <= n <= size l ->
  MetricsCollector.lastn n (l ++ [x]) = skipn 1 (MetricsCollector.lastn n l) ++ [x].
Proof.
  intros H. unfold MetricsCollector.lastn, size in *.
  rewrite length_app. cbn [length]. rewrite skipn_skipn.
  rewrite skipn_app.
  replace (length l + 1 - Z.to_nat n - length l)%nat with 0%nat by lia.
  cbn [skipn]. f_equal. f_equal. lia.
Qed.

Lemma unrolled_length (c : MetricsCollector.t) :
  length (MetricsCollector.unrolled c) = length (MetricsCollector.confidence_samples c).
Proof.
  unfold MetricsCollector.unrolled. rewrite length_app, length_skipn, length_firstn.
  lia.
Qed.

Lemma lastn_length {A : Type} (n : Z) (l : list A) :
  0 <= n -> size (MetricsCollector.lastn n l) = Z.min (size l) n.
Proof.
  intros H. unfold MetricsCollector.lastn, size. rewrite length_skipn. lia.
Qed.

Lemma hist_get_incr (h : list (Z * Z)) (k k' : Z) :
  MetricsCollector.hist_get (MetricsCollector.hist_incr h k) k'
  = if k' =? k
    then Some (to_uint64 (match MetricsCollector.hist_get h k with
                          | Some n => n
                          | None => 0
                          end + 1))
    else MetricsCollector.hist_get h k'.
Proof.
  induction h as [|[k0 n] h IH];
    cbn [MetricsCollector.hist_incr MetricsCollector.hist_get].
  - rewrite (Z.eqb_sym k k'). reflexivity.
  - destruct (k0 =? k) eqn:E0; cbn [MetricsCollector.hist_get].
    + apply Z.eqb_eq in E0. subst k0.
      rewrite (Z.eqb_sym k k'). destruct (k' =? k); reflexivity.
    + rewrite IH. destruct (k0 =? k') eqn:E1; [|reflexivity].
      apply Z.eqb_eq in E1. subst k0. rewrite E0. reflexivity.
Qed.

Lemma accepted_snoc (ds : list Decision.t) (d : Decision.t) :
  MetricsCollector.accepted (ds ++ [d])
  = MetricsCollector.accepted ds
    ++ (if MetricsCollector.isValidDecision d then [d] else []).
Proof. unfold MetricsCollector.accepted. rewrite List.filter_app. reflexivity. Qed.

Lemma count_snoc (P : Decision.t -> bool) (ds : list Decision.t) (d : Decision.t) :
  MetricsCollector.count P (ds ++ [d])
  = MetricsCollector.count P ds
    + (if MetricsCollector.isValidDecision d && P d then 1 else 0).
Proof.
  unfold MetricsCollector.count. rewrite accepted_snoc, List.filter_app, size_app.
  destruct (MetricsCollector.isValidDecision d); cbn [andb List.filter];
    [destruct (P d)|]; reflexivity.
Qed.

Lemma count_bounds (P : Decision.t -> bool) (ds : list Decision.t) :
  0 <= MetricsCollector.count P ds <= size (MetricsCollector.accepted ds).
Proof.
  unfold MetricsCollector.count. split; [apply size_nonneg|apply filter_size_le].
Qed.

Lemma accepted_bounds (ds : list Decision.t) :
  0 <= size (MetricsCollector.accepted ds) <= size ds.
Proof.
  unfold MetricsCollector.accepted. split; [apply size_nonneg|apply filter_size_le].
Qed.

Lemma isValidDecision_models_agreed (d : Decision.t) :
  MetricsCollector.isValidDecision d = true -> 0 <= Decision.models_agreed d.
Proof.
  unfold MetricsCollector.isValidDecision. intros H.
  destruct (is_nan (Decision.confidence d) || MetricsCollector.isinf (Decision.confidence d));
    [discriminate|].
  destruct (flt (Decision.confidence d) f0 || flt f1 (Decision.confidence d));
    [discriminate|].
  destruct (Decision.timestamp_ns d =? 0); [discriminate|].
  destruct (Decision.models_agreed d <? 0) eqn:E; [discriminate|].
  now apply Z.ltb_ge in E.
Qed.

Lemma addConfidenceSample_tracked (c : MetricsCollector.t) (x : float)
      (confs : list float) :
  MetricsCollector.sample_write_index c = MetricsCollector.write_index_after (size confs) ->
  MetricsCollector.samples_buffer_full c = (MetricsCollector.MAX_SAMPLES <? size confs) ->
  MetricsCollector.unrolled c = MetricsCollector.lastn MetricsCollector.MAX_SAMPLES confs ->
  exists samples index full,
    MetricsCollector.addConfidenceSample c x = Some (samples, index, full)
    /\ index = MetricsCollector.write_index_after (size confs + 1)
    /\ full = (MetricsCollector.MAX_SAMPLES <? size confs + 1)
    /\ skipn (Z.to_nat index) samples ++ firstn (Z.to_nat index) samples
       = MetricsCollector.lastn MetricsCollector.MAX_SAMPLES (confs ++ [x]).
Proof.
  intros Hidx Hfull Hun.
  assert (Hlen : size (MetricsCollector.confidence_samples c)
                 = Z.min (size confs) MetricsCollector.MAX_SAMPLES).
  { rewrite <- lastn_length by (unfold MetricsCollector.MAX_SAMPLES; lia).
    rewrite <- Hun. unfold size. now rewrite unrolled_length. }
  pose proof (size_nonneg confs) as Hnn.
  unfold MetricsCollector.addConfidenceSample.
  destruct (size (MetricsCollector.confidence_samples c) <? MetricsCollector.MAX_SAMPLES)
    eqn:E.
  - apply Z.ltb_lt in E.
    assert (Hlt : size confs < MetricsCollector.MAX_SAMPLES) by lia.
    assert (H0 : MetricsCollector.sample_write_index c = 0).
    { rewrite Hidx. unfold MetricsCollector.write_index_after.
      rewrite Z.max_l by lia. reflexivity. }
    eexists. eexists. eexists. split; [reflexivity|].
    repeat split.
    + rewrite H0. unfold MetricsCollector.write_index_after.
      rewrite Z.max_l by lia. reflexivity.
    + rewrite Hfull. 
      destruct (Z.ltb_spec MetricsCollector.MAX_SAMPLES (size confs)); [lia|].
      destruct (Z.ltb_spec MetricsCollector.MAX_SAMPLES (size confs + 1)); [lia|].
      reflexivity.
    + rewrite H0. change (Z.to_nat 0) with 0%nat. cbn [skipn firstn].
      rewrite app_nil_r.
      rewrite lastn_short by (rewrite size_app, size_cons, size_nil; lia).
      f_equal. unfold MetricsCollector.unrolled in Hun. rewrite H0 in Hun.
      change (Z.to_nat 0) with 0%nat in Hun. cbn [skipn firstn] in Hun.
      rewrite app_nil_r in Hun. rewrite Hun. apply lastn_short. lia.
  - apply Z.ltb_ge in E.
    assert (Hge : MetricsCollector.MAX_SAMPLES <= size confs) by lia.
    assert (Hsz : size (MetricsCollector.confidence_samples c)
                  = MetricsCollector.MAX_SAMPLES) by lia.
    assert (Hi : 0 <= MetricsCollector.sample_write_index c
                 < MetricsCollector.MAX_SAMPLES).
    { rewrite Hidx. unfold MetricsCollector.write_index_after.
      apply Z.mod_pos_bound. unfold MetricsCollector.MAX_SAMPLES. lia. }
    rewrite store_defined by (unfold size in Hsz; lia). cbn [bind].
    eexists. eexists. eexists. split; [reflexivity|].
    repeat split.
    + rewrite Hidx. unfold MetricsCollector.write_index_after.
      rewrite !Z.max_r by lia.
      rewrite Zplus_mod_idemp_l. f_equal. lia.
    + destruct (Z.ltb_spec MetricsCollector.MAX_SAMPLES (size confs + 1)); [reflexivity|lia].
    + rewrite lastn_snoc_full by (unfold MetricsCollector.MAX_SAMPLES in *; lia).
      rewrite <- Hun. unfold MetricsCollector.unrolled.
      rewrite <- (rotate_push (MetricsCollector.confidence_samples c)
                              (Z.to_nat (MetricsCollector.sample_write_index c)) x)
        by (unfold size in Hsz; lia).
      cbv zeta.
      replace (Z.to_nat ((MetricsCollector.sample_write_index c + 1)
                         mod MetricsCollector.MAX_SAMPLES))
        with (S (Z.to_nat (MetricsCollector.sample_write_index c))
              mod length (MetricsCollector.confidence_samples c))%nat; [reflexivity|].
      unfold size in Hsz.
      apply Nat2Z.inj. rewrite Nat2Z.inj_mod. rewrite Hsz.
      rewrite Z2Nat.id by (apply Z.mod_pos_bound; unfold MetricsCollector.MAX_SAMPLES; lia).
      f_equal. lia.
Qed.

Lemma run_app (c : MetricsCollector.t) (ops1 ops2 : list MetricsCollector.Op) :
  MetricsCollector.run c (ops1 ++ ops2)
  = bind (MetricsCollector.run c ops1) (fun c' => MetricsCollector.run c' ops2).
Proof.
  revert c. induction ops1 as [|op rest IH]; intros c; [reflexivity|].
  cbn [app MetricsCollector.run].
  destruct (MetricsCollector.step c op) as [c1|]; cbn [bind]; [apply IH|reflexivity].
Qed.

Lemma observeDecision_tracked (ds : list Decision.t) (c : MetricsCollector.t)
      (d : Decision.t) :
  size ds < MetricsCollector.UINT64_MAX ->
  MetricsCollector.tracked ds c ->
  exists c', MetricsCollector.observeDecision c d = Some c'
             /\ MetricsCollector.tracked (ds ++ [d]) c'.
Proof.
  intros Hmax (Ht & Hv & Hfb & Hrc & Hrs & Hinv & Hts & Hov & Hh & Hidx & Hfull & Hun).
  pose proof (accepted_bounds ds) as Hacc.
  unfold MetricsCollector.observeDecision.
  destruct (MetricsCollector.isValidDecision d) eqn:Hvalid; cbn [negb].
  2:{ eexists. split; [reflexivity|].
      unfold MetricsCollector.tracked. collector_fields.
      rewrite !count_snoc, accepted_snoc, Hvalid, app_nil_r.
      cbn [andb]. rewrite !Z.add_0_r.
      rewrite to_uint64_small by lia. rewrite size_app, size_cons, size_nil.
      repeat split; try assumption; try lia.
      intros k. rewrite count_snoc, Hvalid. cbn [andb]. rewrite Z.add_0_r. apply Hh. }
  destruct (MetricsSnapshot.total_decisions (MetricsCollector.snapshot c)
            =? MetricsCollector.UINT64_MAX) eqn:E.
  { apply Z.eqb_eq in E. lia. }
  clear E.
  rewrite <- (size_map Decision.confidence (MetricsCollector.accepted ds))
    in Hidx, Hfull.
  destruct (addConfidenceSample_tracked c (Decision.confidence d) _ Hidx Hfull Hun)
    as (samples & index & full & -> & Hidx' & Hfull' & Hun').
  rewrite size_map in Hidx', Hfull'.
  cbn [bind].
  destruct (MetricsCollector.track_status
              (Decision.status d) (MetricsCollector.snapshot c))
    as [[[nvalid nfallback] nconf] ncons] eqn:Htrack.
  eexists. split; [reflexivity|].
  match goal with
  | |- MetricsCollector.tracked _
         (MetricsCollector.mkCollector
            (MetricsCollector.recomputeStatistics ?s ?l) _ _ _ _) =>
      destruct (recomputeStatistics_counters s l)
        as (R1 & R2 & R3 & R4 & R5 & R6 & R7 & R8 & R9)
  end.
  unfold MetricsCollector.tracked.
  cbn [MetricsCollector.snapshot MetricsCollector.confidence_samples
       MetricsCollector.sample_write_index MetricsCollector.samples_buffer_full
       MetricsCollector.overflow_flag].
  rewrite R1, R2, R3, R4, R5, R6, R7, R8, R9.
  clear R1 R2 R3 R4 R5 R6 R7 R8 R9.
  collector_fields.
  unfold MetricsCollector.unrolled.
  cbn [MetricsCollector.confidence_samples MetricsCollector.sample_write_index].
  rewrite !count_snoc, accepted_snoc, Hvalid. cbn [andb].
  rewrite !size_app, !size_cons, !size_nil. change (0 + 1) with 1.
  rewrite to_uint64_small by lia.
  pose proof (count_bounds (MetricsCollector.has_status DECISION_VALID) ds).
  pose proof (count_bounds MetricsCollector.is_fallback ds).
  pose proof (count_bounds (MetricsCollector.has_status REJECTED_LOW_CONFIDENCE) ds).
  pose proof (count_bounds (MetricsCollector.has_status REJECTED_NO_CONSENSUS) ds).
  assert (Hcnt :
    nvalid = MetricsCollector.count (MetricsCollector.has_status DECISION_VALID) ds
             + (if MetricsCollector.has_status DECISION_VALID d then 1 else 0)
    /\ nfallback = MetricsCollector.count MetricsCollector.is_fallback ds
                   + (if MetricsCollector.is_fallback d then 1 else 0)
    /\ nconf = MetricsCollector.count
                 (MetricsCollector.has_status REJECTED_LOW_CONFIDENCE) ds
               + (if MetricsCollector.has_status REJECTED_LOW_CONFIDENCE d
                  then 1 else 0)
    /\ ncons = MetricsCollector.count
                 (MetricsCollector.has_status REJECTED_NO_CONSENSUS) ds
               + (if MetricsCollector.has_status REJECTED_NO_CONSENSUS d
                  then 1 else 0)).
  { change (MetricsCollector.has_status DECISION_VALID d)
      with (Report.status_eqb (Decision.status d) DECISION_VALID).
    change (MetricsCollector.has_status REJECTED_LOW_CONFIDENCE d)
      with (Report.status_eqb (Decision.status d) REJECTED_LOW_CONFIDENCE).
    change (MetricsCollector.has_status REJECTED_NO_CONSENSUS d)
      with (Report.status_eqb (Decision.status d) REJECTED_NO_CONSENSUS).
    change (MetricsCollector.is_fallback d)
      with (match Decision.status d with
            | REJECTED_LOW_CONFIDENCE | REJECTED_NO_CONSENSUS
            | FALLBACK_ACTIVATED => true
            | DECISION_VALID | ERROR_NO_MODELS => false
            end).
    destruct (Decision.status d); cbn [MetricsCollector.track_status] in Htrack;
      injection Htrack as <- <- <- <-;
      cbn [Report.status_eqb]; rewrite ?to_uint64_small by lia; lia. }
  destruct Hcnt as (-> & -> & -> & ->).
  repeat split; try lia; try assumption.
  - rewrite map_app. cbn [map]. now rewrite last_last.
  - intros k. rewrite count_snoc, Hvalid. cbn [andb].
    pose proof (count_bounds (MetricsCollector.in_bucket k) ds) as Hk.
    pose proof (isValidDecision_models_agreed d Hvalid) as Hma.
    unfold MetricsCollector.in_bucket at 2 4.
    destruct ((Decision.models_agreed d >=? 0) && (Decision.models_agreed d <? 1000))
      eqn:Hrange.
    + apply andb_prop in Hrange. destruct Hrange as [_ Hlt]. apply Z.ltb_lt in Hlt.
      rewrite hist_get_incr, (Z.eqb_sym k).
      destruct (Decision.models_agreed d =? k) eqn:Ek; cbn [andb].
      * apply Z.eqb_eq in Ek. subst k.
        destruct (Z.ltb_spec (Decision.models_agreed d) 1000); [|lia].
        rewrite Hh.
        destruct (Z.eqb_spec
                    (MetricsCollector.count
                       (MetricsCollector.in_bucket (Decision.models_agreed d)) ds) 0)
          as [E0|E0].
        -- rewrite E0. reflexivity.
        -- rewrite to_uint64_small by lia.
           destruct (Z.eqb_spec
                       (MetricsCollector.count
                          (MetricsCollector.in_bucket (Decision.models_agreed d)) ds
                        + 1) 0); [lia|reflexivity].
      * rewrite Z.add_0_r. apply Hh.
    + assert (Hge : 1000 <= Decision.models_agreed d).
      { apply andb_false_iff in Hrange. destruct Hrange as [Hr|Hr].
        - rewrite Z.geb_leb in Hr. apply Z.leb_gt in Hr. lia.
        - now apply Z.ltb_ge in Hr. }
      replace ((Decision.models_agreed d =? k) && (k <? 1000)) with false.
      * rewrite Z.add_0_r. apply Hh.
      * destruct (Z.eqb_spec (Decision.models_agreed d) k); [|reflexivity].
        destruct (Z.ltb_spec k 1000); [lia|reflexivity].
  - rewrite map_app. exact Hun'.
Qed.

Lemma init_tracked : MetricsCollector.tracked [] MetricsCollector.init.
Proof.
  unfold MetricsCollector.tracked. cbn.
  repeat split.
Qed.

Lemma observe_all_tracked (ds : list Decision.t) :
  size ds <= MetricsCollector.UINT64_MAX ->
  exists c, MetricsCollector.run MetricsCollector.init
                                 (map MetricsCollector.Observe ds) = Some c
            /\ MetricsCollector.tracked ds c.
Proof.
  induction ds as [|d ds IH] using rev_ind; intros Hmax.
  - exists MetricsCollector.init. split; [reflexivity|apply init_tracked].
  - rewrite size_app, size_cons, size_nil in Hmax.
    destruct IH as (c & Hrun & Htr); [lia|].
    destruct (observeDecision_tracked ds c d ltac:(lia) Htr) as (c' & Hobs & Htr').
    exists c'. split; [|exact Htr'].
    rewrite map_app, run_app, Hrun. cbn [bind map MetricsCollector.run MetricsCollector.step].
    rewrite Hobs. reflexivity.
Qed.

(** X20. The counters count the accepted decisions: after observing any
    sequence of at most UINT64_MAX decisions, a fresh collector reports as
    total_decisions the number of decisions that pass isValidDecision, as
    invalid_inputs the number of the others, as valid_decisions,
    rejected_confidence and rejected_consensus the accepted decisions of the
    corresponding status, as fallback_activations those whose status is
    REJECTED_LOW_CONFIDENCE, REJECTED_NO_CONSENSUS or FALLBACK_ACTIVATED
    (the fallback_used flag is not read), and as last_decision_timestamp_ns
    the timestamp of the last accepted decision; overflow_detected stays
    false. *)
Theorem X20_counters_count_accepted :
  forall ds : list Decision.t,
    size ds <= MetricsCollector.UINT64_MAX ->
    exists c : MetricsCollector.t,
      MetricsCollector.run MetricsCollector.init
                           (map MetricsCollector.Observe ds) = Some c
      /\ let s := MetricsCollector.getSnapshot c in
         MetricsSnapshot.total_decisions s = size (MetricsCollector.accepted ds)
         /\ MetricsSnapshot.invalid_inputs s
            = size ds - size (MetricsCollector.accepted ds)
         /\ MetricsSnapshot.valid_decisions s
            = MetricsCollector.count (MetricsCollector.has_status DECISION_VALID) ds
         /\ MetricsSnapshot.rejected_confidence s
            = MetricsCollector.count
                (MetricsCollector.has_status REJECTED_LOW_CONFIDENCE) ds
         /\ MetricsSnapshot.rejected_consensus s
            = MetricsCollector.count
                (MetricsCollector.has_status REJECTED_NO_CONSENSUS) ds
         /\ MetricsSnapshot.fallback_activations s
            = MetricsCollector.count MetricsCollector.is_fallback ds
         /\ MetricsSnapshot.last_decision_timestamp_ns s
            = last (map Decision.timestamp_ns (MetricsCollector.accepted ds)) 0
         /\ MetricsSnapshot.overflow_detected s = false.
Proof.
  intros ds Hmax.
  destruct (observe_all_tracked ds Hmax)
    as (c & Hrun & Ht & Hv & Hfb & Hrc & Hrs & Hinv & Hts & Hov & _).
  exists c. split; [exact Hrun|].
  cbv zeta. unfold MetricsCollector.getSnapshot.
  repeat split; assumption.
Qed.

Lemma X20_counters_count_accepted_witness :
  size Examples.observed <= MetricsCollector.UINT64_MAX
  /\ exists c : MetricsCollector.t,
       MetricsCollector.run MetricsCollector.init
                            (map MetricsCollector.Observe Examples.observed) = Some c
       /\ MetricsSnapshot.total_decisions (MetricsCollector.getSnapshot c) = 2
       /\ MetricsSnapshot.invalid_inputs (MetricsCollector.getSnapshot c) = 1.
Proof.
  assert (Hmax : size Examples.observed <= MetricsCollector.UINT64_MAX)
    by (vm_compute; discriminate).
  split; [exact Hmax|].
  destruct (X20_counters_count_accepted Examples.observed Hmax)
    as (c & Hrun & Ht & Hinv & _).
  exists c. split; [exact Hrun|].
  split; [rewrite Ht|rewrite Hinv]; vm_compute; reflexivity.
Defined.

Lemma count_none (P : Decision.t -> bool) (ds : list Decision.t) :
  (forall d, MetricsCollector.isValidDecision d = true -> P d = false) ->
  MetricsCollector.count P ds = 0.
Proof.
  intros H. unfold MetricsCollector.count, MetricsCollector.accepted.
  induction ds as [|d ds IH]; [reflexivity|].
  cbn [List.filter].
  destruct (MetricsCollector.isValidDecision d) eqn:E; [|exact IH].
  cbn [List.filter]. rewrite (H d E). exact IH.
Qed.

(** X21. The histogram counts the accepted decisions per models_agreed:
    after observing at most UINT64_MAX decisions, the entry of a key k is
    the number of accepted decisions whose models_agreed is k when k is
    below 1000 and that number is not zero, and there is no entry
    otherwise; every key present lies in [0, 1000) and its count between 1
    and total_decisions. *)
Theorem X21_histogram_counts :
  forall ds : list Decision.t,
    size ds <= MetricsCollector.UINT64_MAX ->
    exists c : MetricsCollector.t,
      MetricsCollector.run MetricsCollector.init
                           (map MetricsCollector.Observe ds) = Some c
      /\ let h := MetricsSnapshot.models_agreed_histogram
                    (MetricsCollector.getSnapshot c) in
         (forall k,
            MetricsCollector.hist_get h k
            = if MetricsCollector.count (MetricsCollector.in_bucket k) ds =? 0
              then None
              else Some (MetricsCollector.count (MetricsCollector.in_bucket k) ds))
         /\ (forall k n, MetricsCollector.hist_get h k = Some n ->
                         0 <= k < 1000
                         /\ 1 <= n <= MetricsSnapshot.total_decisions
                                        (MetricsCollector.getSnapshot c)).
Proof.
  intros ds Hmax.
  destruct (observe_all_tracked ds Hmax)
    as (c & Hrun & Ht & _ & _ & _ & _ & _ & _ & _ & Hh & _).
  exists c. split; [exact Hrun|].
  cbv zeta. unfold MetricsCollector.getSnapshot. split; [exact Hh|].
  intros k n Hk. rewrite Hh in Hk.
  pose proof (count_bounds (MetricsCollector.in_bucket k) ds) as Hb.
  destruct (Z.eqb_spec (MetricsCollector.count (MetricsCollector.in_bucket k) ds) 0)
    as [E|E]; [discriminate|].
  injection Hk as <-. rewrite Ht. split; [|lia].
  destruct (Z_lt_dec k 0) as [Hneg|Hpos].
  - exfalso. apply E. apply count_none. intros d Hd.
    pose proof (isValidDecision_models_agreed d Hd).
    unfold MetricsCollector.in_bucket.
    destruct (Z.eqb_spec (Decision.models_agreed d) k); [lia|reflexivity].
  - destruct (Z_lt_dec k 1000) as [Hlt|Hge]; [lia|].
    exfalso. apply E. apply count_none. intros d _.
    unfold MetricsCollector.in_bucket.
    destruct (Z.ltb_spec k 1000); [lia|]. apply andb_false_r.
Qed.

Lemma X21_histogram_counts_witness :
  size Examples.observed <= MetricsCollector.UINT64_MAX
  /\ exists c : MetricsCollector.t,
       MetricsCollector.run MetricsCollector.init
                            (map MetricsCollector.Observe Examples.observed) = Some c
       /\ MetricsCollector.hist_get
            (MetricsSnapshot.models_agreed_histogram (MetricsCollector.getSnapshot c))
            2
          = Some 1.
Proof.
  assert (Hmax : size Examples.observed <= MetricsCollector.UINT64_MAX)
    by (vm_compute; discriminate).
  split; [exact Hmax|].
  destruct (X21_histogram_counts Examples.observed Hmax) as (c & Hrun & Hh & _).
  exists c. split; [exact Hrun|].
  rewrite Hh. vm_compute. reflexivity.
Defined.

(** X22. The sample buffer is a ring over the last MAX_SAMPLES = 10000
    accepted confidences: after observing at most UINT64_MAX decisions, the
    sample vector read round from the write index (oldest first) is the
    list of the last 10000 confidences of the accepted decisions, in the
    order they were observed; up to 10000 accepted decisions the vector is
    that list itself and the write index is 0.  samples_buffer_full is set
    by the first overwrite, so it is still false when exactly 10000 samples
    are held. *)
Theorem X22_ring_keeps_latest_samples :
  forall ds : list Decision.t,
    size ds <= MetricsCollector.UINT64_MAX ->
    exists c : MetricsCollector.t,
      MetricsCollector.run MetricsCollector.init
                           (map MetricsCollector.Observe ds) = Some c
      /\ let confs := map Decision.confidence (MetricsCollector.accepted ds) in
         MetricsCollector.unrolled c
         = MetricsCollector.lastn MetricsCollector.MAX_SAMPLES confs
         /\ MetricsCollector.sample_write_index c
            = MetricsCollector.write_index_after (size confs)
         /\ MetricsCollector.samples_buffer_full c
            = (MetricsCollector.MAX_SAMPLES <? size confs)
         /\ (size confs <= MetricsCollector.MAX_SAMPLES ->
             MetricsCollector.confidence_samples c = confs
             /\ MetricsCollector.sample_write_index c = 0).
Proof.
  intros ds Hmax.
  destruct (observe_all_tracked ds Hmax)
    as (c & Hrun & _ & _ & _ & _ & _ & _ & _ & _ & _ & Hidx & Hfull & Hun).
  exists c. split; [exact Hrun|].
  cbv zeta. rewrite size_map.
  split; [exact Hun|]. split; [exact Hidx|]. split; [exact Hfull|].
  intros Hle.
  assert (H0 : MetricsCollector.sample_write_index c = 0).
  { rewrite Hidx. unfold MetricsCollector.write_index_after.
    rewrite Z.max_l by lia. reflexivity. }
  split; [|exact H0].
  unfold MetricsCollector.unrolled in Hun. rewrite H0 in Hun.
  change (Z.to_nat 0) with 0%nat in Hun. cbn [skipn firstn] in Hun.
  rewrite app_nil_r in Hun. rewrite Hun.
  apply lastn_short. now rewrite size_map.
Qed.

Lemma X22_ring_keeps_latest_samples_witness :
  size Examples.observed <= MetricsCollector.UINT64_MAX
  /\ exists c : MetricsCollector.t,
       MetricsCollector.run MetricsCollector.init
                            (map MetricsCollector.Observe Examples.observed) = Some c
       /\ MetricsCollector.confidence_samples c = [decimal 9 10; f0_2].
Proof.
  assert (Hmax : size Examples.observed <= MetricsCollector.UINT64_MAX)
    by (vm_compute; discriminate).
  split; [exact Hmax|].
  destruct (X22_ring_keeps_latest_samples Examples.observed Hmax)
    as (c & Hrun & _ & _ & _ & Hsmall).
  exists c. split; [exact Hrun|].
  destruct Hsmall as [-> _]; [vm_compute; discriminate|].
  vm_compute. reflexivity.
Defined.

Lemma recomputeStatistics_idem (s : MetricsSnapshot.t) (samples : list float) :
  MetricsCollector.recomputeStatistics
    (MetricsCollector.recomputeStatistics s samples) samples
  = MetricsCollector.recomputeStatistics s samples.
Proof.
  unfold MetricsCollector.recomputeStatistics.
  destruct (MetricsSnapshot.total_decisions s =? 0) eqn:E; [now rewrite E|].
  destruct samples as [|first rest]; collector_fields; rewrite E; reflexivity.
Qed.

Lemma recomputeStatistics_aside (s : MetricsSnapshot.t) (samples : list float)
      (invalid : Z) (overflow : bool) :
  s = MetricsCollector.recomputeStatistics s samples ->
  let s' :=
    MetricsSnapshot.mk
      (MetricsSnapshot.total_decisions s) (MetricsSnapshot.valid_decisions s)
      (MetricsSnapshot.fallback_activations s)
      (MetricsSnapshot.rejected_confidence s)
      (MetricsSnapshot.rejected_consensus s) invalid
      (MetricsSnapshot.average_confidence s) (MetricsSnapshot.fallback_rate s)
      (MetricsSnapshot.consensus_failure_rate s)
      (MetricsSnapshot.min_confidence s) (MetricsSnapshot.max_confidence s)
      (MetricsSnapshot.stddev_confidence s)
      (MetricsSnapshot.models_agreed_histogram s)
      (MetricsSnapshot.last_decision_timestamp_ns s) overflow in
  s' = MetricsCollector.recomputeStatistics s' samples.
Proof.
  intros H. cbv zeta.
  unfold MetricsCollector.recomputeStatistics in *. collector_fields.
  destruct (MetricsSnapshot.total_decisions s =? 0); [reflexivity|].
  destruct samples as [|first rest].
  - pose proof (f_equal MetricsSnapshot.average_confidence H) as H1.
    pose proof (f_equal MetricsSnapshot.fallback_rate H) as H2.
    pose proof (f_equal MetricsSnapshot.consensus_failure_rate H) as H3.
    pose proof (f_equal MetricsSnapshot.min_confidence H) as H4.
    pose proof (f_equal MetricsSnapshot.max_confidence H) as H5.
    pose proof (f_equal MetricsSnapshot.stddev_confidence H) as H6.
    clear H. collector_fields. congruence.
  - pose proof (f_equal MetricsSnapshot.average_confidence H) as H1.
    pose proof (f_equal MetricsSnapshot.fallback_rate H) as H2.
    pose proof (f_equal MetricsSnapshot.consensus_failure_rate H) as H3.
    pose proof (f_equal MetricsSnapshot.min_confidence H) as H4.
    pose proof (f_equal MetricsSnapshot.max_confidence H) as H5.
    pose proof (f_equal MetricsSnapshot.stddev_confidence H) as H6.
    clear H. collector_fields. congruence.
Qed.

Lemma observeDecision_synced (c c' : MetricsCollector.t) (d : Decision.t) :
  MetricsCollector.snapshot c
  = MetricsCollector.recomputeStatistics (MetricsCollector.snapshot c)
                                         (MetricsCollector.confidence_samples c) ->
  MetricsCollector.observeDecision c d = Some c' ->
  MetricsCollector.snapshot c'
  = MetricsCollector.recomputeStatistics (MetricsCollector.snapshot c')
                                         (MetricsCollector.confidence_samples c').
Proof.
  intros H. unfold MetricsCollector.observeDecision.
  destruct (MetricsCollector.isValidDecision d); cbn [negb].
  2:{ intros Hc. injection Hc as <-.
    cbn [MetricsCollector.snapshot MetricsCollector.confidence_samples].
    now apply recomputeStatistics_aside. }
  destruct (MetricsSnapshot.total_decisions (MetricsCollector.snapshot c)
            =? MetricsCollector.UINT64_MAX).
  { intros Hc. injection Hc as <-.
    cbn [MetricsCollector.snapshot MetricsCollector.confidence_samples].
    now apply recomputeStatistics_aside. }
  destruct (MetricsCollector.addConfidenceSample c (Decision.confidence d))
    as [[[samples index] full]|]; cbn [bind]; [|discriminate].
  destruct (MetricsCollector.track_status
              (Decision.status d) (MetricsCollector.snapshot c))
    as [[[nvalid nfallback] nconf] ncons].
  intros Hc. injection Hc as <-.
  cbn [MetricsCollector.snapshot MetricsCollector.confidence_samples].
  symmetry. apply recomputeStatistics_idem.
Qed.

Lemma run_synced (ops : list MetricsCollector.Op) (c c' : MetricsCollector.t) :
  MetricsCollector.snapshot c
  = MetricsCollector.recomputeStatistics (MetricsCollector.snapshot c)
                                         (MetricsCollector.confidence_samples c) ->
  MetricsCollector.run c ops = Some c' ->
  MetricsCollector.snapshot c'
  = MetricsCollector.recomputeStatistics (MetricsCollector.snapshot c')
                                         (MetricsCollector.confidence_samples c').
Proof.
  revert c. induction ops as [|op rest IH]; intros c H Hrun.
  - cbn in Hrun. injection Hrun as <-. exact H.
  - cbn [MetricsCollector.run] in Hrun.
    destruct op as [d|]; cbn [MetricsCollector.step] in Hrun.
    + destruct (MetricsCollector.observeDecision c d) as [c1|] eqn:E;
        cbn [bind] in Hrun; [|discriminate].
      exact (IH c1 (observeDecision_synced c c1 d H E) Hrun).
    + cbn [bind] in Hrun. apply (IH (MetricsCollector.reset c)); [reflexivity|exact Hrun].
Qed.

Lemma fge_refl (x : float) : is_nan x = false -> fge x x = true.
Proof.
  intros Hx. unfold fge, SFleb.
  pose proof (SFcompare_antisym x x) as Ha.
  pose proof (SFcompare_defined x x Hx Hx) as Hd.
  destruct (SFcompare x x) as [[| |]|]; cbn in Ha; try discriminate;
    try reflexivity.
  now contradiction Hd.
Qed.

Lemma isValidDecision_in_unit (d : Decision.t) :
  MetricsCollector.isValidDecision d = true -> MetricsCollector.in_unit (Decision.confidence d).
Proof.
  unfold MetricsCollector.isValidDecision. intros H.
  destruct (is_nan (Decision.confidence d)) eqn:Hnan; [discriminate|].
  destruct (MetricsCollector.isinf (Decision.confidence d)); [discriminate|].
  cbn [orb] in H.
  destruct (flt (Decision.confidence d) f0) eqn:H0; [discriminate|].
  destruct (flt f1 (Decision.confidence d)) eqn:H1; [discriminate|].
  repeat split; [assumption| |]; now apply not_flt_fge.
Qed.

Lemma minmax_element_fold (rest : list float) (m M : float) :
  is_nan m = false -> is_nan M = false -> Forall (fun x => is_nan x = false) rest ->
  fge M m = true ->
  fge (MetricsCollector.max_element M rest) (MetricsCollector.min_element m rest)
  = true.
Proof.
  unfold MetricsCollector.max_element, MetricsCollector.min_element.
  revert m M. induction rest as [|x rest IH]; intros m M Hm HM Hall Hle;
    [exact Hle|].
  inversion Hall as [|? ? Hx Hrest]; subst.
  cbn [fold_left]. apply IH; try assumption.
  - destruct (flt x m); assumption.
  - destruct (flt x M); assumption.
  - destruct (flt x m) eqn:E1, (flt x M) eqn:E2.
    + now apply flt_fge.
    + now apply fge_refl.
    + assumption.
    + now apply not_flt_fge.
Qed.

Lemma min_element_in (first : float) (rest : list float) :
  In (MetricsCollector.min_element first rest) (first :: rest).
Proof.
  unfold MetricsCollector.min_element.
  revert first. induction rest as [|x rest IH]; intros first; [now left|].
  cbn [fold_left]. destruct (flt x first).
  - right. apply IH.
  - destruct (IH first) as [H|H]; [left; exact H|right; right; exact H].
Qed.

Lemma max_element_in (first : float) (rest : list float) :
  In (MetricsCollector.max_element first rest) (first :: rest).
Proof.
  unfold MetricsCollector.max_element.
  revert first. induction rest as [|x rest IH]; intros first; [now left|].
  cbn [fold_left]. destruct (flt x first).
  - destruct (IH first) as [H|H]; [left; exact H|right; right; exact H].
  - right. apply IH.
Qed.

Lemma store_Forall (P : float -> Prop) (v v' : list float) (i : nat) (x : float) :
  MetricsCollector.store v i x = Some v' -> Forall P v -> P x ->
  Forall P v' /\ v' <> [].
Proof.
  revert i v'. induction v as [|y rest IH]; intros i v' H Hall Hx;
    [discriminate|].
  inversion Hall as [|? ? Hy Hrest]; subst.
  destruct i as [|k]; cbn [MetricsCollector.store] in H.
  - injection H as <-. split; [now constructor|discriminate].
  - destruct (MetricsCollector.store rest k x) as [rest'|] eqn:E;
      cbn [bind] in H; [|discriminate].
    injection H as <-. destruct (IH k rest' E Hrest Hx) as [Hr _].
    split; [now constructor|discriminate].
Qed.

Lemma addConfidenceSample_Forall (P : float -> Prop) (c : MetricsCollector.t)
      (x : float) (samples : list float) (index : Z) (full : bool) :
  MetricsCollector.addConfidenceSample c x = Some (samples, index, full) ->
  Forall P (MetricsCollector.confidence_samples c) -> P x ->
  Forall P samples /\ samples <> [].
Proof.
  unfold MetricsCollector.addConfidenceSample.
  destruct (size (MetricsCollector.confidence_samples c)
            <? MetricsCollector.MAX_SAMPLES).
  - intros H Hall Hx. injection H as <- _ _. split.
    + apply Forall_app. split; [assumption|now constructor].
    + intros E. apply app_eq_nil in E. destruct E as [_ E]. discriminate.
  - destruct (MetricsCollector.store (MetricsCollector.confidence_samples c)
                                     (Z.to_nat (MetricsCollector.sample_write_index c)) x)
      as [v'|] eqn:E; cbn [bind]; [|discriminate].
    intros H Hall Hx. injection H as <- _ _.
    exact (store_Forall P _ _ _ _ E Hall Hx).
Qed.

Lemma observeDecision_extremes (c c' : MetricsCollector.t) (d : Decision.t) :
  MetricsCollector.invariant c -> MetricsCollector.extremes_ok c ->
  MetricsCollector.observeDecision c d = Some c' ->
  MetricsCollector.extremes_ok c'.
Proof.
  intros (Ht & _) [Hall Hmm]. unfold MetricsCollector.observeDecision.
  destruct (MetricsCollector.isValidDecision d) eqn:Hvalid; cbn [negb].
  2:{ intros Hc. injection Hc as <-. split; [exact Hall|].
      collector_fields. exact Hmm. }
  destruct (MetricsSnapshot.total_decisions (MetricsCollector.snapshot c)
            =? MetricsCollector.UINT64_MAX) eqn:E.
  { intros Hc. injection Hc as <-. split; [exact Hall|].
    collector_fields. exact Hmm. }
  apply Z.eqb_neq in E.
  destruct (MetricsCollector.addConfidenceSample c (Decision.confidence d))
    as [[[samples index] full]|] eqn:Hadd; cbn [bind]; [|discriminate].
  destruct (addConfidenceSample_Forall MetricsCollector.in_unit _ _ _ _ _ Hadd Hall
                                       (isValidDecision_in_unit d Hvalid))
    as [Hall' Hne].
  destruct (MetricsCollector.track_status
              (Decision.status d) (MetricsCollector.snapshot c))
    as [[[nvalid nfallback] nconf] ncons].
  intros Hc. injection Hc as <-. split; [exact Hall'|].
  cbn [MetricsCollector.snapshot MetricsCollector.confidence_samples].
  destruct samples as [|first rest]; [now contradiction Hne|].
  unfold MetricsCollector.recomputeStatistics.
  cbn [MetricsSnapshot.total_decisions].
  rewrite to_uint64_small by lia.
  destruct (Z.eqb_spec
              (MetricsSnapshot.total_decisions (MetricsCollector.snapshot c) + 1) 0);
    [lia|].
  split; reflexivity.
Qed.

Lemma run_extremes (ops : list MetricsCollector.Op) (c c' : MetricsCollector.t) :
  MetricsCollector.invariant c -> MetricsCollector.extremes_ok c ->
  MetricsCollector.run c ops = Some c' ->
  MetricsCollector.extremes_ok c'.
Proof.
  revert c. induction ops as [|op rest IH]; intros c Hinv H Hrun.
  - cbn in Hrun. injection Hrun as <-. exact H.
  - cbn [MetricsCollector.run] in Hrun.
    destruct op as [d|]; cbn [MetricsCollector.step] in Hrun.
    + destruct (observeDecision_invariant c d Hinv) as (c1 & E & Hinv1).
      rewrite E in Hrun. cbn [bind] in Hrun.
      exact (IH c1 Hinv1 (observeDecision_extremes c c1 d Hinv H E) Hrun).
    + cbn [bind] in Hrun.
      apply (IH (MetricsCollector.reset c)); [apply init_invariant| |exact Hrun].
      split; [constructor|split; reflexivity].
Qed.

Lemma extremes_in_unit (c : MetricsCollector.t) :
  MetricsCollector.extremes_ok c ->
  let s := MetricsCollector.snapshot c in
  fge (MetricsSnapshot.min_confidence s) f0 = true
  /\ fge (MetricsSnapshot.max_confidence s) (MetricsSnapshot.min_confidence s) = true
  /\ fge f1 (MetricsSnapshot.max_confidence s) = true.
Proof.
  intros [Hall Hmm]. cbv zeta.
  destruct (MetricsCollector.confidence_samples c) as [|first rest].
  - destruct Hmm as [-> ->]. repeat split; vm_compute; reflexivity.
  - destruct Hmm as [-> ->].
    pose proof (min_element_in first rest) as Hmin.
    pose proof (max_element_in first rest) as Hmax.
    rewrite Forall_forall in Hall.
    destruct (Hall _ Hmin) as (_ & H0 & _).
    destruct (Hall _ Hmax) as (_ & _ & H1).
    repeat split; try assumption.
    apply minmax_element_fold.
    + apply (Hall first). now left.
    + apply (Hall first). now left.
    + apply Forall_forall. intros x Hx. apply (Hall x). now right.
    + apply fge_refl. apply (Hall first). now left.
Qed.


(** X23. The derived statistics are never stale: after every sequence of
    observeDecision and reset calls on a fresh collector, whether the
    decisions were counted, refused as invalid or dropped by the overflow
    guard, the snapshot is what recomputeStatistics yields on the current
    counters and samples; as soon as a decision has been counted,
    fallback_rate and consensus_failure_rate are the single-precision
    quotients of fallback_activations and rejected_consensus by
    total_decisions, and isHealthy compares that quotient with its
    argument. *)
Theorem X23_statistics_in_sync :
  forall ops : list MetricsCollector.Op,
    exists c : MetricsCollector.t,
      MetricsCollector.run MetricsCollector.init ops = Some c
      /\ let s := MetricsCollector.getSnapshot c in
         s = MetricsCollector.recomputeStatistics
               s (MetricsCollector.confidence_samples c)
         /\ (MetricsSnapshot.total_decisions s <> 0 ->
             MetricsSnapshot.fallback_rate s
             = fdiv (F32.of_Z (MetricsSnapshot.fallback_activations s))
                    (F32.of_Z (MetricsSnapshot.total_decisions s))
             /\ MetricsSnapshot.consensus_failure_rate s
                = fdiv (F32.of_Z (MetricsSnapshot.rejected_consensus s))
                       (F32.of_Z (MetricsSnapshot.total_decisions s))
             /\ forall max_fallback_rate,
                  MetricsCollector.isHealthy c max_fallback_rate
                  = fge max_fallback_rate
                        (fdiv (F32.of_Z (MetricsSnapshot.fallback_activations s))
                              (F32.of_Z (MetricsSnapshot.total_decisions s)))
                    && negb (MetricsSnapshot.overflow_detected s)).
Proof.
  intros ops.
  destruct (run_invariant ops MetricsCollector.init init_invariant)
    as (c & Hrun & _).
  exists c. split; [exact Hrun|].
  pose proof (run_synced ops MetricsCollector.init c (eq_refl _) Hrun) as Hsync.
  cbv zeta. unfold MetricsCollector.getSnapshot. split; [exact Hsync|].
  intros Hne.
  assert (Hrates :
    MetricsSnapshot.fallback_rate (MetricsCollector.snapshot c)
    = fdiv (F32.of_Z (MetricsSnapshot.fallback_activations (MetricsCollector.snapshot c)))
           (F32.of_Z (MetricsSnapshot.total_decisions (MetricsCollector.snapshot c)))
    /\ MetricsSnapshot.consensus_failure_rate (MetricsCollector.snapshot c)
       = fdiv (F32.of_Z (MetricsSnapshot.rejected_consensus (MetricsCollector.snapshot c)))
              (F32.of_Z (MetricsSnapshot.total_decisions (MetricsCollector.snapshot c)))).
  { pose proof (f_equal MetricsSnapshot.fallback_rate Hsync) as H1.
    pose proof (f_equal MetricsSnapshot.consensus_failure_rate Hsync) as H2.
    unfold MetricsCollector.recomputeStatistics in H1, H2.
    destruct (Z.eqb_spec (MetricsSnapshot.total_decisions (MetricsCollector.snapshot c)) 0)
      as [E|_]; [contradiction|].
    destruct (MetricsCollector.confidence_samples c); split; assumption. }
  destruct Hrates as [Hr Hc]. split; [exact Hr|]. split; [exact Hc|].
  intros m. unfold MetricsCollector.isHealthy. now rewrite <- Hr.
Qed.

(** X24. The confidence extremes stay within the unit interval: after every
    sequence of observeDecision and reset calls on a fresh collector, every
    stored sample is a number between 0 and 1 (never a NaN), and
    0 <= min_confidence <= max_confidence <= 1 holds in the snapshot; when
    the buffer is not empty both extremes are stored samples. *)
Theorem X24_confidence_extremes :
  forall ops : list MetricsCollector.Op,
    exists c : MetricsCollector.t,
      MetricsCollector.run MetricsCollector.init ops = Some c
      /\ let s := MetricsCollector.getSnapshot c in
         Forall MetricsCollector.in_unit (MetricsCollector.confidence_samples c)
         /\ fge (MetricsSnapshot.min_confidence s) f0 = true
         /\ fge (MetricsSnapshot.max_confidence s) (MetricsSnapshot.min_confidence s)
            = true
         /\ fge f1 (MetricsSnapshot.max_confidence s) = true
         /\ (MetricsCollector.confidence_samples c <> [] ->
             In (MetricsSnapshot.min_confidence s)
                (MetricsCollector.confidence_samples c)
             /\ In (MetricsSnapshot.max_confidence s)
                   (MetricsCollector.confidence_samples c)).
Proof.
  intros ops.
  destruct (run_invariant ops MetricsCollector.init init_invariant)
    as (c & Hrun & _).
  exists c. split; [exact Hrun|].
  assert (Hext : MetricsCollector.extremes_ok c).
  { apply (run_extremes ops MetricsCollector.init c init_invariant); [|exact Hrun].
    split; [constructor|split; reflexivity]. }
  destruct (extremes_in_unit c Hext) as (H0 & Hle & H1).
  cbv zeta. unfold MetricsCollector.getSnapshot.
  destruct Hext as [Hall Hmm].
  repeat split; try assumption.
  - destruct (MetricsCollector.confidence_samples c) as [|first rest];
      [contradiction|].
    destruct Hmm as [-> _]. apply min_element_in.
  - destruct (MetricsCollector.confidence_samples c) as [|first rest];
      [contradiction|].
    destruct Hmm as [_ ->]. apply max_element_in.
Qed.

(** X25. What the collector makes of the engine's decisions: a decision
    returned by [makeDecision] at a clock reading other than 0 is accepted
    by the collector whenever it is not DECISION_VALID (its confidence is 0,
    0.1f or 0.2f); a DECISION_VALID one is accepted exactly when its
    confidence, the mean of the confidences of the validated signals, is
    neither a NaN nor infinite, not below 0 and not above 1; at clock
    reading 0 every decision is refused as an invalid input. *)
Theorem X25_engine_decisions_accepted :
  forall (tanhf : float -> float) (e e' : AILLEEngine.t) (now : Z)
         (signals : list ModelSignal.t) (d : Decision.t),
    AILLEEngine.makeDecision tanhf e now signals = Some (d, e') ->
    (now = 0 -> MetricsCollector.isValidDecision d = false)
    /\ (now <> 0 -> Decision.status d <> DECISION_VALID ->
        MetricsCollector.isValidDecision d = true)
    /\ (now <> 0 -> Decision.status d = DECISION_VALID ->
        MetricsCollector.isValidDecision d
        = negb (is_nan (Decision.confidence d)
                || MetricsCollector.isinf (Decision.confidence d)
                || flt (Decision.confidence d) f0
                || flt f1 (Decision.confidence d))).
Proof.
  intros tanhf e e' now signals d H.
  assert (Hts : Decision.timestamp_ns d = now).
  { destruct (makeDecision_shape tanhf _ _ _ _ _ H)
      as [(_ & _ & ->)|[(_ & _ & _ & ->)|[(c & _ & _ & _ & _ & _ & ->)
                                        |(c & cv & _ & _ & _ & _ & _ & _ & ->)]]];
      reflexivity. }
  assert (Hma : 0 <= Decision.models_agreed d).
  { destruct (makeDecision_shape tanhf _ _ _ _ _ H)
      as [(_ & _ & ->)|[(_ & _ & _ & ->)|[(c & _ & _ & Hc & _ & _ & ->)
                                        |(c & cv & _ & _ & Hc & _ & _ & _ & ->)]]];
      cbn [Decision.models_agreed]; try lia;
      destruct (checkConsensus_bounds _ _ _ Hc) as [Hb _]; lia. }
  split; [|split].
  - intros ->. unfold MetricsCollector.isValidDecision. rewrite Hts.
    destruct (is_nan (Decision.confidence d)
              || MetricsCollector.isinf (Decision.confidence d)); [reflexivity|].
    destruct (flt (Decision.confidence d) f0 || flt f1 (Decision.confidence d));
      reflexivity.
  - intros Hnow Hst. unfold MetricsCollector.isValidDecision.
    rewrite Hts. destruct (Z.eqb_spec now 0) as [|_]; [contradiction|].
    destruct (Z.ltb_spec (Decision.models_agreed d) 0) as [|_]; [lia|].
    destruct (makeDecision_shape tanhf _ _ _ _ _ H)
      as [(_ & _ & ->)|[(_ & _ & _ & ->)|[(c & _ & _ & _ & _ & _ & ->)
                                        |(c & cv & _ & _ & _ & _ & _ & _ & ->)]]];
      cbn [Decision.confidence Decision.status] in *;
      try (exfalso; apply Hst; reflexivity);
      vm_compute; reflexivity.
  - intros Hnow _. unfold MetricsCollector.isValidDecision.
    rewrite Hts. destruct (Z.eqb_spec now 0) as [|_]; [contradiction|].
    destruct (Z.ltb_spec (Decision.models_agreed d) 0) as [|_]; [lia|].
    destruct (is_nan (Decision.confidence d)
              || MetricsCollector.isinf (Decision.confidence d)); [reflexivity|].
    cbn [orb].
    destruct (flt (Decision.confidence d) f0 || flt f1 (Decision.confidence d));
      reflexivity.
Qed.


Lemma X25_engine_decisions_accepted_witness :
  exists (d : Decision.t) (e' : AILLEEngine.t),
    AILLEEngine.makeDecision Examples.tanh_id AILLEEngine.init 7
                             Examples.split_batch = Some (d, e')
    /\ MetricsCollector.isValidDecision d = true.
Proof.
  destruct (makeDecision_defined Examples.tanh_id AILLEEngine.init 7
                                 Examples.split_batch)
    as [d [e' H]]; [vm_compute; discriminate|repeat constructor|].
  exists d, e'. split; [exact H|].
  apply (proj1 (proj2 (X25_engine_decisions_accepted
                         Examples.tanh_id _ _ _ _ _ H))).
  - discriminate.
  - assert (Hd : AILLEEngine.makeDecision Examples.tanh_id AILLEEngine.init 7
                                          Examples.split_batch
                 = Some (Decision.mk (AILLEEngine.getFallbackValue AILLEEngine.init)
                                     REJECTED_NO_CONSENSUS f0_2 1 true 7 []
                                     "No consensus - fallback",
                         AILLEEngine.init))
      by (vm_compute; reflexivity).
    rewrite Hd in H. injection H as <- _. discriminate.
Defined.

Lemma observeDecision_saturated (c : MetricsCollector.t) (d : Decision.t) :
  MetricsSnapshot.total_decisions (MetricsCollector.snapshot c)
  = MetricsCollector.UINT64_MAX ->
  exists c',
    MetricsCollector.observeDecision c d = Some c'
    /\ (let s := MetricsCollector.snapshot c in
        let s' := MetricsCollector.snapshot c' in
        MetricsSnapshot.total_decisions s' = MetricsSnapshot.total_decisions s
        /\ MetricsSnapshot.valid_decisions s' = MetricsSnapshot.valid_decisions s
        /\ MetricsSnapshot.fallback_activations s'
           = MetricsSnapshot.fallback_activations s
        /\ MetricsSnapshot.rejected_confidence s'
           = MetricsSnapshot.rejected_confidence s
        /\ MetricsSnapshot.rejected_consensus s'
           = MetricsSnapshot.rejected_consensus s
        /\ MetricsSnapshot.models_agreed_histogram s'
           = MetricsSnapshot.models_agreed_histogram s
        /\ MetricsSnapshot.last_decision_timestamp_ns s'
           = MetricsSnapshot.last_decision_timestamp_ns s
        /\ MetricsSnapshot.fallback_rate s' = MetricsSnapshot.fallback_rate s
        /\ MetricsSnapshot.average_confidence s'
           = MetricsSnapshot.average_confidence s)
    /\ MetricsCollector.confidence_samples c' = MetricsCollector.confidence_samples c
    /\ MetricsSnapshot.overflow_detected (MetricsCollector.snapshot c')
       = MetricsSnapshot.overflow_detected (MetricsCollector.snapshot c)
         || MetricsCollector.isValidDecision d
    /\ MetricsCollector.overflow_flag c'
       = MetricsCollector.overflow_flag c || MetricsCollector.isValidDecision d.
Proof.
  intros Hmax. unfold MetricsCollector.observeDecision.
  destruct (MetricsCollector.isValidDecision d); cbn [negb].
  - rewrite Hmax, Z.eqb_refl. eexists. split; [reflexivity|].
    collector_fields. rewrite !orb_true_r. repeat split.
  - eexists. split; [reflexivity|].
    collector_fields. rewrite !orb_false_r. repeat split.
Qed.

Lemma run_saturated (ds : list Decision.t) (c : MetricsCollector.t) :
  MetricsSnapshot.total_decisions (MetricsCollector.snapshot c)
  = MetricsCollector.UINT64_MAX ->
  exists c',
    MetricsCollector.run c (map MetricsCollector.Observe ds) = Some c'
    /\ (let s := MetricsCollector.snapshot c in
        let s' := MetricsCollector.snapshot c' in
        MetricsSnapshot.total_decisions s' = MetricsSnapshot.total_decisions s
        /\ MetricsSnapshot.valid_decisions s' = MetricsSnapshot.valid_decisions s
        /\ MetricsSnapshot.fallback_activations s'
           = MetricsSnapshot.fallback_activations s
        /\ MetricsSnapshot.rejected_confidence s'
           = MetricsSnapshot.rejected_confidence s
        /\ MetricsSnapshot.rejected_consensus s'
           = MetricsSnapshot.rejected_consensus s
        /\ MetricsSnapshot.models_agreed_histogram s'
           = MetricsSnapshot.models_agreed_histogram s
        /\ MetricsSnapshot.last_decision_timestamp_ns s'
           = MetricsSnapshot.last_decision_timestamp_ns s
        /\ MetricsSnapshot.fallback_rate s' = MetricsSnapshot.fallback_rate s
        /\ MetricsSnapshot.average_confidence s'
           = MetricsSnapshot.average_confidence s)
    /\ MetricsCollector.confidence_samples c' = MetricsCollector.confidence_samples c
    /\ MetricsSnapshot.overflow_detected (MetricsCollector.snapshot c')
       = MetricsSnapshot.overflow_detected (MetricsCollector.snapshot c)
         || existsb MetricsCollector.isValidDecision ds
    /\ MetricsCollector.overflow_flag c'
       = MetricsCollector.overflow_flag c
         || existsb MetricsCollector.isValidDecision ds.
Proof.
  revert c. induction ds as [|d ds IH]; intros c Hmax.
  - exists c. split; [reflexivity|]. cbn [existsb]. rewrite !orb_false_r.
    repeat split.
  - destruct (observeDecision_saturated c d Hmax)
      as (c1 & Hobs & (T1 & T2 & T3 & T4 & T5 & T6 & T7 & T8 & T9) & Hs1 & Ho1 & Hf1).
    destruct (IH c1 ltac:(now rewrite T1))
      as (c' & Hrun & (U1 & U2 & U3 & U4 & U5 & U6 & U7 & U8 & U9) & Hs & Ho & Hf).
    exists c'. split.
    { cbn [map MetricsCollector.run MetricsCollector.step]. rewrite Hobs. exact Hrun. }
    cbn [existsb]. rewrite !orb_assoc, <- Ho1, <- Hf1.
    repeat split; try congruence.
Qed.

(** X26. total_decisions saturates instead of wrapping around: once it has
    reached UINT64_MAX, observations change nothing but invalid_inputs and
    the overflow flags: the counters, the histogram, the last timestamp,
    the fallback rate, the average confidence and the samples stay as they
    are; the first accepted decision sets overflow_detected and the overflow
    flag, and from then on isHealthy answers false for every threshold. *)
Theorem X26_total_saturates :
  forall (c : MetricsCollector.t) (ds : list Decision.t),
    MetricsSnapshot.total_decisions (MetricsCollector.getSnapshot c)
    = MetricsCollector.UINT64_MAX ->
    exists c' : MetricsCollector.t,
      MetricsCollector.run c (map MetricsCollector.Observe ds) = Some c'
      /\ (let s := MetricsCollector.getSnapshot c in
          let s' := MetricsCollector.getSnapshot c' in
          MetricsSnapshot.total_decisions s' = MetricsCollector.UINT64_MAX
          /\ MetricsSnapshot.valid_decisions s' = MetricsSnapshot.valid_decisions s
          /\ MetricsSnapshot.fallback_activations s'
             = MetricsSnapshot.fallback_activations s
          /\ MetricsSnapshot.rejected_confidence s'
             = MetricsSnapshot.rejected_confidence s
          /\ MetricsSnapshot.rejected_consensus s'
             = MetricsSnapshot.rejected_consensus s
          /\ MetricsSnapshot.models_agreed_histogram s'
             = MetricsSnapshot.models_agreed_histogram s
          /\ MetricsSnapshot.last_decision_timestamp_ns s'
             = MetricsSnapshot.last_decision_timestamp_ns s
          /\ MetricsSnapshot.fallback_rate s' = MetricsSnapshot.fallback_rate s
          /\ MetricsSnapshot.average_confidence s'
             = MetricsSnapshot.average_confidence s)
      /\ MetricsCollector.confidence_samples c'
         = MetricsCollector.confidence_samples c
      /\ (existsb MetricsCollector.isValidDecision ds = true ->
          MetricsSnapshot.overflow_detected (MetricsCollector.getSnapshot c') = true
          /\ MetricsCollector.overflow_flag c' = true
          /\ forall max_fallback_rate,
               MetricsCollector.isHealthy c' max_fallback_rate = false).
Proof.
  intros c ds Hmax. unfold MetricsCollector.getSnapshot in *.
  destruct (run_saturated ds c Hmax)
    as (c' & Hrun & (T1 & T2 & T3 & T4 & T5 & T6 & T7 & T8 & T9) & Hs & Ho & Hf).
  exists c'. split; [exact Hrun|].
  split; [cbv zeta; repeat split; congruence|].
  split; [exact Hs|].
  intros Hex. rewrite Hex, orb_true_r in Ho, Hf.
  split; [exact Ho|]. split; [exact Hf|].
  intros m. unfold MetricsCollector.isHealthy. rewrite Ho. apply andb_false_r.
Qed.

Lemma X26_total_saturates_witness :
  MetricsSnapshot.total_decisions (MetricsCollector.getSnapshot Examples.saturated)
  = MetricsCollector.UINT64_MAX
  /\ exists c' : MetricsCollector.t,
       MetricsCollector.run Examples.saturated
                            (map MetricsCollector.Observe Examples.observed) = Some c'
       /\ MetricsSnapshot.total_decisions (MetricsCollector.getSnapshot c')
          = MetricsCollector.UINT64_MAX
       /\ MetricsCollector.confidence_samples c' = [decimal 9 10].
Proof.
  assert (Hmax : MetricsSnapshot.total_decisions
                   (MetricsCollector.getSnapshot Examples.saturated)
                 = MetricsCollector.UINT64_MAX) by reflexivity.
  split; [exact Hmax|].
  destruct (X26_total_saturates Examples.saturated Examples.observed Hmax)
    as (c' & Hrun & (Ht & _) & Hs & _).
  exists c'. split; [exact Hrun|]. split; [exact Ht|exact Hs].
Defined.

Lemma makeDecision_observed (tanhf : float -> float) (e e' : AILLEEngine.t)
      (now : Z) (signals : list ModelSignal.t) (d : Decision.t) :
  AILLEEngine.makeDecision tanhf e now signals = Some (d, e') ->
  now <> 0 ->
  Decision.status d <> FALLBACK_ACTIVATED
  /\ MetricsCollector.is_fallback d = Decision.fallback_used d
  /\ (Decision.status d <> DECISION_VALID ->
      MetricsCollector.isValidDecision d = true).
Proof.
  intros H Hnow.
  destruct (makeDecision_shape tanhf _ _ _ _ _ H)
    as [(_ & _ & ->)|[(_ & _ & _ & ->)|[(c & _ & _ & Hc & _ & _ & ->)
                                      |(c & cv & _ & _ & _ & _ & _ & _ & ->)]]];
    (split; [discriminate|split; [reflexivity|]]); intros Hst;
    try (exfalso; apply Hst; reflexivity);
    unfold MetricsCollector.isValidDecision;
    cbn [Decision.confidence Decision.timestamp_ns Decision.models_agreed].
  - destruct (Z.eqb_spec now 0) as [|_]; [contradiction|]. vm_compute. reflexivity.
  - destruct (Z.eqb_spec now 0) as [|_]; [contradiction|]. vm_compute. reflexivity.
  - destruct (Z.eqb_spec now 0) as [|_]; [contradiction|].
    destruct (checkConsensus_bounds _ _ _ Hc) as [Hb _].
    destruct (Z.ltb_spec (AILLEEngine.models_agreed c) 0) as [|_]; [lia|].
    vm_compute. reflexivity.
Qed.

Lemma engine_collector_counts (ds : list Decision.t) :
  Forall (fun d =>
            Decision.status d <> FALLBACK_ACTIVATED
            /\ MetricsCollector.is_fallback d = Decision.fallback_used d
            /\ (Decision.status d <> DECISION_VALID ->
                MetricsCollector.isValidDecision d = true))
         ds ->
  MetricsCollector.count MetricsCollector.is_fallback ds
  = size (List.filter Decision.fallback_used ds)
  /\ MetricsCollector.count MetricsCollector.is_fallback ds
     = MetricsCollector.count (MetricsCollector.has_status REJECTED_LOW_CONFIDENCE) ds
       + MetricsCollector.count (MetricsCollector.has_status REJECTED_NO_CONSENSUS) ds
  /\ size (MetricsCollector.accepted ds)
     = MetricsCollector.count (MetricsCollector.has_status DECISION_VALID) ds
       + MetricsCollector.count MetricsCollector.is_fallback ds
       + size (List.filter (MetricsCollector.has_status ERROR_NO_MODELS) ds)
  /\ size ds - size (MetricsCollector.accepted ds)
     = size (List.filter (MetricsCollector.has_status DECISION_VALID) ds)
       - MetricsCollector.count (MetricsCollector.has_status DECISION_VALID) ds.
Proof.
  unfold MetricsCollector.count, MetricsCollector.accepted.
  induction 1 as [|d ds (Hnf & Hfb & Hacc) _ (IH1 & IH2 & IH3 & IH4)];
    [repeat split|].
  assert (Hs : forall st, MetricsCollector.has_status st d
                          = Report.status_eqb (Decision.status d) st)
    by reflexivity.
  assert (Hf : MetricsCollector.is_fallback d
               = match Decision.status d with
                 | REJECTED_LOW_CONFIDENCE | REJECTED_NO_CONSENSUS
                 | FALLBACK_ACTIVATED => true
                 | DECISION_VALID | ERROR_NO_MODELS => false
                 end) by reflexivity.
  cbn [List.filter]. rewrite <- Hfb.
  destruct (MetricsCollector.isValidDecision d) eqn:Hv; cbn [List.filter];
    rewrite ?Hs, ?Hf;
    destruct (Decision.status d) eqn:Hst; cbn [Report.status_eqb];
    try (now contradiction Hnf);
    try (assert (Hc : false = true) by (apply Hacc; discriminate); discriminate);
    rewrite ?size_cons; repeat split; lia.
Qed.

(** X27. The collector behind the engine, as in
    examples/metrics_integration.cpp: when every observed decision was
    returned by [makeDecision] at a clock reading other than 0, every
    rejection is counted, so fallback_activations is the number of decisions
    with fallback_used set and equals rejected_confidence +
    rejected_consensus; total_decisions = valid_decisions +
    fallback_activations + the number of empty-batch errors; and
    invalid_inputs is the number of DECISION_VALID decisions that were
    refused, the only ones the collector can refuse. *)
Theorem X27_collector_on_engine_decisions :
  forall (tanhf : float -> float) (ds : list Decision.t),
    Forall (fun d =>
              exists e now signals e',
                now <> 0
                /\ AILLEEngine.makeDecision tanhf e now signals = Some (d, e'))
           ds ->
    size ds <= MetricsCollector.UINT64_MAX ->
    exists c : MetricsCollector.t,
      MetricsCollector.run MetricsCollector.init
                           (map MetricsCollector.Observe ds) = Some c
      /\ let s := MetricsCollector.getSnapshot c in
         MetricsSnapshot.fallback_activations s
         = size (List.filter Decision.fallback_used ds)
         /\ MetricsSnapshot.fallback_activations s
            = MetricsSnapshot.rejected_confidence s
              + MetricsSnapshot.rejected_consensus s
         /\ MetricsSnapshot.total_decisions s
            = MetricsSnapshot.valid_decisions s
              + MetricsSnapshot.fallback_activations s
              + size (List.filter (MetricsCollector.has_status ERROR_NO_MODELS) ds)
         /\ MetricsSnapshot.invalid_inputs s
            = size (List.filter (MetricsCollector.has_status DECISION_VALID) ds)
              - MetricsSnapshot.valid_decisions s.
Proof.
  intros tanhf ds Hall Hmax.
  destruct (observe_all_tracked ds Hmax)
    as (c & Hrun & Ht & Hv & Hfb & Hrc & Hrs & Hinv & _).
  exists c. split; [exact Hrun|].
  cbv zeta. unfold MetricsCollector.getSnapshot.
  rewrite Ht, Hv, Hfb, Hrc, Hrs, Hinv.
  destruct (engine_collector_counts ds) as (H1 & H2 & H3 & H4).
  { eapply Forall_impl; [|exact Hall].
    intros d (e & now & signals & e' & Hnow & Hd).
    exact (makeDecision_observed tanhf _ _ _ _ _ Hd Hnow). }
  repeat split; assumption.
Qed.

Lemma X27_collector_on_engine_decisions_witness :
  (Forall (fun d =>
             exists e now signals e',
               now <> 0
               /\ AILLEEngine.makeDecision Examples.tanh_id e now signals
                  = Some (d, e'))
          Examples.engine_decisions
   /\ size Examples.engine_decisions <= MetricsCollector.UINT64_MAX)
  /\ exists c : MetricsCollector.t,
       MetricsCollector.run MetricsCollector.init
                            (map MetricsCollector.Observe Examples.engine_decisions)
       = Some c
       /\ MetricsSnapshot.fallback_activations (MetricsCollector.getSnapshot c) = 2
       /\ MetricsSnapshot.rejected_confidence (MetricsCollector.getSnapshot c)
          + MetricsSnapshot.rejected_consensus (MetricsCollector.getSnapshot c) = 2
       /\ MetricsSnapshot.total_decisions (MetricsCollector.getSnapshot c)
          = MetricsSnapshot.valid_decisions (MetricsCollector.getSnapshot c) + 2 + 1
       /\ MetricsSnapshot.invalid_inputs (MetricsCollector.getSnapshot c)
          = 2 - MetricsSnapshot.valid_decisions (MetricsCollector.getSnapshot c).
Proof.
  assert (H1 : Forall (fun d =>
                         exists e now signals e',
                           now <> 0
                           /\ AILLEEngine.makeDecision Examples.tanh_id e now signals
                              = Some (d, e'))
                      Examples.engine_decisions).
  { repeat constructor.
    - exists AILLEEngine.init, 7, Examples.agreeing_batch, Examples.agreeing_engine.
      split; [discriminate|vm_compute; reflexivity].
    - exists AILLEEngine.init, 8, Examples.split_batch, AILLEEngine.init.
      split; [discriminate|vm_compute; reflexivity].
    - exists AILLEEngine.init, 9, Examples.weak_batch, AILLEEngine.init.
      split; [discriminate|vm_compute; reflexivity].
    - exists AILLEEngine.init, 10, [], AILLEEngine.init.
      split; [discriminate|vm_compute; reflexivity].
    - exists AILLEEngine.init, 11, Examples.overconfident_batch,
        Examples.agreeing_engine.
      split; [discriminate|vm_compute; reflexivity]. }
  assert (H2 : size Examples.engine_decisions <= MetricsCollector.UINT64_MAX)
    by (vm_compute; discriminate).
  split; [split; assumption|].
  destruct (X27_collector_on_engine_decisions
              Examples.tanh_id Examples.engine_decisions H1 H2)
    as (c & Hrun & Hfb & Hrej & Htot & Hinv).
  exists c. split; [exact Hrun|].
  assert (Hfb2 : MetricsSnapshot.fallback_activations (MetricsCollector.getSnapshot c)
                 = 2) by (rewrite Hfb; vm_compute; reflexivity).
  split; [exact Hfb2|]. split; [rewrite <- Hrej; exact Hfb2|].
  split.
  - rewrite Htot, Hfb2. f_equal.
  - rewrite Hinv. f_equal.
Defined.
